(** * Leave manager API: request lifecycle and role checks

    A shallow embedding of [server/server.ts]: the zod schemas, the
    [requests] and [worklogs] tables, the role middleware and the route
    handlers, followed by the properties of the request lifecycle.

    Conventions.
    - A JavaScript string is kept as its UTF-8 bytes (a [string]), the form
      SQLite stores and compares; where a regular expression looks at
      characters outside ASCII the bytes are decoded to UTF-16 code units
      first.
    - A handler is a function from the request (the authenticated user,
      parameters, body), the values it draws from its environment (clock,
      fresh identifier) and the server state to a response and a new state.
    - [authRequired] stands on the opaque authenticator: what it finds in a
      request (no token, a bad token, an unknown subject, a user) is the
      [Credentials] a route receives.
    - zod, multer and the [Date] of the engine are libraries: their parts
      the server uses are written out in [Zod], [Multer] and [JsDate]. *)

From Stdlib Require Import ZArith NArith List String Ascii Bool Lia.
From Stdlib Require Import Sorting.Sorted Sorting.Permutation.
From Stdlib Require Import DecimalString.
Import ListNotations.

Local Open Scope string_scope.
Local Open Scope list_scope.
Local Open Scope Z_scope.

(** ** JavaScript strings *)

Module JsString.

(** UTF-8 bytes to code points; [need] continuation bytes are still
    expected and [acc] holds the bits read so far. *)
Fixpoint utf8_decode_aux (need : nat) (acc : N) (s : string) : list N :=
  match s with
  | EmptyString => []
  | String a r =>
      let b := N_of_ascii a in
      match need with
      | O =>
          if (b <? 128)%N then b :: utf8_decode_aux 0 0%N r
          else if (b <? 224)%N then utf8_decode_aux 1 (N.land b 31) r
          else if (b <? 240)%N then utf8_decode_aux 2 (N.land b 15) r
          else utf8_decode_aux 3 (N.land b 7) r
      | S O => (acc * 64 + N.land b 63)%N :: utf8_decode_aux 0 0%N r
      | S n => utf8_decode_aux n (acc * 64 + N.land b 63)%N r
      end
  end.

Definition utf8_decode (s : string) : list N := utf8_decode_aux 0 0%N s.

(** Code points to UTF-16 code units (a surrogate pair above the BMP). *)
Definition utf16_units_of (cp : N) : list N :=
  if (cp <? 65536)%N then [cp]
  else [(55296 + (cp - 65536) / 1024)%N; (56320 + (cp - 65536) mod 1024)%N].

Definition code_units (s : string) : list N :=
  flat_map utf16_units_of (utf8_decode s).

(** A code unit of the BMP back to UTF-8 bytes. *)
Definition utf8_encode_unit (u : N) : string :=
  if (u <? 128)%N then String (ascii_of_N u) EmptyString
  else if (u <? 2048)%N then
    String (ascii_of_N (192 + u / 64))
      (String (ascii_of_N (128 + u mod 64)) EmptyString)
  else
    String (ascii_of_N (224 + u / 4096))
      (String (ascii_of_N (128 + (u / 64) mod 64))
         (String (ascii_of_N (128 + u mod 64)) EmptyString)).

Definition between (lo hi u : N) : bool := ((lo <=? u) && (u <=? hi))%N.

(** [\d] *)
Definition is_digit (u : N) : bool := between 48 57 u.

(** [\w] *)
Definition is_word (u : N) : bool :=
  between 48 57 u || between 65 90 u || between 97 122 u || (u =? 95)%N.

(** [\s]: the white space and line terminator code points of ECMAScript. *)
Definition is_space (u : N) : bool :=
  between 9 13 u || (u =? 32)%N || (u =? 160)%N || (u =? 5760)%N
  || between 8192 8202 u || (u =? 8232)%N || (u =? 8233)%N
  || (u =? 8239)%N || (u =? 8287)%N || (u =? 12288)%N || (u =? 65279)%N.

(** [String(n)] for an integer. *)
Definition of_Z (n : Z) : string := NilZero.string_of_int (Z.to_int n).

Fixpoint repeat_string (n : nat) (fill : string) : string :=
  match n with
  | O => EmptyString
  | S k => (fill ++ repeat_string k fill)%string
  end.

(** [s.padStart(n, '0')] *)
Definition padStart0 (n : nat) (s : string) : string :=
  (repeat_string (n - String.length s) "0" ++ s)%string.

(** [s.startsWith(p)], the meaning of a regular expression [^p] whose
    body [p] is a literal. *)
Definition starts_with (p s : string) : bool := String.prefix p s.

End JsString.

(** ** The regular expressions of the schemas *)

(** [/^\d{4}-\d{2}-\d{2}$/] *)
Definition dateRegex (s : string) : bool :=
  match JsString.code_units s with
  | [y1; y2; y3; y4; h1; m1; m2; h2; d1; d2] =>
      JsString.is_digit y1 && JsString.is_digit y2 && JsString.is_digit y3
      && JsString.is_digit y4 && (h1 =? 45)%N
      && JsString.is_digit m1 && JsString.is_digit m2 && (h2 =? 45)%N
      && JsString.is_digit d1 && JsString.is_digit d2
  | _ => false
  end.

(** [const phoneRegex = /^[0-9\-\s()+]{7,20}$/] *)
Definition phone_char (u : N) : bool :=
  JsString.is_digit u || (u =? 45)%N || JsString.is_space u
  || (u =? 40)%N || (u =? 41)%N || (u =? 43)%N.

Definition phoneRegex (s : string) : bool :=
  let us := JsString.code_units s in
  forallb phone_char us
  && (7 <=? List.length us)%nat && (List.length us <=? 20)%nat.

(** [/^data:image\/(png|jpeg);base64,/] *)
Definition signatureRegex (s : string) : bool :=
  JsString.starts_with "data:image/png;base64," s
  || JsString.starts_with "data:image/jpeg;base64," s.

(** ** Dates *)

Module JsDate.

(** Day numbers count days from 1970-01-01 in the proleptic Gregorian
    calendar. The year is taken to start in March ([mp] = 0 for March), so
    that the leap day is the last day of a year; 400 years are one era of
    146097 days. *)
Definition day_of_year (mp d : Z) : Z := (153 * mp + 2) / 5 + d - 1.
Definition day_of_era (yoe doy : Z) : Z :=
  yoe * 365 + yoe / 4 - yoe / 100 + doy.
Definition year_of_era (doe : Z) : Z :=
  (doe - doe / 1460 + doe / 36524 - doe / 146096) / 365.
Definition shifted_month (doy : Z) : Z := (5 * doy + 2) / 153.

(** The day number of the civil date [y]-[m]-[d], [m] counted from 1. *)
Definition days_from_civil (y m d : Z) : Z :=
  let y' := if m <=? 2 then y - 1 else y in
  let era := y' / 400 in
  let yoe := y' - era * 400 in
  let mp := (m + 9) mod 12 in
  era * 146097 + day_of_era yoe (day_of_year mp d) - 719468.

(** The civil date (year, month from 1, day of month) of a day number:
    [YearFromTime], [MonthFromTime] + 1 and [DateFromTime]. *)
Definition civil_from_days (n : Z) : Z * Z * Z :=
  let z := n + 719468 in
  let era := z / 146097 in
  let doe := z - era * 146097 in
  let yoe := year_of_era doe in
  let doy := doe - day_of_era yoe 0 in
  let mp := shifted_month doy in
  let d := doy - day_of_year mp 1 + 1 in
  let m := if mp <? 10 then mp + 3 else mp - 9 in
  let y := yoe + era * 400 in
  (if m <=? 2 then y + 1 else y, m, d).

Definition is_leap (y : Z) : bool :=
  ((y mod 4 =? 0) && negb (y mod 100 =? 0)) || (y mod 400 =? 0).

(** Days of the month [m] (from 1) of year [y]. *)
Definition month_length (y m : Z) : Z :=
  if m =? 2 then (if is_leap y then 29 else 28)
  else if (m =? 4) || (m =? 6) || (m =? 9) || (m =? 11) then 30 else 31.

(** [MakeDay(year, month, date)]: [month] counted from 0 and free to
    leave 0..11, [date] free to leave the month. *)
Definition MakeDay (year month date : Z) : Z :=
  days_from_civil (year + month / 12) (month mod 12 + 1) 1 + date - 1.

Definition msPerDay : Z := 86400000.

(** The fields of a [Date] read through its local-time getters. *)
Record Local := {
  getFullYear : Z;
  getMonth : Z;      (* 0..11 *)
  getDate : Z;       (* 1..31 *)
  getHours : Z;
  getMinutes : Z;
  getSeconds : Z
}.

(** [d.setMonth(month)]: the day is recomputed with [MakeDay], the time
    within the day is kept (a change of the offset of local time between the
    two days is left out). *)
Definition setMonth (d : Local) (month : Z) : Local :=
  let '(y, m, dd) := civil_from_days (MakeDay (getFullYear d) month (getDate d)) in
  {| getFullYear := y; getMonth := m - 1; getDate := dd;
     getHours := getHours d; getMinutes := getMinutes d;
     getSeconds := getSeconds d |}.

Definition digit (u : N) : Z := Z.of_N u - 48.

(** [new Date(s).getTime()] for a string of the shape [YYYY-MM-DD]: the
    date-only ISO form is read as UTC midnight; the engine accepts a month
    in 1..12 and a day in 1..31 (a day past the end of the month runs into
    the next month), anything else is [NaN], here [None]. *)
Definition parse_iso_date (s : string) : option Z :=
  match JsString.code_units s with
  | [y1; y2; y3; y4; _; m1; m2; _; d1; d2] =>
      let y := digit y1 * 1000 + digit y2 * 100 + digit y3 * 10 + digit y4 in
      let m := digit m1 * 10 + digit m2 in
      let d := digit d1 * 10 + digit d2 in
      if (1 <=? m) && (m <=? 12) && (1 <=? d) && (d <=? 31)
      then Some (MakeDay y (m - 1) d * msPerDay)
      else None
  | _ => None
  end.

End JsDate.

(** ** zod

    The part of the zod library the schemas of the server use. A schema
    turns a JSON value into a result with one of three statuses; a failed
    check ([regex], [min]) leaves the value and marks the result dirty, a
    value of the wrong type or outside an enum aborts it. An object parses
    all its properties, keeps all their issues, and is aborted as soon as
    one property is; a refinement on an aborted result is not run. *)

Module Zod.

(** A JSON value as the schemas see it: absent, a string, or anything
    else (null, number, boolean, array, object). *)
Inductive jsval : Type :=
| JUndefined
| JString (s : string)
| JOther.

(** A parsed request body: an object with its properties, or not one. *)
Inductive req_body : Type :=
| BodyObject (props : list (string * jsval))
| BodyOther.

Fixpoint prop (props : list (string * jsval)) (key : string) : jsval :=
  match props with
  | [] => JUndefined
  | (k, v) :: rest => if String.eqb k key then v else prop rest key
  end.

(** An issue: where it is, and the message the schema gives for it
    ([None]: the library's default wording). *)
Record ZodIssue := { path : list string; message : option string }.

(** A parse result with zod's three statuses: valid, dirty (a check
    failed, the value is still there) and aborted (no value). *)
Inductive parsed (A : Type) : Type :=
| OK (v : A)
| DIRTY (v : A) (issues : list ZodIssue)
| INVALID (issues : list ZodIssue).
Arguments OK {A} v.
Arguments DIRTY {A} v issues.
Arguments INVALID {A} issues.

Definition issues_of {A} (p : parsed A) : list ZodIssue :=
  match p with
  | OK _ => []
  | DIRTY _ i => i
  | INVALID i => i
  end.

(** The value of a parse that did not abort. *)
Definition value_of {A} (p : parsed A) : option A :=
  match p with
  | OK v => Some v
  | DIRTY v _ => Some v
  | INVALID _ => None
  end.

(** Merging one more property into an object under construction: every
    property is parsed and keeps its issues; one aborted property aborts
    the object. *)
Definition ap {A B} (pf : parsed (A -> B)) (pa : parsed A) : parsed B :=
  match pf, pa with
  | INVALID i, _ => INVALID (i ++ issues_of pa)
  | _, INVALID j => INVALID (issues_of pf ++ j)
  | OK f, OK a => OK (f a)
  | OK f, DIRTY a j => DIRTY (f a) j
  | DIRTY f i, OK a => DIRTY (f a) i
  | DIRTY f i, DIRTY a j => DIRTY (f a) (i ++ j)
  end.

(** [z.string()] followed by one check ([.regex(re, msg)], [.min(1, msg)]). *)
Definition z_string_check (check : string -> bool) (msg : option string)
    (key : string) (v : jsval) : parsed string :=
  match v with
  | JString s =>
      if check s then OK s
      else DIRTY s [{| path := [key]; message := msg |}]
  | _ => INVALID [{| path := [key]; message := None |}]
  end.

Definition min1 (s : string) : bool := negb (String.eqb s "").

(** [z.string().optional().default(d)] *)
Definition z_string_optional_default (d : string) (key : string) (v : jsval)
    : parsed string :=
  match v with
  | JUndefined => OK d
  | JString s => OK s
  | JOther => INVALID [{| path := [key]; message := None |}]
  end.

(** [z.enum([...])], the members given by their reader. *)
Definition z_enum {E} (read : string -> option E) (key : string) (v : jsval)
    : parsed E :=
  match v with
  | JString s =>
      match read s with
      | Some e => OK e
      | None => INVALID [{| path := [key]; message := None |}]
      end
  | _ => INVALID [{| path := [key]; message := None |}]
  end.

(** [schema.default(d)] *)
Definition z_default {A} (schema : string -> jsval -> parsed A) (d : A)
    (key : string) (v : jsval) : parsed A :=
  match v with
  | JUndefined => OK d
  | _ => schema key v
  end.

(** [schema.refine(check, { path, message })]: skipped when the inner
    parse aborted, run on the value otherwise (dirty or not). *)
Definition refine {A} (check : A -> bool) (iss : ZodIssue) (p : parsed A)
    : parsed A :=
  match p with
  | INVALID i => INVALID i
  | OK v => if check v then OK v else DIRTY v [iss]
  | DIRTY v i => if check v then DIRTY v i else DIRTY v (i ++ [iss])
  end.

(** [error.flatten()]: the issues at the root and those under a property. *)
Definition formErrors (iss : list ZodIssue) : list ZodIssue :=
  filter (fun i => match path i with [] => true | _ => false end) iss.
Definition fieldErrors (iss : list ZodIssue) : list ZodIssue :=
  filter (fun i => match path i with [] => false | _ => true end) iss.

(** [flat.fieldErrors[key]] is present. *)
Definition mentions (key : string) (iss : list ZodIssue) : bool :=
  existsb (fun i => match path i with
                    | k :: _ => String.eqb k key
                    | [] => false
                    end) iss.

End Zod.

(** ** Types *)

(** [type Role = 'employee' | 'manager' | 'hr' | 'admin'] *)
Inductive Role : Type := employee | manager | hr | admin.

(** [type RequestStatus = 'Pending' | 'Approved' | 'Rejected' | 'Canceled'] *)
Inductive RequestStatus : Type := Pending | Approved | Rejected | Canceled.

(** [type LeaveType = '연차' | '반차' | '병가' | '경조사'] *)
Inductive LeaveType : Type := Annual | HalfDay | Sick | FamilyEvent.

(** The departments of [DeptEnum]: '개발팀', '생산지원팀', '생산팀', '공무팀'. *)
Inductive Dept : Type := Development | ProductionSupport | Production | Facilities.

(** The statuses of a work log: 'Pending', 'Approved', 'Rejected'. *)
Inductive WorklogStatus : Type := WlPending | WlApproved | WlRejected.

Definition Role_eqb (a b : Role) : bool :=
  match a, b with
  | employee, employee | manager, manager | hr, hr | admin, admin => true
  | _, _ => false
  end.

Definition RequestStatus_eqb (a b : RequestStatus) : bool :=
  match a, b with
  | Pending, Pending | Approved, Approved
  | Rejected, Rejected | Canceled, Canceled => true
  | _, _ => false
  end.

(** The members of the zod enums, read from their JSON strings. *)
Definition LeaveTypeEnum (s : string) : option LeaveType :=
  if String.eqb s "연차" then Some Annual
  else if String.eqb s "반차" then Some HalfDay
  else if String.eqb s "병가" then Some Sick
  else if String.eqb s "경조사" then Some FamilyEvent
  else None.

Definition StatusEnum (s : string) : option RequestStatus :=
  if String.eqb s "Pending" then Some Pending
  else if String.eqb s "Approved" then Some Approved
  else if String.eqb s "Rejected" then Some Rejected
  else if String.eqb s "Canceled" then Some Canceled
  else None.

Definition DeptEnum (s : string) : option Dept :=
  if String.eqb s "개발팀" then Some Development
  else if String.eqb s "생산지원팀" then Some ProductionSupport
  else if String.eqb s "생산팀" then Some Production
  else if String.eqb s "공무팀" then Some Facilities
  else None.

Definition WorklogStatusEnum (s : string) : option WorklogStatus :=
  if String.eqb s "Pending" then Some WlPending
  else if String.eqb s "Approved" then Some WlApproved
  else if String.eqb s "Rejected" then Some WlRejected
  else None.

(** [interface AuthedUser { id: string; name: string; role: Role }] *)
Module User.
Record t := { id : string; name : string; role : Role }.
End User.

(** The value [createRequestSchema] produces ([p.data]). *)
Module CreateRequest.
Record t := {
  dateRequested : string;
  empId : string;
  name : string;
  dept : Dept;
  position : string;
  leaveType : LeaveType;
  startDate : string;
  endDate : string;
  note : string;
  handoverPerson : string;
  contact : string;
  status : RequestStatus;
  signatureDataUrl : string
}.
End CreateRequest.

(** A row of the table [requests]; a column that may be NULL is an
    [option]. *)
Record RequestRow := {
  requestId : string;
  dateRequested : string;
  empId : string;
  name : string;
  dept : Dept;
  position : string;
  leaveType : LeaveType;
  startDate : string;
  endDate : string;
  note : option string;
  status : RequestStatus;
  signature : option string;
  handoverPerson : option string;
  contact : option string;
  managerSignature : option string;
  managerSignerId : option string;
  managerSignedAt : option string;
  requesterId : option string
}.

(** A row of the table [worklogs]. *)
Module Worklog.
Record t := {
  id : string;
  uploaderId : string;
  fileName : string;
  filePath : string;
  signature : string;
  status : WorklogStatus;
  createdAt : string
}.
End Worklog.

(** The server state: the two tables and the folder [doc_data/worklogs]
    (file name and content). *)
Record State := {
  requests : list RequestRow;
  worklogs : list Worklog.t;
  worklogDir : list (string * string)
}.

Definition initial : State :=
  {| requests := []; worklogs := []; worklogDir := [] |}.

(** ** Responses *)

Inductive Payload : Type :=
| Error (error : string)
| ValidationError (formErrors fieldErrors : list Zod.ZodIssue)
| DataRequest (data : option RequestRow)
| DataRequests (data : list RequestRow)
| DataWorklog (data : option Worklog.t)
| DataUpload (id filePath : string)
| Uncaught.   (* an exception no handler caught: the error page of Express *)

Record Response := { code : Z; body : Payload }.

Definition json (c : Z) (b : Payload) : Response := {| code := c; body := b |}.

(** ** SQL statements *)

Definition with_status (st : RequestStatus) (r : RequestRow) : RequestRow :=
  {| requestId := requestId r; dateRequested := dateRequested r;
     empId := empId r; name := name r; dept := dept r;
     position := position r; leaveType := leaveType r;
     startDate := startDate r; endDate := endDate r; note := note r;
     status := st; signature := signature r;
     handoverPerson := handoverPerson r; contact := contact r;
     managerSignature := managerSignature r;
     managerSignerId := managerSignerId r;
     managerSignedAt := managerSignedAt r; requesterId := requesterId r |}.

Definition with_approval (sig signer ts : string) (r : RequestRow) : RequestRow :=
  {| requestId := requestId r; dateRequested := dateRequested r;
     empId := empId r; name := name r; dept := dept r;
     position := position r; leaveType := leaveType r;
     startDate := startDate r; endDate := endDate r; note := note r;
     status := Approved; signature := signature r;
     handoverPerson := handoverPerson r; contact := contact r;
     managerSignature := Some sig;
     managerSignerId := Some signer;
     managerSignedAt := Some ts; requesterId := requesterId r |}.

Definition has_id (id : string) (r : RequestRow) : bool :=
  String.eqb (requestId r) id.

(** [SELECT ... FROM requests WHERE requestId=?] with [.get(id)] *)
Definition select_request (id : string) (rows : list RequestRow)
    : option RequestRow :=
  find (has_id id) rows.

(** [UPDATE requests SET ... WHERE requestId=?] *)
Definition update_request (f : RequestRow -> RequestRow) (id : string)
    (rows : list RequestRow) : list RequestRow :=
  map (fun r => if has_id id r then f r else r) rows.

(** [INSERT INTO requests ...]: [requestId] is the primary key, a second
    row with the same key is refused ([None]: the statement throws). *)
Definition insert_request (r : RequestRow) (rows : list RequestRow)
    : option (list RequestRow) :=
  if existsb (has_id (requestId r)) rows then None else Some (rows ++ [r]).

(** [ORDER BY dateRequested DESC]: TEXT is compared byte by byte. Rows
    with the same date keep their table order. *)
Fixpoint insert_desc (r : RequestRow) (rows : list RequestRow)
    : list RequestRow :=
  match rows with
  | [] => [r]
  | x :: rest =>
      if String.leb (dateRequested x) (dateRequested r)
      then r :: x :: rest
      else x :: insert_desc r rest
  end.

Definition order_by_dateRequested_desc (rows : list RequestRow)
    : list RequestRow :=
  fold_right insert_desc [] rows.

Definition eq_text (col : option string) (v : string) : bool :=
  match col with
  | Some c => String.eqb c v
  | None => false
  end.

Definition has_worklog_id (id : string) (w : Worklog.t) : bool :=
  String.eqb (Worklog.id w) id.

Definition insert_worklog (w : Worklog.t) (rows : list Worklog.t)
    : option (list Worklog.t) :=
  if existsb (has_worklog_id (Worklog.id w)) rows then None
  else Some (rows ++ [w]).

Definition with_worklog_status (st : WorklogStatus) (w : Worklog.t) : Worklog.t :=
  {| Worklog.id := Worklog.id w; Worklog.uploaderId := Worklog.uploaderId w;
     Worklog.fileName := Worklog.fileName w;
     Worklog.filePath := Worklog.filePath w;
     Worklog.signature := Worklog.signature w; Worklog.status := st;
     Worklog.createdAt := Worklog.createdAt w |}.

Definition update_worklog (f : Worklog.t -> Worklog.t) (id : string)
    (rows : list Worklog.t) : list Worklog.t :=
  map (fun w => if has_worklog_id id w then f w else w) rows.

(** ** Authentication and roles *)

(** What [authRequired] finds in the request: no bearer token, a token
    that does not verify, a token whose subject is not a user, or a user. *)
Inductive Credentials : Type :=
| NoBearer
| BadToken
| UnknownSubject
| Verified (u : User.t).

Definition authRequired (c : Credentials) : Response + User.t :=
  match c with
  | NoBearer => inl (json 401 (Error "Unauthorized"))
  | BadToken => inl (json 401 (Error "Invalid/expired token"))
  | UnknownSubject => inl (json 401 (Error "Invalid token"))
  | Verified u => inr u
  end.

(** [ensureRole(roles)]: [None] stands for [next()]. *)
Definition ensureRole (roles : list Role) (user : option User.t)
    : option Response :=
  match user with
  | None => Some (json 401 (Error "Unauthorized"))
  | Some u =>
      if existsb (Role_eqb (User.role u)) roles then None
      else Some (json 403 (Error "Forbidden"))
  end.

Definition Handler : Type := User.t -> State -> Response * State.

(** A route behind [authRequired] alone. *)
Definition authed (c : Credentials) (h : Handler) (s : State)
    : Response * State :=
  match authRequired c with
  | inl res => (res, s)
  | inr u => h u s
  end.

(** A route behind [authRequired, ensureRole(roles)]. *)
Definition guarded (roles : list Role) (c : Credentials) (h : Handler)
    (s : State) : Response * State :=
  match authRequired c with
  | inl res => (res, s)
  | inr u =>
      match ensureRole roles (Some u) with
      | Some res => (res, s)
      | None => h u s
      end
  end.

(** ** The upload middleware *)

Module Multer.

(** [limits: { fileSize: 20 * 1024 * 1024 }], the limit the parser of the
    body is given; it has its own limits for the text fields. *)
Definition fileSize : N := 20 * 1024 * 1024.

(** A part of a multipart body, as the parser reports it to multer.
    [Field]: a text field, with whether its name or its value was cut at a
    limit. [File]: a part with a file: the name of its field, the file
    name ([None]: the part gives none), the bytes, and [limit]: the stream
    emits 'limit' (the file reaches [fileSize]). [Failure]: the parser
    emits 'error' (the body is not well-formed). *)
Inductive Part : Type :=
| Field (nameTruncated valueTruncated : bool)
| File (fieldname : string) (originalname : option string) (bytes : string)
    (limit : bool)
| Failure.

(** A request to the upload route: the parts of its body in their order
    (none when the request is not multipart), and
    [req.body.signatureDataUrl] as the text fields leave it: absent, or the
    string of the one field of that name. *)
Record Request := { parts : list Part; signatureDataUrl : option string }.

(** [req.file] once the file is on disk. *)
Record Stored := { stored_originalname : string; filename : string }.

(** [/[^\w.\-가-힣_]/]: a code unit the file name keeps. *)
Definition kept (u : N) : bool :=
  JsString.is_word u || (u =? 46)%N || (u =? 45)%N
  || JsString.between 44032 55203 u.

(** [file.originalname.replace(/[^\w.\-가-힣_]/g, '_')] *)
Definition safe (originalname : string) : string :=
  String.concat ""
    (map (fun u => if kept u then JsString.utf8_encode_unit u else "_")
       (JsString.code_units originalname)).

(** Writing a file replaces a file of the same name. *)
Definition write (name content : string) (dir : list (string * string))
    : list (string * string) :=
  filter (fun f => negb (String.eqb (fst f) name)) dir ++ [(name, content)].

(** [fs.unlink] *)
Definition unlink (name : string) (dir : list (string * string))
    : list (string * string) :=
  filter (fun f => negb (String.eqb (fst f) name)) dir.

(** [removeUploadedFiles]: the file of the request that is on disk is
    removed. *)
Definition removeUploaded (file : option Stored)
    (dir : list (string * string)) : list (string * string) :=
  match file with
  | Some f => unlink (filename f) dir
  | None => dir
  end.

(** How the middleware ends: [next(err)] or [next()] with [req.file], and
    the folder it leaves. *)
Inductive Outcome : Type :=
| Refused (dir : list (string * string))
| Passed (file : option Stored) (dir : list (string * string)).

(** The middleware over the parts of a body. [filename] is the function of
    the disk storage, [filesLeft] counts the files the field [file] may
    still take. A text field that was cut, a failure of the parser, a file
    under another field name or beyond the count, and a file that reaches
    the size limit end the request in an error, after the files written
    for it are removed; a file part without a file name is passed over. A
    file that is taken is written (an older file of that name is
    replaced) before the next part is looked at. *)
Fixpoint handle (filename : string -> string) (ps : list Part)
    (filesLeft : nat) (file : option Stored) (dir : list (string * string))
    : Outcome :=
  match ps with
  | [] => Passed file dir
  | Field nameTruncated valueTruncated :: rest =>
      if nameTruncated || valueTruncated
      then Refused (removeUploaded file dir)
      else handle filename rest filesLeft file dir
  | Failure :: _ => Refused (removeUploaded file dir)
  | File fieldname originalname bytes limit :: rest =>
      match originalname with
      | None => handle filename rest filesLeft file dir
      | Some name =>
          if String.eqb name "" then handle filename rest filesLeft file dir
          else if String.eqb fieldname "file" && (0 <? filesLeft)%nat then
            let fname := filename name in
            if limit
            then Refused (removeUploaded file
                            (unlink fname (write fname bytes dir)))
            else handle filename rest (filesLeft - 1)
                   (Some {| stored_originalname := name; filename := fname |})
                   (write fname bytes dir)
          else Refused (removeUploaded file dir)
      end
  end.

End Multer.

(** [upload.single('file')] with the disk storage of the server, whose
    file names are [`${Date.now()}_${safe}`]. An error of the middleware
    goes to the error page of Express. *)
Definition upload_single (now_ms : Z) (m : Multer.Request) (s : State)
    : (Response + option Multer.Stored) * State :=
  let filename name :=
    (JsString.of_Z now_ms ++ "_" ++ Multer.safe name)%string in
  match Multer.handle filename (Multer.parts m) 1 None (worklogDir s) with
  | Multer.Refused dir =>
      (inl (json 500 Uncaught),
       {| requests := requests s; worklogs := worklogs s; worklogDir := dir |})
  | Multer.Passed file dir =>
      (inr file,
       {| requests := requests s; worklogs := worklogs s; worklogDir := dir |})
  end.

(** ** Further tables and forms *)

(** A row of the table [users]. *)
Module Account.
Record t := {
  id : string;
  username : string;
  name : string;
  role : Role;
  passwordHash : string
}.
End Account.

(** The payload the server signs: [{ sub, role }]. *)
Module Claims.
Record t := { sub : string; role : Role }.
End Claims.

(** bcrypt and jsonwebtoken as the server calls them. [hashSync] is given
    the salt it draws, [signToken] is [jwt.sign] with the secret at the
    time of a login, [verify] is [jwt.verify] with the secret at the time
    of a request ([None]: it throws). *)
Record Crypto := {
  hashSync : string -> string -> string;     (* salt, password *)
  compareSync : string -> string -> bool;    (* password, hash *)
  signToken : Claims.t -> string;
  verify : string -> option Claims.t
}.

(** A row of the listing: the work log with the user name and the name of
    its uploader, NULL when no user has the uploader's id. *)
Module Listed.
Record t := {
  worklog : Worklog.t;
  uploaderUsername : option string;
  uploaderName : option string
}.
End Listed.

(** [Partial<LeaveRequest>], the fields [validateForm] reads. *)
Module LeaveForm.
Record t := {
  EmpID : option string;
  Name : option string;
  Position : option string;
  Dept : option string;
  LeaveType : option string;
  StartDate : option string;
  EndDate : option string;
  Note : option string
}.
End LeaveForm.

(** ** Sample requests

    The users of the seed, the request of the form page and a few variants
    of it; the concrete runs further down use them. *)

Module Sample.

Definition employee_user : User.t :=
  {| User.id := "u-employee"; User.name := "이사원"; User.role := employee |}.

Definition manager_user : User.t :=
  {| User.id := "u-manager"; User.name := "홍팀장"; User.role := manager |}.

Definition hr_user : User.t :=
  {| User.id := "u-hr"; User.name := "김인사"; User.role := hr |}.

(** A leave request: the dates and, when given, [dept] and [status]. *)
Definition leave (dateRequested startDate endDate : string)
    (dept status : option string) : Zod.req_body :=
  Zod.BodyObject
    ([("dateRequested", Zod.JString dateRequested);
      ("empId", Zod.JString "E0001");
      ("name", Zod.JString "이사원");
      ("position", Zod.JString "사원");
      ("leaveType", Zod.JString "연차");
      ("startDate", Zod.JString startDate);
      ("endDate", Zod.JString endDate);
      ("note", Zod.JString "");
      ("handoverPerson", Zod.JString "X");
      ("contact", Zod.JString "010-1234-5678");
      ("signatureDataUrl", Zod.JString "data:image/png;base64,AAAA")]
     ++ match dept with
        | Some d => [("dept", Zod.JString d)]
        | None => []
        end
     ++ match status with
        | Some v => [("status", Zod.JString v)]
        | None => []
        end).

(** The row the server stores for [leave] from [employee_user] under the
    id [id]. *)
Definition row (id dateRequested startDate endDate : string)
    (st : RequestStatus) : RequestRow :=
  {| requestId := id; dateRequested := dateRequested; empId := "E0001";
     name := "이사원"; dept := Development; position := "사원";
     leaveType := Annual; startDate := startDate; endDate := endDate;
     note := Some ""; status := st;
     signature := Some "data:image/png;base64,AAAA";
     handoverPerson := Some "X"; contact := Some "010-1234-5678";
     managerSignature := None; managerSignerId := None;
     managerSignedAt := None; requesterId := Some "u-employee" |}.

Definition table (rows : list RequestRow) : State :=
  {| requests := rows; worklogs := []; worklogDir := [] |}.

Definition signature_of (sig : string) : Zod.req_body :=
  Zod.BodyObject [("signatureDataUrl", Zod.JString sig)].

Definition status_of (v : string) : Zod.req_body :=
  Zod.BodyObject [("status", Zod.JString v)].

Definition at_time (y m d : Z) : JsDate.Local :=
  {| JsDate.getFullYear := y; JsDate.getMonth := m; JsDate.getDate := d;
     JsDate.getHours := 9; JsDate.getMinutes := 5; JsDate.getSeconds := 0 |}.

(** An engine that reads no other date format. *)
Definition iso_only (s : string) : option Z := None.

(** The upload of the form: a small file, then the signature when there
    is one. *)
Definition upload (signatureDataUrl : option string) : Multer.Request :=
  {| Multer.parts :=
       Multer.File "file" (Some "report 1.pdf") "%PDF-1.4" false
       :: match signatureDataUrl with
          | Some _ => [Multer.Field false false]
          | None => []
          end;
     Multer.signatureDataUrl := signatureDataUrl |}.

(** A stand-in for bcrypt and jsonwebtoken: the hash is the password, the
    token is the subject after a letter for the role. *)
Definition crypto : Crypto :=
  {| hashSync := fun _ password => password;
     compareSync := fun password hash => String.eqb password hash;
     signToken := fun c =>
       String (match Claims.role c with
               | employee => "e" | manager => "m" | hr => "h" | admin => "a"
               end)%char (Claims.sub c);
     verify := fun token =>
       match token with
       | String "e"%char sub =>
           Some {| Claims.sub := sub; Claims.role := employee |}
       | String "m"%char sub =>
           Some {| Claims.sub := sub; Claims.role := manager |}
       | String "h"%char sub => Some {| Claims.sub := sub; Claims.role := hr |}
       | String "a"%char sub =>
           Some {| Claims.sub := sub; Claims.role := admin |}
       | _ => None
       end |}.

(** The table of users after the seed of the manager and the employee. *)
Definition accounts : list Account.t :=
  [{| Account.id := "u-manager"; Account.username := "manager";
      Account.name := "홍팀장"; Account.role := manager;
      Account.passwordHash := "manager123!" |};
   {| Account.id := "u-employee"; Account.username := "employee";
      Account.name := "이사원"; Account.role := employee;
      Account.passwordHash := "emp123!" |}].

(** A work log of the employee. *)
Definition worklog (id createdAt : string) : Worklog.t :=
  {| Worklog.id := id; Worklog.uploaderId := "u-employee";
     Worklog.fileName := "report 1.pdf";
     Worklog.filePath := "worklogs/1736726400000_report_1.pdf";
     Worklog.signature := "data:image/png;base64,AAAA";
     Worklog.status := WlPending; Worklog.createdAt := createdAt |}.

(** The form of the employee page, filled in. *)
Definition form (startDate endDate : string) : LeaveForm.t :=
  {| LeaveForm.EmpID := Some "E0001"; LeaveForm.Name := Some "이사원";
     LeaveForm.Position := Some "사원"; LeaveForm.Dept := Some "개발팀";
     LeaveForm.LeaveType := Some "연차";
     LeaveForm.StartDate := Some startDate;
     LeaveForm.EndDate := Some endDate;
     LeaveForm.Note := Some "개인사유" |}.

End Sample.

(** ** Schemas and routes *)

Infix "<*>" := Zod.ap (at level 61, left associativity).

Section Server.

(** [new Date(s).getTime()] for a string that is not of the shape
    [YYYY-MM-DD]: whatever the engine makes of it ([None] for [NaN]). *)
Variable parse_other_date : string -> option Z.

Set Default Proof Using "Type".

(** [new Date(s).getTime()] *)
Definition getTime (s : string) : option Z :=
  if dateRegex s then JsDate.parse_iso_date s else parse_other_date s.

(** [new Date(e).getTime() >= new Date(s).getTime()]; a comparison with
    [NaN] is false. *)
Definition not_before (e s : string) : bool :=
  match getTime e, getTime s with
  | Some te, Some ts => ts <=? te
  | _, _ => false
  end.

Definition not_an_object : Zod.ZodIssue :=
  {| Zod.path := []; Zod.message := None |}.

(** The [z.object({...})] of [createRequestSchema]. *)
Definition createRequestObject (b : Zod.req_body)
    : Zod.parsed CreateRequest.t :=
  match b with
  | Zod.BodyOther => Zod.INVALID [not_an_object]
  | Zod.BodyObject o =>
      let str check msg key :=
        Zod.z_string_check check msg key (Zod.prop o key) in
      Zod.OK CreateRequest.Build_t
      <*> str dateRegex None "dateRequested"
      <*> str Zod.min1 None "empId"
      <*> str Zod.min1 None "name"
      <*> Zod.z_enum DeptEnum "dept" (Zod.prop o "dept")
      <*> str Zod.min1 None "position"
      <*> Zod.z_enum LeaveTypeEnum "leaveType" (Zod.prop o "leaveType")
      <*> str dateRegex None "startDate"
      <*> str dateRegex None "endDate"
      <*> Zod.z_string_optional_default "" "note" (Zod.prop o "note")
      <*> str Zod.min1 (Some "업무인수자를 입력하세요") "handoverPerson"
      <*> str phoneRegex (Some "연락처 형식이 올바르지 않습니다") "contact"
      <*> Zod.z_default (Zod.z_enum StatusEnum) Pending "status"
            (Zod.prop o "status")
      <*> str signatureRegex
            (Some "서명 데이터 URL 형식이 올바르지 않습니다.")
            "signatureDataUrl"
  end.

Definition end_before_start : Zod.ZodIssue :=
  {| Zod.path := ["endDate"];
     Zod.message := Some "종료일은 시작일보다 같거나 뒤여야 합니다" |}.

Definition createRequestSchema (b : Zod.req_body)
    : Zod.parsed CreateRequest.t :=
  Zod.refine
    (fun v => not_before (CreateRequest.endDate v) (CreateRequest.startDate v))
    end_before_start
    (createRequestObject b).

Definition updateStatusSchema (b : Zod.req_body) : Zod.parsed RequestStatus :=
  match b with
  | Zod.BodyOther => Zod.INVALID [not_an_object]
  | Zod.BodyObject o => Zod.z_enum StatusEnum "status" (Zod.prop o "status")
  end.

Definition approveWithSignatureSchema (b : Zod.req_body) : Zod.parsed string :=
  match b with
  | Zod.BodyOther => Zod.INVALID [not_an_object]
  | Zod.BodyObject o =>
      Zod.z_string_check signatureRegex
        (Some "서명 데이터 URL 형식이 올바르지 않습니다.")
        "signatureDataUrl" (Zod.prop o "signatureDataUrl")
  end.

Definition validation_error {A} (p : Zod.parsed A) : Response :=
  json 400 (ValidationError (Zod.formErrors (Zod.issues_of p))
              (Zod.fieldErrors (Zod.issues_of p))).

Definition set_requests (rows : list RequestRow) (s : State) : State :=
  {| requests := rows; worklogs := worklogs s; worklogDir := worklogDir s |}.

Definition set_worklogs (rows : list Worklog.t) (s : State) : State :=
  {| requests := requests s; worklogs := rows; worklogDir := worklogDir s |}.

(** [GET /api/requests] *)
Definition get_requests (c : Credentials) : State -> Response * State :=
  authed c (fun _ s =>
    (json 200 (DataRequests (order_by_dateRequested_desc (requests s))), s)).

(** [GET /api/requests/mine] *)
Definition get_requests_mine (c : Credentials) : State -> Response * State :=
  authed c (fun user s =>
    (json 200 (DataRequests (order_by_dateRequested_desc
       (filter (fun r => eq_text (requesterId r) (User.id user))
          (requests s)))), s)).

(** The row [POST /api/requests] inserts. *)
Definition new_request (id : string) (r : CreateRequest.t) (user : User.t)
    : RequestRow :=
  {| requestId := id;
     dateRequested := CreateRequest.dateRequested r;
     empId := CreateRequest.empId r;
     name := CreateRequest.name r;
     dept := CreateRequest.dept r;
     position := CreateRequest.position r;
     leaveType := CreateRequest.leaveType r;
     startDate := CreateRequest.startDate r;
     endDate := CreateRequest.endDate r;
     note := Some (CreateRequest.note r);
     status := CreateRequest.status r;
     signature := Some (CreateRequest.signatureDataUrl r);
     handoverPerson := Some (CreateRequest.handoverPerson r);
     contact := Some (CreateRequest.contact r);
     managerSignature := None;
     managerSignerId := None;
     managerSignedAt := None;
     requesterId := Some (User.id user) |}.

(** [POST /api/requests]; [id] is the value of [cryptoRandomId()]. *)
Definition post_requests (id : string) (c : Credentials) (b : Zod.req_body)
    : State -> Response * State :=
  guarded [employee; admin] c (fun user s =>
    match createRequestSchema b with
    | Zod.OK r =>
        match insert_request (new_request id r user) (requests s) with
        | Some rows =>
            (json 201 (DataRequest (select_request id rows)),
             set_requests rows s)
        | None => (json 500 Uncaught, s)
        end
    | p => (validation_error p, s)
    end).

(** [PUT /api/requests/:id/status] *)
Definition put_requests_status (c : Credentials) (id : string)
    (b : Zod.req_body) : State -> Response * State :=
  guarded [manager; admin] c (fun _ s =>
    match updateStatusSchema b with
    | Zod.OK st =>
        match select_request id (requests s) with
        | None => (json 404 (Error "Not found"), s)
        | Some _ =>
            let rows := update_request (with_status st) id (requests s) in
            (json 200 (DataRequest (select_request id rows)),
             set_requests rows s)
        end
    | _ => (json 400 (Error "Validation error"), s)
    end).

Definition pad2 (n : Z) : string := JsString.padStart0 2 (JsString.of_Z n).

(** The cut-off of [GET /api/requests/recent]: [now] with
    [setMonth(getMonth() - 1)], written as [YYYY-MM-DD]. *)
Definition cutStr (now : JsDate.Local) : string :=
  let cut := JsDate.setMonth now (JsDate.getMonth now - 1) in
  (JsString.of_Z (JsDate.getFullYear cut) ++ "-"
   ++ pad2 (JsDate.getMonth cut + 1) ++ "-"
   ++ pad2 (JsDate.getDate cut))%string.

(** [GET /api/requests/recent] *)
Definition get_requests_recent (now : JsDate.Local) (c : Credentials)
    : State -> Response * State :=
  guarded [manager; hr; admin] c (fun _ s =>
    (json 200 (DataRequests (order_by_dateRequested_desc
       (filter (fun r => String.leb (cutStr now) (dateRequested r))
          (requests s)))), s)).

(** The time stamp of an approval, [YYYY-MM-DDTHH:MM:SS] in local time. *)
Definition approval_ts (now : JsDate.Local) : string :=
  (JsString.of_Z (JsDate.getFullYear now) ++ "-"
   ++ pad2 (JsDate.getMonth now + 1) ++ "-"
   ++ pad2 (JsDate.getDate now) ++ "T"
   ++ pad2 (JsDate.getHours now) ++ ":"
   ++ pad2 (JsDate.getMinutes now) ++ ":"
   ++ pad2 (JsDate.getSeconds now))%string.

(** [POST /api/requests/:id/approve] *)
Definition post_requests_approve (now : JsDate.Local) (c : Credentials)
    (id : string) (b : Zod.req_body) : State -> Response * State :=
  guarded [manager; admin] c (fun user s =>
    match approveWithSignatureSchema b with
    | Zod.OK sig =>
        match select_request id (requests s) with
        | None => (json 404 (Error "Not found"), s)
        | Some found =>
            if RequestStatus_eqb (status found) Approved
            then (json 409 (Error "Already approved"), s)
            else
              let rows :=
                update_request
                  (with_approval sig (User.id user) (approval_ts now))
                  id (requests s) in
              (json 200 (DataRequest (select_request id rows)),
               set_requests rows s)
        end
    | p => (validation_error p, s)
    end).

(** [POST /api/worklogs]; [id] is the value of [cryptoRandomId()],
    [createdAt] of [new Date().toISOString()] and [now_ms] of the
    [Date.now()] of the file name. *)
Definition post_worklogs (id createdAt : string) (now_ms : Z)
    (c : Credentials) (m : Multer.Request) : State -> Response * State :=
  authed c (fun user s =>
    match upload_single now_ms m s with
    | (inl res, s1) => (res, s1)
    | (inr None, s1) => (json 400 (Error "파일이 필요합니다"), s1)
    | (inr (Some f), s1) =>
        let signatureDataUrl :=
          match Multer.signatureDataUrl m with
          | Some v => v
          | None => ""
          end in
        if negb (signatureRegex signatureDataUrl)
        then (json 400 (Error "서명 데이터가 필요합니다"), s1)
        else
          let filePath := ("worklogs/" ++ Multer.filename f)%string in
          let row :=
            {| Worklog.id := id;
               Worklog.uploaderId := User.id user;
               Worklog.fileName :=
                 if String.eqb (Multer.stored_originalname f) ""
                 then Multer.filename f
                 else Multer.stored_originalname f;
               Worklog.filePath := filePath;
               Worklog.signature := signatureDataUrl;
               Worklog.status := WlPending;
               Worklog.createdAt := createdAt |} in
          match insert_worklog row (worklogs s1) with
          | Some rows => (json 201 (DataUpload id filePath), set_worklogs rows s1)
          | None => (json 500 (Error "Internal error"), s1)
          end
    end).

(** [PUT /api/worklogs/:id/status] *)
Definition put_worklogs_status (c : Credentials) (id : string)
    (b : Zod.req_body) : State -> Response * State :=
  guarded [manager; admin] c (fun _ s =>
    let status :=
      match b with
      | Zod.BodyObject o => Zod.prop o "status"
      | Zod.BodyOther => Zod.JUndefined
      end in
    match status with
    | Zod.JString v =>
        match WorklogStatusEnum v with
        | Some st =>
            match find (has_worklog_id id) (worklogs s) with
            | None => (json 404 (Error "Not found"), s)
            | Some _ =>
                let rows :=
                  update_worklog (with_worklog_status st) id (worklogs s) in
                (json 200 (DataWorklog (find (has_worklog_id id) rows)),
                 set_worklogs rows s)
            end
        | None => (json 400 (Error "Validation error"), s)
        end
    | _ => (json 400 (Error "Validation error"), s)
    end).

(** ** The server as a state machine *)

Inductive Request : Type :=
| GetRequests (c : Credentials)
| GetRequestsMine (c : Credentials)
| PostRequests (id : string) (c : Credentials) (b : Zod.req_body)
| PutRequestsStatus (c : Credentials) (id : string) (b : Zod.req_body)
| GetRequestsRecent (now : JsDate.Local) (c : Credentials)
| PostRequestsApprove (now : JsDate.Local) (c : Credentials) (id : string)
    (b : Zod.req_body)
| PostWorklogs (id createdAt : string) (now_ms : Z) (c : Credentials)
    (m : Multer.Request)
| PutWorklogsStatus (c : Credentials) (id : string) (b : Zod.req_body).

Definition serve (rq : Request) : State -> Response * State :=
  match rq with
  | GetRequests c => get_requests c
  | GetRequestsMine c => get_requests_mine c
  | PostRequests id c b => post_requests id c b
  | PutRequestsStatus c id b => put_requests_status c id b
  | GetRequestsRecent now c => get_requests_recent now c
  | PostRequestsApprove now c id b => post_requests_approve now c id b
  | PostWorklogs id createdAt now_ms c m => post_worklogs id createdAt now_ms c m
  | PutWorklogsStatus c id b => put_worklogs_status c id b
  end.

(** The state after a sequence of requests, the first request first. *)
Fixpoint run (rqs : list Request) (s : State) : State :=
  match rqs with
  | [] => s
  | rq :: rest => run rest (snd (serve rq s))
  end.

(** The row the seed script inserts: the eleven columns it fills, the
    others NULL. *)
Definition seed_row (id dateRequested empId name : string) (dept : Dept)
    (position : string) (leaveType : LeaveType) (startDate endDate : string)
    (status : RequestStatus) : RequestRow :=
  {| requestId := id; dateRequested := dateRequested; empId := empId;
     name := name; dept := dept; position := position;
     leaveType := leaveType; startDate := startDate; endDate := endDate;
     note := Some "테스트 데이터"; status := status; signature := None;
     handoverPerson := None; contact := None; managerSignature := None;
     managerSignerId := None; managerSignedAt := None; requesterId := None |}.

(** The tables the seed script can leave: its rows, one after the other,
    each under a key of its own. *)
Inductive seeded : list RequestRow -> Prop :=
| seeded_none : seeded []
| seeded_more rows id dateRequested empId name dept position leaveType
    startDate endDate status :
    seeded rows ->
    existsb (has_id id) rows = false ->
    seeded (rows ++ [seed_row id dateRequested empId name dept position
                       leaveType startDate endDate status]).

(** The states the server reaches: it starts on a database that is empty or
    seeded, with no work log and no file, and serves requests. *)
Inductive reachable : State -> Prop :=
| reachable_seeded rows :
    seeded rows ->
    reachable {| requests := rows; worklogs := []; worklogDir := [] |}
| reachable_serve rq s : reachable s -> reachable (snd (serve rq s)).

(** ** What the properties speak about *)

Definition manager_or_admin (u : User.t) : Prop :=
  User.role u = manager \/ User.role u = admin.

(** The body carries a signature the approval schema accepts. *)
Definition signature_body (b : Zod.req_body) (sig : string) : Prop :=
  exists o, b = Zod.BodyObject o
            /\ Zod.prop o "signatureDataUrl" = Zod.JString sig
            /\ signatureRegex sig = true.

(** The body carries one of the four status values. *)
Definition status_body (b : Zod.req_body) (st : RequestStatus) : Prop :=
  exists o v, b = Zod.BodyObject o
              /\ Zod.prop o "status" = Zod.JString v
              /\ StatusEnum v = Some st.

(** The status a submitted body asks for: the default when it has none. *)
Definition requested_status (o : list (string * Zod.jsval))
    : option RequestStatus :=
  match Zod.prop o "status" with
  | Zod.JUndefined => Some Pending
  | Zod.JString v => StatusEnum v
  | Zod.JOther => None
  end.

Definition is_string (v : Zod.jsval) : bool :=
  match v with
  | Zod.JString _ => true
  | _ => false
  end.

Definition is_member {E} (read : string -> option E) (v : Zod.jsval) : bool :=
  match v with
  | Zod.JString w => match read w with Some _ => true | None => false end
  | _ => false
  end.

(** No property of the body fails by its type or its enum: the strings
    are strings, [dept] and [leaveType] are members of their enums, [note]
    is a string or absent, [status] a member or absent. *)
Definition well_typed (o : list (string * Zod.jsval)) : bool :=
  is_string (Zod.prop o "dateRequested")
  && is_string (Zod.prop o "empId")
  && is_string (Zod.prop o "name")
  && is_member DeptEnum (Zod.prop o "dept")
  && is_string (Zod.prop o "position")
  && is_member LeaveTypeEnum (Zod.prop o "leaveType")
  && is_string (Zod.prop o "startDate")
  && is_string (Zod.prop o "endDate")
  && match Zod.prop o "note" with Zod.JOther => false | _ => true end
  && is_string (Zod.prop o "handoverPerson")
  && is_string (Zod.prop o "contact")
  && match Zod.prop o "status" with
     | Zod.JUndefined => true
     | v => is_member StatusEnum v
     end
  && is_string (Zod.prop o "signatureDataUrl").

Definition defined {A} (x : option A) : bool :=
  match x with
  | Some _ => true
  | None => false
  end.

Definition approval_unset (r : RequestRow) : Prop :=
  managerSignature r = None /\ managerSignerId r = None
  /\ managerSignedAt r = None.





(** What a request can do to the table [requests]. *)
Inductive rows_step (rows : list RequestRow) : list RequestRow -> Prop :=
| step_same : rows_step rows rows
| step_insert id v user :
    existsb (has_id id) rows = false ->
    rows_step rows (rows ++ [new_request id v user])
| step_status st id :
    rows_step rows (update_request (with_status st) id rows)
| step_approve sig signer ts id :
    rows_step rows (update_request (with_approval sig signer ts) id rows).

(** Every column but [status] is the same in both rows. *)
Definition same_but_status (r r' : RequestRow) : Prop :=
  requestId r' = requestId r /\ dateRequested r' = dateRequested r
  /\ empId r' = empId r /\ name r' = name r /\ dept r' = dept r
  /\ position r' = position r /\ leaveType r' = leaveType r
  /\ startDate r' = startDate r /\ endDate r' = endDate r
  /\ note r' = note r /\ signature r' = signature r
  /\ handoverPerson r' = handoverPerson r /\ contact r' = contact r
  /\ managerSignature r' = managerSignature r
  /\ managerSignerId r' = managerSignerId r
  /\ managerSignedAt r' = managerSignedAt r
  /\ requesterId r' = requesterId r.

(** Every column but [status] and the three approval columns is the same
    in both rows. *)
Definition same_but_approval (r r' : RequestRow) : Prop :=
  requestId r' = requestId r /\ dateRequested r' = dateRequested r
  /\ empId r' = empId r /\ name r' = name r /\ dept r' = dept r
  /\ position r' = position r /\ leaveType r' = leaveType r
  /\ startDate r' = startDate r /\ endDate r' = endDate r
  /\ note r' = note r /\ signature r' = signature r
  /\ handoverPerson r' = handoverPerson r /\ contact r' = contact r
  /\ requesterId r' = requesterId r.

(** [ORDER BY dateRequested DESC] between neighbours. *)
Definition desc (a b : RequestRow) : Prop :=
  String.leb (dateRequested b) (dateRequested a) = true.

(** [YYYY-MM-DD] of a year, a month counted from 1 and a day. *)
Definition ymd (y m d : Z) : string :=
  (JsString.of_Z y ++ "-" ++ pad2 m ++ "-" ++ pad2 d)%string.

(** The month before [month] (counted from 0) of [year]: the year and the
    month counted from 1. *)
Definition previous_month (year month : Z) : Z * Z :=
  if month =? 0 then (year - 1, 12) else (year, month).

(** In a year that starts in March, day 365 is the leap day: it exists
    when the civil year that follows is a leap year. *)
Definition leap_day_allowed (yoe doy : Z) : Prop :=
  doy = 365 -> (yoe + 1) mod 4 = 0 /\ ((yoe + 1) mod 100 <> 0 \/ yoe = 399).

(** ** Further routes and readings of a request *)

(** The answer of the signature route: the text 'No signature' with 404,
    or the stored data URL with 200. *)
Inductive SignatureReply : Type :=
| NoSignature
| SignatureUrl (dataUrl : string).

(** [GET /api/requests/:id/signature]; [!r?.signature] holds for a missing
    row, for a NULL column and for the empty string. *)
Definition get_requests_signature (c : Credentials) (id : string) (s : State)
    : Response + SignatureReply :=
  match authRequired c with
  | inl res => inl res
  | inr _ =>
      inr match select_request id (requests s) with
          | Some r =>
              match signature r with
              | Some sig =>
                  if String.eqb sig "" then NoSignature else SignatureUrl sig
              | None => NoSignature
              end
          | None => NoSignature
          end
  end.

(** The credentials a request comes with. *)
Definition credentials_of (rq : Request) : Credentials :=
  match rq with
  | GetRequests c | GetRequestsMine c | PostRequests _ c _
  | PutRequestsStatus c _ _ | GetRequestsRecent _ c
  | PostRequestsApprove _ c _ _ | PostWorklogs _ _ _ c _
  | PutWorklogsStatus c _ _ => c
  end.

Definition holds {A} (check : A -> bool) (x : option A) : bool :=
  match x with
  | Some v => check v
  | None => false
  end.

(** The constraints of [createRequestSchema], read on a stored row. *)
Definition schema_valid (r : RequestRow) : bool :=
  dateRegex (dateRequested r) && Zod.min1 (empId r) && Zod.min1 (name r)
  && Zod.min1 (position r) && dateRegex (startDate r)
  && dateRegex (endDate r) && defined (note r)
  && holds Zod.min1 (handoverPerson r) && holds phoneRegex (contact r)
  && holds signatureRegex (signature r)
  && not_before (endDate r) (startDate r).

(** The value of a parse without any issue. *)
Definition accepted {A} (p : Zod.parsed A) : option A :=
  match p with
  | Zod.OK v => Some v
  | _ => None
  end.

(** A row the API created (it has a [requesterId]) is valid. *)
Definition created_valid (r : RequestRow) : Prop :=
  requesterId r <> None -> schema_valid r = true.

(** [todayStr()] at the local date [now]. *)
Definition todayStr (now : JsDate.Local) : string :=
  let mm := pad2 (JsDate.getMonth now + 1) in
  let dd := pad2 (JsDate.getDate now) in
  (JsString.of_Z (JsDate.getFullYear now) ++ "-" ++ mm ++ "-" ++ dd)%string.

(** ** Readings of the work logs *)

(** [`${Date.now()}_${safe}`], the name the upload gives a file. *)
Definition stored_name (now_ms : Z) (originalname : string) : string :=
  (JsString.of_Z now_ms ++ "_" ++ Multer.safe originalname)%string.

(** A part the upload middleware passes over: a text field that was not
    cut, a file part without a file name. *)
Definition passed_over (p : Multer.Part) : bool :=
  match p with
  | Multer.Field nameTruncated valueTruncated =>
      negb (nameTruncated || valueTruncated)
  | Multer.File _ None _ _ => true
  | Multer.File _ (Some name) _ _ => String.eqb name ""
  | Multer.Failure => false
  end.

(** A part that ends the request in an error wherever it stands: a text
    field that was cut, a failure of the parser, a file with a file name
    under another field name, a file that reaches the size limit. *)
Definition refusing (p : Multer.Part) : bool :=
  match p with
  | Multer.Field nameTruncated valueTruncated => nameTruncated || valueTruncated
  | Multer.File fieldname (Some name) _ limit =>
      negb (String.eqb name "")
      && (negb (String.eqb fieldname "file") || limit)
  | Multer.File _ None _ _ => false
  | Multer.Failure => true
  end.

(** The state with another folder. *)
Definition set_worklogDir (dir : list (string * string)) (s : State) : State :=
  {| requests := requests s; worklogs := worklogs s; worklogDir := dir |}.

(** A work log as the upload route writes it: the path is [worklogs/]
    and the stored name of its file name at some time stamp, the signature
    is a PNG or JPEG data URL, and the file name is not empty. *)
Definition worklog_ok (w : Worklog.t) : Prop :=
  (exists now_ms,
     Worklog.filePath w
     = ("worklogs/" ++ stored_name now_ms (Worklog.fileName w))%string)
  /\ signatureRegex (Worklog.signature w) = true
  /\ Worklog.fileName w <> "".

(** Every column but [status] is the same in both work logs. *)
Definition same_but_worklog_status (w w' : Worklog.t) : Prop :=
  Worklog.id w' = Worklog.id w
  /\ Worklog.uploaderId w' = Worklog.uploaderId w
  /\ Worklog.fileName w' = Worklog.fileName w
  /\ Worklog.filePath w' = Worklog.filePath w
  /\ Worklog.signature w' = Worklog.signature w
  /\ Worklog.createdAt w' = Worklog.createdAt w.

(** What a request can do to the work logs: nothing; a row appended
    under a new id; the status of the rows of one id overwritten. *)
Inductive worklogs_step (rows : list Worklog.t) : list Worklog.t -> Prop :=
| wl_same : worklogs_step rows rows
| wl_upload row :
    existsb (has_worklog_id (Worklog.id row)) rows = false ->
    worklog_ok row ->
    worklogs_step rows (rows ++ [row])
| wl_status st id :
    worklogs_step rows (update_worklog (with_worklog_status st) id rows).

(** The file names a request leaves alone: an upload writes and removes
    files under the stored names of its time stamp only, the other requests
    none. *)
Definition untouched (rq : Request) (name : string) : Prop :=
  match rq with
  | PostWorklogs _ _ now_ms _ _ =>
      forall originalname, name <> stored_name now_ms originalname
  | _ => True
  end.

(** The code unit [replace(/[^\w.\-가-힣_]/g, '_')] leaves in the place of
    [u]. *)
Definition cleaned (u : N) : N := if Multer.kept u then u else 95%N.

Definition safe_chunk (u : N) : string :=
  if Multer.kept u then JsString.utf8_encode_unit u else "_".

(** The bytes of a string of digits, with or without a sign, are kept. *)
Definition plain (a : ascii) : Prop :=
  (N_of_ascii a < 128)%N /\ Multer.kept (N_of_ascii a) = true.

Fixpoint all_plain (s : string) : Prop :=
  match s with
  | EmptyString => True
  | String a r => plain a /\ all_plain r
  end.

(** The days before the first of March of year [y], counted from the first
    of March of year 0. *)
Definition year_start (y : Z) : Z := 365 * y + y / 4 - y / 100 + y / 400.

(** The month after the month [m] (counted from 1) of year [y]. *)
Definition next_month (y m : Z) : Z * Z :=
  if m =? 12 then (y + 1, 1) else (y, m + 1).

(** The decimal digit [n] as a character. *)
Definition digit_char (n : Z) : ascii := ascii_of_N (48 + Z.to_N n).

(** Two and four decimal digits. *)
Definition digits2 (n : Z) : string :=
  String (digit_char (n / 10)) (String (digit_char (n mod 10)) "").

Definition digits4 (n : Z) : string :=
  String (digit_char (n / 1000))
    (String (digit_char (n / 100 mod 10)) (digits2 (n mod 100))).

(** A date as one number, year first. *)
Definition date_key (y m d : Z) : Z := y * 10000 + m * 100 + d.

(** A day of the calendar, in a year written with four digits. *)
Definition calendar_date (y m d : Z) : Prop :=
  1000 <= y <= 9999 /\ 1 <= m <= 12 /\ 1 <= d <= JsDate.month_length y m.

(** ** Accounts *)

(** [SELECT id, name, role FROM users]: the columns a request carries. *)
Definition user_of (a : Account.t) : User.t :=
  {| User.id := Account.id a; User.name := Account.name a;
     User.role := Account.role a |}.

Definition same_username (username : string) (a : Account.t) : bool :=
  String.eqb (Account.username a) username.

Definition same_id (id : string) (a : Account.t) : bool :=
  String.eqb (Account.id a) id.

(** [UPDATE users SET passwordHash=?, name=?, role=? WHERE username=?] on
    one row. *)
Definition reseeded (name : string) (role : Role) (hash : string)
    (a : Account.t) : Account.t :=
  {| Account.id := Account.id a; Account.username := Account.username a;
     Account.name := name; Account.role := role;
     Account.passwordHash := hash |}.

(** [seedUser(username, name, role, password)]; [id] is the value of
    [cryptoRandomId()], [salt] the salt of [hashSync]. The insertion is
    refused when the key is taken ([None]: the statement throws). *)
Definition seedUser (K : Crypto) (id salt username name : string)
    (role : Role) (password : string) (users : list Account.t)
    : option (list Account.t) :=
  let hash := hashSync K salt password in
  match find (same_username username) users with
  | None =>
      if existsb (same_id id) users then None
      else Some (users ++ [{| Account.id := id; Account.username := username;
                              Account.name := name; Account.role := role;
                              Account.passwordHash := hash |}])
  | Some rec =>
      let needUpdate := negb (compareSync K password (Account.passwordHash rec)) in
      if needUpdate
      then Some (map (fun a => if same_username username a
                               then reseeded name role hash a else a) users)
      else Some users
  end.

(** The answers of [POST /api/login]: 400 with the issues by field, 401
    'Invalid credentials', or 200 with the token and the user. *)
Inductive LoginReply : Type :=
| LoginInvalid (fieldErrors : list Zod.ZodIssue)
| LoginRefused
| LoginOk (token : string) (user : User.t).

(** [z.object({ username: z.string().min(1), password: z.string().min(1) })] *)
Definition loginSchema (b : Zod.req_body) : Zod.parsed (string * string) :=
  match b with
  | Zod.BodyOther => Zod.INVALID [not_an_object]
  | Zod.BodyObject o =>
      Zod.OK pair
      <*> Zod.z_string_check Zod.min1 None "username" (Zod.prop o "username")
      <*> Zod.z_string_check Zod.min1 None "password" (Zod.prop o "password")
  end.

(** [POST /api/login] *)
Definition post_login (K : Crypto) (b : Zod.req_body)
    (users : list Account.t) : LoginReply :=
  match loginSchema b with
  | Zod.OK (username, password) =>
      match find (same_username username) users with
      | None => LoginRefused
      | Some found =>
          if compareSync K password (Account.passwordHash found)
          then LoginOk (signToken K {| Claims.sub := Account.id found;
                                       Claims.role := Account.role found |})
                 (user_of found)
          else LoginRefused
      end
  | p => LoginInvalid (Zod.fieldErrors (Zod.issues_of p))
  end.

(** What [authRequired] finds: [bearer] is the token after [Bearer] in the
    header [Authorization], [None] when the header does not have that
    shape. The user is read from the table, by the subject of the token. *)
Definition read_credentials (K : Crypto) (bearer : option string)
    (users : list Account.t) : Credentials :=
  match bearer with
  | None => NoBearer
  | Some token =>
      match verify K token with
      | None => BadToken
      | Some decoded =>
          match find (same_id (Claims.sub decoded)) users with
          | None => UnknownSubject
          | Some a => Verified (user_of a)
          end
      end
  end.

(** The body a client logs in with. *)
Definition login_body (username password : string) : Zod.req_body :=
  Zod.BodyObject [("username", Zod.JString username);
                  ("password", Zod.JString password)].

(** ** The listing of work logs *)

Definition joined (w : Worklog.t) (a : Account.t) : Listed.t :=
  {| Listed.worklog := w;
     Listed.uploaderUsername := Some (Account.username a);
     Listed.uploaderName := Some (Account.name a) |}.

Definition unjoined (w : Worklog.t) : Listed.t :=
  {| Listed.worklog := w; Listed.uploaderUsername := None;
     Listed.uploaderName := None |}.

(** [worklogs w LEFT JOIN users u ON u.id = w.uploaderId], for one [w]. *)
Definition left_join_users (users : list Account.t) (w : Worklog.t)
    : list Listed.t :=
  match filter (same_id (Worklog.uploaderId w)) users with
  | [] => [unjoined w]
  | matched => map (joined w) matched
  end.

(** [ORDER BY w.createdAt DESC] *)
Fixpoint insert_createdAt_desc (r : Listed.t) (rows : list Listed.t)
    : list Listed.t :=
  match rows with
  | [] => [r]
  | x :: rest =>
      if String.leb (Worklog.createdAt (Listed.worklog x))
           (Worklog.createdAt (Listed.worklog r))
      then r :: x :: rest
      else x :: insert_createdAt_desc r rest
  end.

Definition order_by_createdAt_desc (rows : list Listed.t) : list Listed.t :=
  fold_right insert_createdAt_desc [] rows.

(** [GET /api/worklogs] *)
Definition get_worklogs (users : list Account.t) (c : Credentials)
    (s : State) : Response + list Listed.t :=
  match authRequired c with
  | inl res => inl res
  | inr u =>
      match ensureRole [manager; admin] (Some u) with
      | Some res => inl res
      | None =>
          inr (order_by_createdAt_desc
                 (flat_map (left_join_users users) (worklogs s)))
      end
  end.

Definition createdAt_desc (a b : Listed.t) : Prop :=
  String.leb (Worklog.createdAt (Listed.worklog b))
    (Worklog.createdAt (Listed.worklog a)) = true.

(** The uploader as the listing shows it. *)
Definition shows_uploader (users : list Account.t) (row : Listed.t) : Prop :=
  match find (same_id (Worklog.uploaderId (Listed.worklog row))) users with
  | Some a =>
      Listed.uploaderUsername row = Some (Account.username a)
      /\ Listed.uploaderName row = Some (Account.name a)
  | None =>
      Listed.uploaderUsername row = None /\ Listed.uploaderName row = None
  end.

(** ** The seed script *)

(** The period of a seeded row: [start < end ? start : end] and
    [start < end ? end : start]; [<] on strings is the order of their code
    units. *)
Definition seed_period (start end_ : string) : string * string :=
  (if String.ltb start end_ then start else end_,
   if String.ltb start end_ then end_ else start).

(** ** The form of the employee page *)

(** [!v] for a string that may be missing. *)
Definition falsy (v : option string) : bool :=
  match v with
  | None => true
  | Some s => String.eqb s ""
  end.

Definition required (v : option string) (msg : string) : list string :=
  if falsy v then [msg] else [].

(** [!isNaN(s) && !isNaN(e) && e < s] on the times of the two dates. *)
Definition ends_early (start end_ : string) : bool :=
  match getTime start, getTime end_ with
  | Some s, Some e => e <? s
  | _, _ => false
  end.

Definition end_before_start_message : string :=
  "마지막일은 신청일보다 빠를 수 없습니다.".

Definition note_message : string := "사유는 필수입니다.".

(** [validateForm(f)] *)
Definition validateForm (f : LeaveForm.t) : list string :=
  required (LeaveForm.EmpID f) "사번은 필수입니다."
  ++ required (LeaveForm.Name f) "이름은 필수입니다."
  ++ required (LeaveForm.Position f) "직급은 필수입니다."
  ++ required (LeaveForm.Dept f) "부서는 필수입니다."
  ++ required (LeaveForm.LeaveType f) "연차종류는 필수입니다."
  ++ required (LeaveForm.StartDate f) "신청일(시작일)은 필수입니다."
  ++ required (LeaveForm.EndDate f) "마지막일(종료일)은 필수입니다."
  ++ match LeaveForm.StartDate f, LeaveForm.EndDate f with
     | Some start, Some end_ =>
         if negb (String.eqb start "") && negb (String.eqb end_ "")
            && ends_early start end_
         then [end_before_start_message] else []
     | _, _ => []
     end
  ++ required (LeaveForm.Note f) note_message.

(** The falsy ones among the fields the form asks for. *)
Definition missing_fields (f : LeaveForm.t) : list (option string) :=
  filter falsy
    [LeaveForm.EmpID f; LeaveForm.Name f; LeaveForm.Position f;
     LeaveForm.Dept f; LeaveForm.LeaveType f; LeaveForm.StartDate f;
     LeaveForm.EndDate f; LeaveForm.Note f].

(** ** The role middleware *)

Lemma guarded_forbidden roles u h s :
  existsb (Role_eqb (User.role u)) roles = false ->
  guarded roles (Verified u) h s = (json 403 (Error "Forbidden"), s).
Proof.
  intros H. unfold guarded, authRequired, ensureRole. now rewrite H.
Qed.

Lemma guarded_allowed roles u h s :
  existsb (Role_eqb (User.role u)) roles = true ->
  guarded roles (Verified u) h s = h u s.
Proof.
  intros H. unfold guarded, authRequired, ensureRole. now rewrite H.
Qed.

Lemma manager_or_admin_allowed u h s :
  manager_or_admin u -> guarded [manager; admin] (Verified u) h s = h u s.
Proof.
  intros [H | H]; apply guarded_allowed; rewrite H; reflexivity.
Qed.

Lemma authRequired_code c res : authRequired c = inl res -> code res = 401.
Proof. destruct c; cbn; intros [= <-]; reflexivity. Qed.

Lemma ensureRole_code roles user res :
  ensureRole roles user = Some res -> code res = 401 \/ code res = 403.
Proof.
  unfold ensureRole. destruct user as [u | ].
  - destruct (existsb (Role_eqb (User.role u)) roles); intros [= <-]; now right.
  - intros [= <-]; now left.
Qed.

(** ** The statements on [requests] *)

Lemma has_id_true id r : has_id id r = true <-> requestId r = id.
Proof. unfold has_id. apply String.eqb_eq. Qed.

Lemma has_id_false id r : has_id id r = false <-> requestId r <> id.
Proof. unfold has_id. apply String.eqb_neq. Qed.

Lemma select_request_none id rows :
  select_request id rows = None <->
  (forall r, In r rows -> requestId r <> id).
Proof.
  unfold select_request. split.
  - intros H r Hin. apply has_id_false. eapply find_none; eauto.
  - induction rows as [ | x rows IH]; intros H; cbn; [reflexivity | ].
    destruct (has_id id x) eqn:E.
    + apply has_id_true in E. exfalso. apply (H x); cbn; auto.
    + apply IH. intros r Hin. apply H. cbn; auto.
Qed.

Lemma select_update_request f id rows r :
  (forall x, requestId (f x) = requestId x) ->
  select_request id rows = Some r ->
  select_request id (update_request f id rows) = Some (f r).
Proof.
  intros Hf. unfold select_request, update_request.
  induction rows as [ | x rows IH]; cbn; [discriminate | ].
  destruct (has_id id x) eqn:E.
  - intros [= ->]. unfold has_id in *. rewrite Hf, E. reflexivity.
  - intros H. rewrite E. now apply IH.
Qed.

Lemma select_after_insert r rows rows' :
  insert_request r rows = Some rows' ->
  rows' = rows ++ [r]
  /\ select_request (requestId r) rows = None
  /\ select_request (requestId r) rows' = Some r.
Proof.
  unfold insert_request.
  destruct (existsb (has_id (requestId r)) rows) eqn:E; [discriminate | ].
  intros [= <-].
  assert (Hnone : select_request (requestId r) rows = None).
  { apply select_request_none. intros x Hin. apply has_id_false.
    destruct (has_id (requestId r) x) eqn:Ex; [ | reflexivity].
    assert (existsb (has_id (requestId r)) rows = true)
      by (apply existsb_exists; eauto).
    congruence. }
  repeat split; [assumption | ].
  unfold select_request in *.
  induction rows as [ | x rows IH]; cbn in *.
  - unfold has_id. now rewrite String.eqb_refl.
  - destruct (has_id (requestId r) x); [discriminate | ].
    apply orb_false_iff in E. apply IH; tauto.
Qed.

Lemma with_status_same st r : same_but_status r (with_status st r).
Proof. unfold same_but_status. cbn. tauto. Qed.

Lemma update_request_frame f id rows :
  Forall2 (fun r r' => (requestId r <> id -> r' = r)
                       /\ (requestId r = id -> r' = f r))
    rows (update_request f id rows).
Proof.
  unfold update_request.
  induction rows as [ | x rows IH]; cbn; constructor; [ | assumption].
  destruct (has_id id x) eqn:E.
  - apply has_id_true in E. split; [congruence | reflexivity].
  - apply has_id_false in E. split; [reflexivity | congruence].
Qed.

(** ** Sorting *)

Lemma insert_desc_perm r rows : Permutation (r :: rows) (insert_desc r rows).
Proof.
  induction rows as [ | x rows IH]; cbn; [reflexivity | ].
  destruct (String.leb (dateRequested x) (dateRequested r)); [reflexivity | ].
  rewrite perm_swap. now constructor.
Qed.

Lemma order_by_perm rows : Permutation rows (order_by_dateRequested_desc rows).
Proof.
  induction rows as [ | x rows IH]; cbn; [constructor | ].
  rewrite <- insert_desc_perm. now constructor.
Qed.

Lemma insert_desc_hd a r rows :
  desc a r -> HdRel desc a rows -> HdRel desc a (insert_desc r rows).
Proof.
  intros Har Hrows. destruct rows as [ | x rows]; cbn.
  - now constructor.
  - destruct (String.leb (dateRequested x) (dateRequested r)).
    + now constructor.
    + inversion Hrows; subst. now constructor.
Qed.

Lemma insert_desc_sorted r rows :
  Sorted desc rows -> Sorted desc (insert_desc r rows).
Proof.
  induction 1 as [ | x rows Hs IH Hhd]; cbn.
  - repeat constructor.
  - destruct (String.leb (dateRequested x) (dateRequested r)) eqn:E.
    + constructor; [now constructor | constructor; exact E].
    + constructor; [exact IH | ].
      apply insert_desc_hd; [ | assumption].
      unfold desc.
      destruct (String.leb_total (dateRequested x) (dateRequested r));
        congruence.
Qed.

Lemma order_by_sorted rows : Sorted desc (order_by_dateRequested_desc rows).
Proof.
  induction rows as [ | x rows IH]; cbn; [constructor | ].
  now apply insert_desc_sorted.
Qed.

Lemma order_by_In rows r :
  In r (order_by_dateRequested_desc rows) <-> In r rows.
Proof.
  split; apply Permutation_in;
    [symmetry | ]; apply order_by_perm.
Qed.

(** ** Schemas on well-formed bodies *)

Lemma approve_schema_ok b sig :
  signature_body b sig -> approveWithSignatureSchema b = Zod.OK sig.
Proof.
  intros (o & -> & Hp & Hre). cbn. rewrite Hp. cbn. now rewrite Hre.
Qed.

Lemma status_schema_ok b st :
  status_body b st -> updateStatusSchema b = Zod.OK st.
Proof.
  intros (o & v & -> & Hp & Hv). cbn. rewrite Hp. cbn. now rewrite Hv.
Qed.

Lemma RequestStatus_eqb_eq a b : RequestStatus_eqb a b = true <-> a = b.
Proof. destruct a, b; cbn; split; congruence. Qed.

(** ** Approval *)

Lemma approve_conflict now u id b sig s found :
  manager_or_admin u -> signature_body b sig ->
  select_request id (requests s) = Some found ->
  status found = Approved ->
  post_requests_approve now (Verified u) id b s
  = (json 409 (Error "Already approved"), s).
Proof.
  intros Hu Hb Hsel Hst. unfold post_requests_approve.
  rewrite (manager_or_admin_allowed _ _ _ Hu), (approve_schema_ok _ _ Hb).
  rewrite Hsel, Hst. reflexivity.
Qed.

Lemma approve_success now u id b sig s found :
  manager_or_admin u -> signature_body b sig ->
  select_request id (requests s) = Some found ->
  status found <> Approved ->
  let rec := with_approval sig (User.id u) (approval_ts now) found in
  let rows := update_request (with_approval sig (User.id u) (approval_ts now))
                id (requests s) in
  post_requests_approve now (Verified u) id b s
  = (json 200 (DataRequest (Some rec)), set_requests rows s)
  /\ select_request id rows = Some rec.
Proof.
  intros Hu Hb Hsel Hst rec rows.
  assert (Hrec : select_request id rows = Some rec)
    by (apply select_update_request; [reflexivity | assumption]).
  split; [ | assumption].
  unfold post_requests_approve.
  rewrite (manager_or_admin_allowed _ _ _ Hu), (approve_schema_ok _ _ Hb).
  rewrite Hsel.
  destruct (RequestStatus_eqb (status found) Approved) eqn:E.
  - apply RequestStatus_eqb_eq in E. contradiction.
  - fold rows. rewrite Hrec. reflexivity.
Qed.

(** C1. Approval with a signature is not idempotent. For a manager or
    admin and a well-formed signature payload: on a request whose status
    is Approved the call answers 409 (Conflict) and changes nothing; on a
    Pending request it answers 200 with the record, now with status
    Approved, the signature of the payload, the caller's id as signer and
    the time stamp of the call, all other columns as they were; and every
    further approval of that request answers 409. *)
Theorem approve_not_idempotent now u id b sig s found :
  manager_or_admin u -> signature_body b sig ->
  select_request id (requests s) = Some found ->
  (status found = Approved ->
   post_requests_approve now (Verified u) id b s
   = (json 409 (Error "Already approved"), s))
  /\ (status found = Pending ->
      exists rec s',
        post_requests_approve now (Verified u) id b s
        = (json 200 (DataRequest (Some rec)), s')
        /\ select_request id (requests s') = Some rec
        /\ status rec = Approved
        /\ managerSignature rec = Some sig
        /\ managerSignerId rec = Some (User.id u)
        /\ managerSignedAt rec = Some (approval_ts now)
        /\ same_but_approval found rec
        /\ forall now2 u2 b2 sig2,
             manager_or_admin u2 -> signature_body b2 sig2 ->
             post_requests_approve now2 (Verified u2) id b2 s'
             = (json 409 (Error "Already approved"), s')).
Proof.
  intros Hu Hb Hsel. split; intros Hst.
  - now apply (approve_conflict now u id b sig s found).
  - assert (Hne : status found <> Approved) by (rewrite Hst; discriminate).
    destruct (approve_success now u id b sig s found Hu Hb Hsel Hne)
      as [Hrun Hrec].
    eexists _, _. split; [exact Hrun | ].
    split; [exact Hrec | ].
    repeat (split; [reflexivity | ]).
    split; [unfold same_but_approval; cbn; repeat split | ].
    intros now2 u2 b2 sig2 Hu2 Hb2.
    eapply (approve_conflict now2 u2 id b2 sig2);
      [exact Hu2 | exact Hb2 | exact Hrec | reflexivity].
Qed.

(** ** Role enforcement *)

(** C4. For a caller whose role is employee or hr, the status update and
    the approval answer 403 (Forbidden) whatever the id and the body, and
    the state is the one before the call: the role check comes before the
    schema and before any statement on [requests]. *)
Theorem employee_hr_forbidden u :
  User.role u = employee \/ User.role u = hr ->
  forall now id b s,
    put_requests_status (Verified u) id b s
    = (json 403 (Error "Forbidden"), s)
    /\ post_requests_approve now (Verified u) id b s
       = (json 403 (Error "Forbidden"), s).
Proof.
  intros Hrole now id b s.
  split; apply guarded_forbidden; destruct Hrole as [-> | ->]; reflexivity.
Qed.

(** ** Listing *)

(** C5. For every authenticated caller and every state, "my requests"
    answers 200 with rows of the table, each with [requesterId] equal to
    the caller's id, and leaves the state alone. *)
Theorem list_mine_isolation u s :
  exists rows,
    get_requests_mine (Verified u) s = (json 200 (DataRequests rows), s)
    /\ Forall (fun r => In r (requests s)
                        /\ requesterId r = Some (User.id u)) rows.
Proof.
  eexists. split; [reflexivity | ].
  apply Forall_forall. intros r Hin.
  apply order_by_In, filter_In in Hin. destruct Hin as [Hin Heq].
  split; [assumption | ].
  unfold eq_text in Heq. destruct (requesterId r) as [v | ]; [ | discriminate].
  apply String.eqb_eq in Heq. now subst.
Qed.

(** ** Missing records *)

Lemma put_requests_status_never_creates c id b s :
  (forall r, In r (requests s) -> requestId r <> id) ->
  code (fst (put_requests_status c id b s)) <> 200
  /\ snd (put_requests_status c id b s) = s.
Proof.
  intros Habs. apply select_request_none in Habs.
  unfold put_requests_status, guarded.
  destruct (authRequired c) as [res | u] eqn:Ha.
  { apply authRequired_code in Ha. cbn. split; [lia | reflexivity]. }
  destruct (ensureRole [manager; admin] (Some u)) as [res | ] eqn:He.
  { apply ensureRole_code in He. cbn. split; [lia | reflexivity]. }
  rewrite Habs. destruct (updateStatusSchema b); cbn; split; (lia || easy).
Qed.

Lemma post_requests_approve_never_creates now c id b s :
  (forall r, In r (requests s) -> requestId r <> id) ->
  code (fst (post_requests_approve now c id b s)) <> 200
  /\ snd (post_requests_approve now c id b s) = s.
Proof.
  intros Habs. apply select_request_none in Habs.
  unfold post_requests_approve, guarded.
  destruct (authRequired c) as [res | u] eqn:Ha.
  { apply authRequired_code in Ha. cbn. split; [lia | reflexivity]. }
  destruct (ensureRole [manager; admin] (Some u)) as [res | ] eqn:He.
  { apply ensureRole_code in He. cbn. split; [lia | reflexivity]. }
  rewrite Habs.
  destruct (approveWithSignatureSchema b); cbn; split; (lia || easy).
Qed.

(** C7. For an id that no row of [requests] carries: the status update
    with a valid status and the approval with a well-formed signature,
    called by a manager or admin, answer 404 (Not found) and leave the
    state alone; and whatever the caller and body, neither answers 200
    nor changes the state. *)
Theorem missing_id_not_found id s :
  (forall r, In r (requests s) -> requestId r <> id) ->
  (forall u b st, manager_or_admin u -> status_body b st ->
     put_requests_status (Verified u) id b s
     = (json 404 (Error "Not found"), s))
  /\ (forall now u b sig, manager_or_admin u -> signature_body b sig ->
        post_requests_approve now (Verified u) id b s
        = (json 404 (Error "Not found"), s))
  /\ (forall c b,
        code (fst (put_requests_status c id b s)) <> 200
        /\ snd (put_requests_status c id b s) = s)
  /\ (forall now c b,
        code (fst (post_requests_approve now c id b s)) <> 200
        /\ snd (post_requests_approve now c id b s) = s).
Proof.
  intros Habs. pose proof Habs as Hnone. apply select_request_none in Hnone.
  repeat split.
  - intros u b st Hu Hb. unfold put_requests_status.
    rewrite (manager_or_admin_allowed _ _ _ Hu), (status_schema_ok _ _ Hb).
    now rewrite Hnone.
  - intros now u b sig Hu Hb. unfold post_requests_approve.
    rewrite (manager_or_admin_allowed _ _ _ Hu), (approve_schema_ok _ _ Hb).
    now rewrite Hnone.
  - now apply put_requests_status_never_creates.
  - now apply put_requests_status_never_creates.
  - now apply post_requests_approve_never_creates.
  - now apply post_requests_approve_never_creates.
Qed.

(** ** The frame of a status update *)

(** C10. A status update that succeeds (manager or admin, valid status,
    existing id) answers 200 with the record of that id, and in the new
    state the table has the same rows in the same order: a row with
    another id is untouched, the row with this id has the new status and
    every other column as before; the work logs and the uploaded files are
    untouched. *)
Theorem update_status_frame u id b st s found :
  manager_or_admin u -> status_body b st ->
  select_request id (requests s) = Some found ->
  exists rec s',
    put_requests_status (Verified u) id b s
    = (json 200 (DataRequest (Some rec)), s')
    /\ status rec = st /\ same_but_status found rec
    /\ Forall2 (fun r r' =>
                  (requestId r <> id -> r' = r)
                  /\ (requestId r = id ->
                      status r' = st /\ same_but_status r r'))
         (requests s) (requests s')
    /\ worklogs s' = worklogs s /\ worklogDir s' = worklogDir s.
Proof.
  intros Hu Hb Hsel.
  exists (with_status st found),
    (set_requests (update_request (with_status st) id (requests s)) s).
  split.
  - unfold put_requests_status.
    rewrite (manager_or_admin_allowed _ _ _ Hu), (status_schema_ok _ _ Hb).
    rewrite Hsel. cbv zeta.
    now rewrite (select_update_request (with_status st) id _ found).
  - split; [reflexivity | ]. split; [apply with_status_same | ].
    split; [ | split; reflexivity].
    cbn. eapply Forall2_impl; [ | apply update_request_frame].
    cbn. intros r r' [Hother Hsame]. split; [assumption | ].
    intros Hid. rewrite (Hsame Hid).
    split; [reflexivity | apply with_status_same].
Qed.

(** ** Submission *)

Lemma value_of_ap {A B} (pf : Zod.parsed (A -> B)) (pa : Zod.parsed A) :
  Zod.value_of (pf <*> pa)
  = match Zod.value_of pf, Zod.value_of pa with
    | Some f, Some a => Some (f a)
    | _, _ => None
    end.
Proof. destruct pf, pa; reflexivity. Qed.

Lemma refine_OK {A} (check : A -> bool) iss (p : Zod.parsed A) v :
  Zod.refine check iss p = Zod.OK v -> p = Zod.OK v /\ check v = true.
Proof.
  destruct p as [w | w i | i]; cbn; try destruct (check w) eqn:E;
    intros [= <-]; auto.
Qed.

(** The value of the object schema holds what the properties parse to. *)
Lemma createRequestObject_value o v :
  Zod.value_of (createRequestObject (Zod.BodyObject o)) = Some v ->
  Zod.value_of (Zod.z_string_check dateRegex None "startDate"
                  (Zod.prop o "startDate"))
  = Some (CreateRequest.startDate v)
  /\ Zod.value_of (Zod.z_string_check dateRegex None "endDate"
                     (Zod.prop o "endDate"))
     = Some (CreateRequest.endDate v)
  /\ Zod.value_of (Zod.z_default (Zod.z_enum StatusEnum) Pending "status"
                     (Zod.prop o "status"))
     = Some (CreateRequest.status v).
Proof.
  unfold createRequestObject. rewrite !value_of_ap. cbn [Zod.value_of].
  repeat match goal with
         | |- context [Zod.value_of ?p] =>
             destruct (Zod.value_of p); [ | discriminate]
         end.
  intros [= <-]. cbn. auto.
Qed.

Lemma z_status_value o st :
  Zod.value_of (Zod.z_default (Zod.z_enum StatusEnum) Pending "status"
                  (Zod.prop o "status")) = Some st ->
  requested_status o = Some st.
Proof.
  unfold requested_status, Zod.z_default, Zod.z_enum.
  destruct (Zod.prop o "status") as [ | w | ]; cbn; try congruence.
  destruct (StatusEnum w); cbn; congruence.
Qed.

Lemma z_string_value check msg key x v :
  Zod.value_of (Zod.z_string_check check msg key x) = Some v ->
  x = Zod.JString v.
Proof.
  unfold Zod.z_string_check. destruct x as [ | w | ]; cbn; try discriminate.
  destruct (check w); cbn; congruence.
Qed.

(** C3. When the submission answers 201, the caller is an employee or an
    admin, the body is an object, and the answer carries the stored row:
    the row is appended to the table, its [requestId] is the generated id
    (which no row had before), its [requesterId] is the caller's id, its
    approval columns are unset, and its status is the status the body asks
    for: Pending when the body has no [status], the given enum value
    otherwise. *)
Theorem submit_stores_request id c b s res s' :
  post_requests id c b s = (res, s') -> code res = 201 ->
  exists u o rec,
    c = Verified u
    /\ (User.role u = employee \/ User.role u = admin)
    /\ b = Zod.BodyObject o
    /\ body res = DataRequest (Some rec)
    /\ requests s' = requests s ++ [rec]
    /\ (forall r, In r (requests s) -> requestId r <> id)
    /\ requestId rec = id
    /\ requesterId rec = Some (User.id u)
    /\ approval_unset rec
    /\ requested_status o = Some (status rec).
Proof.
  unfold post_requests, guarded. intros Hrun Hcode.
  destruct (authRequired c) as [r401 | u] eqn:Ha.
  { apply authRequired_code in Ha. injection Hrun as <- <-. lia. }
  destruct c as [ | | | u0]; try discriminate. injection Ha as ->.
  destruct (ensureRole [employee; admin] (Some u)) as [r403 | ] eqn:He.
  { apply ensureRole_code in He. injection Hrun as <- <-. lia. }
  assert (Hrole : User.role u = employee \/ User.role u = admin).
  { unfold ensureRole in He. destruct (User.role u); cbn in He;
      auto; discriminate. }
  destruct (createRequestSchema b) as [r | r iss | iss] eqn:Hp;
    try (injection Hrun as <- <-; cbn in Hcode; lia).
  apply refine_OK in Hp. destruct Hp as [Hobj _].
  destruct b as [o | ]; [ | discriminate].
  assert (Hval : Zod.value_of (createRequestObject (Zod.BodyObject o)) = Some r)
    by now rewrite Hobj.
  apply createRequestObject_value in Hval. destruct Hval as (_ & _ & Hst).
  apply z_status_value in Hst.
  destruct (insert_request (new_request id r u) (requests s)) as [rows | ] eqn:Hi;
    [ | injection Hrun as <- <-; cbn in Hcode; lia].
  apply select_after_insert in Hi. cbn [requestId new_request] in Hi.
  destruct Hi as (-> & Hfresh & Hsel).
  injection Hrun as <- <-. rewrite Hsel.
  exists u, o, (new_request id r u). cbn.
  repeat (split; [reflexivity || assumption | ]).
  split; [now apply select_request_none | ].
  repeat split; assumption.
Qed.

(** ** The date refinement *)

Lemma defined_ap {A B} (pf : Zod.parsed (A -> B)) (pa : Zod.parsed A) :
  defined (Zod.value_of (pf <*> pa))
  = defined (Zod.value_of pf) && defined (Zod.value_of pa).
Proof. destruct pf, pa; reflexivity. Qed.

Lemma defined_string check msg key x :
  defined (Zod.value_of (Zod.z_string_check check msg key x)) = is_string x.
Proof. destruct x as [ | w | ]; cbn; try destruct (check w); reflexivity. Qed.

Lemma defined_enum {E} (read : string -> option E) key x :
  defined (Zod.value_of (Zod.z_enum read key x)) = is_member read x.
Proof. destruct x as [ | w | ]; cbn; try destruct (read w); reflexivity. Qed.

(** The object schema aborts exactly on the bodies that are not
    [well_typed]. *)
Lemma createRequestObject_defined o :
  defined (Zod.value_of (createRequestObject (Zod.BodyObject o)))
  = well_typed o.
Proof.
  unfold createRequestObject, well_typed.
  rewrite !defined_ap, !defined_string, !defined_enum. cbn [Zod.value_of defined].
  assert (Hnote : defined (Zod.value_of
            (Zod.z_string_optional_default "" "note" (Zod.prop o "note")))
          = match Zod.prop o "note" with Zod.JOther => false | _ => true end)
    by (destruct (Zod.prop o "note"); reflexivity).
  assert (Hstatus : defined (Zod.value_of
            (Zod.z_default (Zod.z_enum StatusEnum) Pending "status"
               (Zod.prop o "status")))
          = match Zod.prop o "status" with
            | Zod.JUndefined => true
            | v => is_member StatusEnum v
            end).
  { unfold Zod.z_default.
    destruct (Zod.prop o "status") as [ | w | ]; try reflexivity.
    apply (defined_enum StatusEnum "status" (Zod.JString w)). }
  rewrite Hnote, Hstatus. reflexivity.
Qed.

(** C6. When the body's [endDate] and [startDate] are strings that parse
    as dates and the end is strictly before the start, the submission by
    an employee or admin answers 400 with the validation detail and leaves
    the state alone; the comparison is on the parsed times. The detail
    names [endDate] whenever the object itself did not abort, that is, no
    property failed by its type or its enum. *)
Theorem end_before_start_rejected id u o e st te ts s :
  User.role u = employee \/ User.role u = admin ->
  Zod.prop o "endDate" = Zod.JString e ->
  Zod.prop o "startDate" = Zod.JString st ->
  getTime e = Some te -> getTime st = Some ts -> te < ts ->
  exists form field,
    post_requests id (Verified u) (Zod.BodyObject o) s
    = (json 400 (ValidationError form field), s)
    /\ (well_typed o = true -> Zod.mentions "endDate" field = true).
Proof.
  intros Hrole He Hs Hte Hts Hlt.
  unfold post_requests. rewrite guarded_allowed
    by (destruct Hrole as [-> | ->]; reflexivity).
  assert (Hcheck : forall v,
    Zod.value_of (createRequestObject (Zod.BodyObject o)) = Some v ->
    not_before (CreateRequest.endDate v) (CreateRequest.startDate v) = false).
  { intros v Hv. apply createRequestObject_value in Hv.
    destruct Hv as (Hvs & Hve & _).
    apply z_string_value in Hvs, Hve.
    rewrite He in Hve. rewrite Hs in Hvs.
    injection Hve as <-. injection Hvs as <-.
    unfold not_before. rewrite Hte, Hts. apply Z.leb_gt. exact Hlt. }
  assert (Hmention : forall i,
    Zod.mentions "endDate" (Zod.fieldErrors (i ++ [end_before_start])) = true).
  { intros i. unfold Zod.mentions, Zod.fieldErrors.
    apply existsb_exists. exists end_before_start. split; [ | reflexivity].
    apply filter_In. split; [ | reflexivity].
    apply in_or_app. right. now left. }
  unfold createRequestSchema.
  destruct (createRequestObject (Zod.BodyObject o)) as [v | v i | i] eqn:Hobj;
    cbn [Zod.refine].
  - rewrite (Hcheck v eq_refl). eexists _, _. split; [reflexivity | ].
    intros _. apply (Hmention []).
  - rewrite (Hcheck v eq_refl). eexists _, _. split; [reflexivity | ].
    intros _. apply Hmention.
  - eexists _, _. split; [reflexivity | ].
    intros Hwt. rewrite <- createRequestObject_defined, Hobj in Hwt.
    discriminate.
Qed.

(** ** The approval columns along the life of a request *)

Lemma authed_ind c h s (Q : Response * State -> Prop) :
  (forall res, code res = 401 -> Q (res, s)) ->
  (forall u, c = Verified u -> Q (h u s)) ->
  Q (authed c h s).
Proof.
  intros H401 Hh. unfold authed.
  destruct (authRequired c) as [res | u] eqn:Ha.
  - apply H401. now apply authRequired_code in Ha.
  - apply Hh. destruct c; cbn in Ha; congruence.
Qed.

Lemma guarded_ind roles c h s (Q : Response * State -> Prop) :
  (forall res, code res = 401 \/ code res = 403 -> Q (res, s)) ->
  (forall u, c = Verified u ->
     existsb (Role_eqb (User.role u)) roles = true -> Q (h u s)) ->
  Q (guarded roles c h s).
Proof.
  intros Hno Hh. unfold guarded.
  destruct (authRequired c) as [res | u] eqn:Ha.
  - apply Hno. left. now apply authRequired_code in Ha.
  - destruct (ensureRole roles (Some u)) as [res | ] eqn:He.
    + apply Hno. now apply ensureRole_code in He.
    + apply Hh; [destruct c; cbn in Ha; congruence | ].
      unfold ensureRole in He.
      destruct (existsb (Role_eqb (User.role u)) roles); congruence.
Qed.

Lemma guarded_rows_step roles c h s :
  (forall u, rows_step (requests s) (requests (snd (h u s)))) ->
  rows_step (requests s) (requests (snd (guarded roles c h s))).
Proof.
  intros Hh. unfold guarded.
  destruct (authRequired c) as [res | u]; [constructor | ].
  destruct (ensureRole roles (Some u)); [constructor | apply Hh].
Qed.

Lemma authed_rows_step c h s :
  (forall u, rows_step (requests s) (requests (snd (h u s)))) ->
  rows_step (requests s) (requests (snd (authed c h s))).
Proof.
  intros Hh. unfold authed.
  destruct (authRequired c) as [res | u]; [constructor | apply Hh].
Qed.

Lemma upload_single_requests now_ms m s :
  requests (snd (upload_single now_ms m s)) = requests s
  /\ worklogs (snd (upload_single now_ms m s)) = worklogs s.
Proof.
  unfold upload_single. destruct (Multer.handle _ _ _ _ _); auto.
Qed.

Lemma serve_rows_step rq s :
  rows_step (requests s) (requests (snd (serve rq s))).
Proof.
  destruct rq; cbn [serve].
  - apply authed_rows_step. intros u. constructor.
  - apply authed_rows_step. intros u. constructor.
  - apply guarded_rows_step. intros u.
    destruct (createRequestSchema b) as [v | v i | i]; try constructor.
    unfold insert_request. cbn [requestId new_request].
    destruct (existsb (has_id id) (requests s)) eqn:E; cbn;
      [constructor | now constructor].
  - apply guarded_rows_step. intros u.
    destruct (updateStatusSchema b) as [st | st i | i]; try constructor.
    destruct (select_request id (requests s)); cbn; constructor.
  - apply guarded_rows_step. intros u. constructor.
  - apply guarded_rows_step. intros u.
    destruct (approveWithSignatureSchema b) as [sig | sig i | i];
      try constructor.
    destruct (select_request id (requests s)) as [found | ]; [ | constructor].
    destruct (RequestStatus_eqb (status found) Approved); cbn; constructor.
  - apply authed_rows_step. intros u.
    pose proof (upload_single_requests now_ms m s) as [Hr _].
    destruct (upload_single now_ms m s) as [[res | [f | ]] s1];
      cbn in Hr |- *; try (rewrite Hr; constructor).
    destruct (negb _); cbn; [rewrite Hr; constructor | ].
    destruct (insert_worklog _ _); cbn; rewrite Hr; constructor.
  - apply guarded_rows_step. intros u.
    destruct b as [o | ]; cbn; try constructor.
    destruct (Zod.prop o "status") as [ | w | ]; try constructor.
    destruct (WorklogStatusEnum w); try constructor.
    destruct (find _ (worklogs s)); cbn; constructor.
Qed.


Lemma update_request_ids f id rows :
  (forall x, requestId (f x) = requestId x) ->
  map requestId (update_request f id rows) = map requestId rows.
Proof.
  intros Hf. unfold update_request. rewrite map_map. apply map_ext.
  intros r. destruct (has_id id r); [apply Hf | reflexivity].
Qed.

Lemma NoDup_snoc_id rows id :
  NoDup (map requestId rows) -> existsb (has_id id) rows = false ->
  NoDup (map requestId rows ++ [id]).
Proof.
  intros Hnd Hfresh.
  apply NoDup_app; [assumption | repeat constructor; intros [] | ].
  intros x Hin [<- | []]. apply in_map_iff in Hin.
  destruct Hin as (r & Hid & Hin).
  assert (existsb (has_id (requestId r)) rows = true)
    by (apply existsb_exists; exists r; split;
        [assumption | now apply has_id_true]).
  congruence.
Qed.

(** [requestId] is a key: no two rows of a reachable state share it. *)
Lemma reachable_unique_ids s :
  reachable s -> NoDup (map requestId (requests s)).
Proof.
  induction 1 as [rows Hseed | rq s Hreach IH].
  { cbn. induction Hseed as [ | rows id ? ? ? ? ? ? ? ? ? Hseed IH Hfresh];
      [constructor | ].
    rewrite map_app. cbn [map requestId seed_row]. now apply NoDup_snoc_id. }
  destruct (serve_rows_step rq s) as [ | id v user Hfresh | st id | sig signer ts id].
  - assumption.
  - rewrite map_app. cbn [map requestId new_request]. now apply NoDup_snoc_id.
  - now rewrite update_request_ids.
  - now rewrite update_request_ids.
Qed.










(** ** Work-log upload *)

Lemma unlink_write name content dir :
  Multer.unlink name (Multer.write name content dir) = Multer.unlink name dir.
Proof.
  unfold Multer.unlink, Multer.write. rewrite filter_app. cbn [filter fst].
  rewrite String.eqb_refl. cbn [negb]. rewrite app_nil_r.
  induction dir as [ | x dir IH]; cbn [filter]; [reflexivity | ].
  destruct (negb (String.eqb (fst x) name)) eqn:E; cbn [filter];
    [rewrite E; now f_equal | assumption].
Qed.

Lemma unlink_incl name dir : incl (Multer.unlink name dir) dir.
Proof. intros x Hin. apply filter_In in Hin. now destruct Hin. Qed.

Lemma handle_passed_over filename before rest n file dir :
  forallb passed_over before = true ->
  Multer.handle filename (before ++ rest) n file dir
  = Multer.handle filename rest n file dir.
Proof.
  induction before as [ | p before IH]; cbn [app forallb]; [reflexivity | ].
  intros H. apply andb_prop in H. destruct H as [Hp Hb].
  destruct p as [nt vt | fieldname [name | ] bytes limit | ];
    cbn [passed_over] in Hp; cbn [Multer.handle].
  - apply negb_true_iff in Hp. rewrite Hp. now apply IH.
  - rewrite Hp. now apply IH.
  - now apply IH.
  - discriminate.
Qed.

Lemma handle_all_passed_over filename ps n file dir :
  forallb passed_over ps = true ->
  Multer.handle filename ps n file dir = Multer.Passed file dir.
Proof.
  intros H. rewrite <- (app_nil_r ps). now rewrite handle_passed_over.
Qed.

(** Once the file of the request is taken, the rest passes or the file is
    removed again. *)
Lemma handle_taken filename ps f dir :
  Multer.handle filename ps 0 (Some f) dir = Multer.Passed (Some f) dir
  \/ Multer.handle filename ps 0 (Some f) dir
     = Multer.Refused (Multer.unlink (Multer.filename f) dir).
Proof.
  induction ps as [ | p ps IH]; cbn [Multer.handle]; [now left | ].
  destruct p as [nt vt | fieldname [name | ] bytes limit | ].
  - destruct (nt || vt); [now right | exact IH].
  - destruct (String.eqb name ""); [exact IH | ].
    cbn [Nat.ltb Nat.leb]. rewrite andb_false_r. now right.
  - exact IH.
  - now right.
Qed.

Lemma handle_taken_refused filename mid p after f dir :
  forallb passed_over mid = true -> passed_over p = false ->
  Multer.handle filename (mid ++ p :: after) 0 (Some f) dir
  = Multer.Refused (Multer.unlink (Multer.filename f) dir).
Proof.
  intros Hmid Hp. rewrite handle_passed_over by assumption.
  cbn [Multer.handle].
  destruct p as [nt vt | fieldname [name | ] bytes limit | ];
    cbn [passed_over] in Hp.
  - apply negb_false_iff in Hp. now rewrite Hp.
  - rewrite Hp. cbn [Nat.ltb Nat.leb]. now rewrite andb_false_r.
  - discriminate.
  - reflexivity.
Qed.

Lemma handle_refusing filename before p after dir :
  forallb passed_over before = true -> refusing p = true ->
  exists dir',
    Multer.handle filename (before ++ p :: after) 1 None dir
    = Multer.Refused dir'
    /\ incl dir' dir.
Proof.
  intros Hbefore Hp. rewrite handle_passed_over by assumption.
  cbn [Multer.handle].
  destruct p as [nt vt | fieldname [name | ] bytes limit | ];
    cbn [refusing] in Hp.
  - rewrite Hp. eexists. split; [reflexivity | apply incl_refl].
  - apply andb_prop in Hp. destruct Hp as [Hname Hp].
    apply negb_true_iff in Hname. rewrite Hname.
    destruct (String.eqb fieldname "file"); cbn [negb orb andb] in Hp |- *.
    + rewrite Hp. cbn [Multer.removeUploaded]. eexists. split; [reflexivity | ].
      rewrite unlink_write. apply unlink_incl.
    + eexists. split; [reflexivity | apply incl_refl].
  - discriminate.
  - eexists. split; [reflexivity | apply incl_refl].
Qed.

(** The three ways the middleware ends on a request: without a file and
    without a change; with the first part named [file] that has a file name
    written to the folder; or in an error, with no file in the folder that
    was not there before. *)
Lemma handle_cases filename ps dir :
  Multer.handle filename ps 1 None dir = Multer.Passed None dir
  \/ (exists name bytes,
        In (Multer.File "file" (Some name) bytes false) ps /\ name <> ""%string
        /\ Multer.handle filename ps 1 None dir
           = Multer.Passed
               (Some {| Multer.stored_originalname := name;
                        Multer.filename := filename name |})
               (Multer.write (filename name) bytes dir))
  \/ (exists dir',
        Multer.handle filename ps 1 None dir = Multer.Refused dir'
        /\ incl dir' dir).
Proof.
  assert (Hrefused : forall rest,
            Multer.handle filename rest 1 None dir = Multer.Refused dir ->
            exists dir', Multer.handle filename rest 1 None dir
                         = Multer.Refused dir' /\ incl dir' dir)
    by (intros rest H; exists dir; split; [exact H | apply incl_refl]).
  induction ps as [ | p ps IH]; cbn [Multer.handle]; [now left | ].
  assert (Hnext :
            Multer.handle filename ps 1 None dir = Multer.Passed None dir
            \/ (exists name bytes,
                  In (Multer.File "file" (Some name) bytes false) (p :: ps)
                  /\ name <> ""%string
                  /\ Multer.handle filename ps 1 None dir
                     = Multer.Passed
                         (Some {| Multer.stored_originalname := name;
                                  Multer.filename := filename name |})
                         (Multer.write (filename name) bytes dir))
            \/ (exists dir',
                  Multer.handle filename ps 1 None dir = Multer.Refused dir'
                  /\ incl dir' dir)).
  { destruct IH as [H | [(name & bytes & Hin & Hne & H) | H]];
      [now left | | now right; right].
    right; left. exists name, bytes. split; [now right | now split]. }
  destruct p as [nt vt | fieldname [name | ] bytes limit | ].
  - destruct (nt || vt); [ | exact Hnext].
    right; right. exists dir. split; [reflexivity | apply incl_refl].
  - destruct (String.eqb_spec name "") as [_ | Hne]; [exact Hnext | ].
    destruct (String.eqb_spec fieldname "file") as [-> | _];
      cbn [andb Nat.ltb Nat.leb].
    + destruct limit.
      * right; right. eexists. split; [reflexivity | ].
        cbn [Multer.removeUploaded]. rewrite unlink_write. apply unlink_incl.
      * cbn [Nat.sub].
        destruct (handle_taken filename ps
                    {| Multer.stored_originalname := name;
                       Multer.filename := filename name |}
                    (Multer.write (filename name) bytes dir)) as [H | H];
          rewrite H.
        -- right; left. exists name, bytes.
           split; [now left | now split].
        -- right; right. eexists. split; [reflexivity | ].
           cbn [Multer.filename]. rewrite unlink_write. apply unlink_incl.
    + right; right. exists dir. split; [reflexivity | apply incl_refl].
  - exact Hnext.
  - right; right. exists dir. split; [reflexivity | apply incl_refl].
Qed.

(** The upload without a file, with the one file of the form, and in an
    error. *)
Lemma upload_single_none now_ms m s :
  forallb passed_over (Multer.parts m) = true ->
  upload_single now_ms m s = (inr None, s).
Proof.
  intros H. unfold upload_single. rewrite handle_all_passed_over by assumption.
  now destruct s.
Qed.

Lemma upload_single_file now_ms m s before name bytes after :
  Multer.parts m
  = before ++ Multer.File "file" (Some name) bytes false :: after ->
  forallb passed_over before = true -> forallb passed_over after = true ->
  name <> ""%string ->
  upload_single now_ms m s
  = (inr (Some {| Multer.stored_originalname := name;
                  Multer.filename := stored_name now_ms name |}),
     set_worklogDir
       (Multer.write (stored_name now_ms name) bytes (worklogDir s)) s).
Proof.
  intros Hparts Hbefore Hafter Hne. unfold upload_single. rewrite Hparts.
  rewrite handle_passed_over by assumption. cbn [Multer.handle].
  apply String.eqb_neq in Hne. rewrite Hne.
  cbn [String.eqb Ascii.eqb Bool.eqb andb Nat.ltb Nat.leb Nat.sub].
  now rewrite handle_all_passed_over.
Qed.

Lemma upload_single_refusing now_ms m s before p after :
  Multer.parts m = before ++ p :: after ->
  forallb passed_over before = true -> refusing p = true ->
  exists dir',
    upload_single now_ms m s
    = (inl (json 500 Uncaught), set_worklogDir dir' s)
    /\ incl dir' (worklogDir s).
Proof.
  intros Hparts Hbefore Hp. unfold upload_single. rewrite Hparts.
  destruct (handle_refusing
              (fun name => (JsString.of_Z now_ms ++ "_"
                            ++ Multer.safe name)%string)
              before p after (worklogDir s) Hbefore Hp) as (dir' & -> & Hincl).
  now exists dir'.
Qed.

Lemma upload_single_second now_ms m s before name bytes mid p after :
  Multer.parts m
  = before ++ Multer.File "file" (Some name) bytes false
             :: mid ++ p :: after ->
  forallb passed_over before = true -> forallb passed_over mid = true ->
  name <> ""%string -> passed_over p = false ->
  upload_single now_ms m s
  = (inl (json 500 Uncaught),
     set_worklogDir (Multer.unlink (stored_name now_ms name) (worklogDir s)) s).
Proof.
  intros Hparts Hbefore Hmid Hne Hp. unfold upload_single. rewrite Hparts.
  rewrite handle_passed_over by assumption. cbn [Multer.handle].
  apply String.eqb_neq in Hne. rewrite Hne.
  cbn [String.eqb Ascii.eqb Bool.eqb andb Nat.ltb Nat.leb Nat.sub].
  rewrite handle_taken_refused by assumption.
  cbn [Multer.filename]. now rewrite unlink_write.
Qed.

Lemma upload_single_cases now_ms m s :
  upload_single now_ms m s = (inr None, s)
  \/ (exists name bytes,
        In (Multer.File "file" (Some name) bytes false) (Multer.parts m)
        /\ name <> ""%string
        /\ upload_single now_ms m s
           = (inr (Some {| Multer.stored_originalname := name;
                           Multer.filename := stored_name now_ms name |}),
              set_worklogDir
                (Multer.write (stored_name now_ms name) bytes (worklogDir s))
                s))
  \/ (exists dir',
        upload_single now_ms m s
        = (inl (json 500 Uncaught), set_worklogDir dir' s)
        /\ incl dir' (worklogDir s)).
Proof.
  unfold upload_single.
  destruct (handle_cases
              (fun name => (JsString.of_Z now_ms ++ "_"
                            ++ Multer.safe name)%string)
              (Multer.parts m) (worklogDir s))
    as [H | [(name & bytes & Hin & Hne & H) | (dir' & H & Hincl)]];
    rewrite H.
  - left. now destruct s.
  - right; left. now exists name, bytes.
  - right; right. now exists dir'.
Qed.

(** C8. An upload by an authenticated caller whose [signatureDataUrl] is
    absent or a string that is no PNG or JPEG data URL adds no work log and
    changes no request. It is answered 400 with nothing written when the
    middleware finds no file; 400 with the file written and left in the
    folder when the middleware has taken the file, which happens before the
    signature is looked at; and 500 with no new file when the middleware
    ends in an error. The four conditions that follow say when: only parts
    that are passed over; one part named [file] with a file name among
    such parts; a first part that counts which is refused; a part that
    counts after the file was taken, in which case the file is removed
    again. *)
Theorem upload_signature_required id createdAt now_ms u m s :
  signatureRegex (match Multer.signatureDataUrl m with
                  | Some v => v
                  | None => ""
                  end) = false ->
  (exists res s',
     post_worklogs id createdAt now_ms (Verified u) m s = (res, s')
     /\ worklogs s' = worklogs s /\ requests s' = requests s
     /\ ((res = json 400 (Error "파일이 필요합니다") /\ s' = s)
         \/ (res = json 400 (Error "서명 데이터가 필요합니다")
             /\ exists name bytes,
                  In (Multer.File "file" (Some name) bytes false)
                    (Multer.parts m)
                  /\ worklogDir s'
                     = Multer.write (stored_name now_ms name) bytes
                         (worklogDir s))
         \/ (res = json 500 Uncaught
             /\ incl (worklogDir s') (worklogDir s))))
  /\ (forallb passed_over (Multer.parts m) = true ->
      post_worklogs id createdAt now_ms (Verified u) m s
      = (json 400 (Error "파일이 필요합니다"), s))
  /\ (forall before name bytes after,
        Multer.parts m
        = before ++ Multer.File "file" (Some name) bytes false :: after ->
        forallb passed_over before = true ->
        forallb passed_over after = true -> name <> ""%string ->
        post_worklogs id createdAt now_ms (Verified u) m s
        = (json 400 (Error "서명 데이터가 필요합니다"),
           set_worklogDir
             (Multer.write (stored_name now_ms name) bytes (worklogDir s)) s))
  /\ (forall before p after,
        Multer.parts m = before ++ p :: after ->
        forallb passed_over before = true -> refusing p = true ->
        exists s',
          post_worklogs id createdAt now_ms (Verified u) m s
          = (json 500 Uncaught, s')
          /\ incl (worklogDir s') (worklogDir s))
  /\ (forall before name bytes mid p after,
        Multer.parts m
        = before ++ Multer.File "file" (Some name) bytes false
                   :: mid ++ p :: after ->
        forallb passed_over before = true ->
        forallb passed_over mid = true ->
        name <> ""%string -> passed_over p = false ->
        post_worklogs id createdAt now_ms (Verified u) m s
        = (json 500 Uncaught,
           set_worklogDir
             (Multer.unlink (stored_name now_ms name) (worklogDir s)) s)).
Proof.
  intros Hsig. unfold post_worklogs, authed. cbn [authRequired].
  split; [ | split; [ | split; [ | split]]].
  - destruct (upload_single_cases now_ms m s)
      as [H | [(name & bytes & Hin & Hne & H) | (dir' & H & Hincl)]];
      rewrite H.
    + eexists _, _. split; [reflexivity | ]. repeat split. now left.
    + rewrite Hsig. cbn [negb]. eexists _, _. split; [reflexivity | ].
      repeat split. right; left. split; [reflexivity | ].
      now exists name, bytes.
    + eexists _, _. split; [reflexivity | ]. repeat split.
      right; right. now split.
  - intros H. now rewrite upload_single_none.
  - intros before name bytes after Hparts Hbefore Hafter Hne.
    rewrite (upload_single_file now_ms m s before name bytes after)
      by assumption.
    now rewrite Hsig.
  - intros before p after Hparts Hbefore Hp.
    destruct (upload_single_refusing now_ms m s before p after
                Hparts Hbefore Hp) as (dir' & -> & Hincl).
    eexists. split; [reflexivity | exact Hincl].
  - intros before name bytes mid p after Hparts Hbefore Hmid Hne Hp.
    now rewrite (upload_single_second now_ms m s before name bytes mid p
                   after) by assumption.
Qed.

(** ** Calendar arithmetic *)

Lemma year_of_era_day_of_era yoe doy :
  0 <= yoe <= 399 -> 0 <= doy <= 365 -> leap_day_allowed yoe doy ->
  JsDate.year_of_era (JsDate.day_of_era yoe doy) = yoe.
Proof.
  unfold leap_day_allowed, JsDate.year_of_era, JsDate.day_of_era.
  intros Hy Hd Hl. Z.div_mod_to_equations. lia.
Qed.

Lemma day_of_era_bound yoe doy :
  0 <= yoe <= 399 -> 0 <= doy <= 365 -> leap_day_allowed yoe doy ->
  0 <= JsDate.day_of_era yoe doy < 146097.
Proof.
  unfold leap_day_allowed, JsDate.day_of_era.
  intros Hy Hd Hl. Z.div_mod_to_equations. lia.
Qed.

Lemma shifted_month_day_of_year mp d :
  0 <= mp <= 11 -> 1 <= d ->
  d <= JsDate.day_of_year (mp + 1) 1 - JsDate.day_of_year mp 1 ->
  JsDate.shifted_month (JsDate.day_of_year mp d) = mp.
Proof.
  unfold JsDate.shifted_month, JsDate.day_of_year.
  intros Hm Hd Hl. Z.div_mod_to_equations. lia.
Qed.

(** Within a month, the day of the year is in range, the leap day only
    where the year has one, and the day is within the span the month
    takes in the March-based year. *)
Lemma day_of_year_in_month y m d :
  1 <= m <= 12 -> 1 <= d <= JsDate.month_length y m ->
  let y' := if m <=? 2 then y - 1 else y in
  let yoe := y' - y' / 400 * 400 in
  let mp := (m + 9) mod 12 in
  let doy := JsDate.day_of_year mp d in
  0 <= doy <= 365 /\ leap_day_allowed yoe doy
  /\ d <= JsDate.day_of_year (mp + 1) 1 - JsDate.day_of_year mp 1.
Proof.
  intros Hm Hd. cbv zeta.
  unfold JsDate.month_length, JsDate.is_leap in Hd.
  unfold leap_day_allowed, JsDate.day_of_year.
  assert (Hc : m = 1 \/ m = 2 \/ m = 3 \/ m = 4 \/ m = 5 \/ m = 6 \/ m = 7
               \/ m = 8 \/ m = 9 \/ m = 10 \/ m = 11 \/ m = 12) by lia.
  repeat (destruct Hc as [Hc | Hc]); subst m;
    cbn -[Z.div Z.modulo Z.mul Z.add Z.sub] in Hd |- *;
    try (destruct (y mod 4 =? 0) eqn:E4; destruct (y mod 100 =? 0) eqn:E100;
         destruct (y mod 400 =? 0) eqn:E400; cbn in Hd;
         rewrite ?Z.eqb_eq, ?Z.eqb_neq in * );
    change ((1 + 9) mod 12) with 10; change ((2 + 9) mod 12) with 11;
    change ((3 + 9) mod 12) with 0; change ((4 + 9) mod 12) with 1;
    change ((5 + 9) mod 12) with 2; change ((6 + 9) mod 12) with 3;
    change ((7 + 9) mod 12) with 4; change ((8 + 9) mod 12) with 5;
    change ((9 + 9) mod 12) with 6; change ((10 + 9) mod 12) with 7;
    change ((11 + 9) mod 12) with 8; change ((12 + 9) mod 12) with 9;
    Z.div_mod_to_equations; lia.
Qed.

(** The civil date of the day number of a date of the calendar is that
    date. *)
Lemma civil_roundtrip y m d :
  1 <= m <= 12 -> 1 <= d <= JsDate.month_length y m ->
  JsDate.civil_from_days (JsDate.days_from_civil y m d) = (y, m, d).
Proof.
  intros Hm Hd.
  pose proof (day_of_year_in_month y m d Hm Hd) as Hin. cbv zeta in Hin.
  unfold JsDate.civil_from_days, JsDate.days_from_civil.
  set (y' := if m <=? 2 then y - 1 else y) in *.
  set (era := y' / 400) in *. set (yoe := y' - era * 400) in *.
  set (mp := (m + 9) mod 12) in *. set (doy := JsDate.day_of_year mp d) in *.
  destruct Hin as (Hdoy & Hleap & Hlen).
  assert (Hyoe : 0 <= yoe <= 399)
    by (subst yoe era; Z.div_mod_to_equations; lia).
  assert (Hmp : 0 <= mp <= 11) by (subst mp; Z.div_mod_to_equations; lia).
  assert (Hmpm : m = (if mp <? 10 then mp + 3 else mp - 9)).
  { subst mp. destruct (Z.ltb_spec ((m + 9) mod 12) 10);
      Z.div_mod_to_equations; lia. }
  pose proof (day_of_era_bound yoe doy Hyoe Hdoy Hleap) as Hdoe.
  cbv zeta.
  replace (era * 146097 + JsDate.day_of_era yoe doy - 719468 + 719468)
    with (JsDate.day_of_era yoe doy + era * 146097) by ring.
  rewrite Z.div_add by lia. rewrite (Z.div_small _ _ Hdoe). cbn [Z.add].
  replace (JsDate.day_of_era yoe doy + era * 146097 - era * 146097)
    with (JsDate.day_of_era yoe doy) by ring.
  rewrite (year_of_era_day_of_era yoe doy Hyoe Hdoy Hleap).
  replace (JsDate.day_of_era yoe doy - JsDate.day_of_era yoe 0) with doy
    by (unfold JsDate.day_of_era; ring).
  assert (Hsm : JsDate.shifted_month doy = mp)
    by (apply shifted_month_day_of_year; lia).
  rewrite Hsm, <- Hmpm.
  f_equal; [f_equal | ].
  - subst yoe era y'. destruct (Z.leb_spec m 2); ring.
  - subst doy. unfold JsDate.day_of_year. ring.
Qed.

Lemma MakeDay_previous_month year month date :
  0 <= month <= 11 ->
  JsDate.MakeDay year (month - 1) date
  = JsDate.days_from_civil (fst (previous_month year month))
      (snd (previous_month year month)) date.
Proof.
  intros Hm. unfold JsDate.MakeDay, previous_month.
  destruct (Z.eqb_spec month 0) as [-> | Hne]; cbn [fst snd].
  - change ((0 - 1) / 12) with (-1). change ((0 - 1) mod 12 + 1) with 12.
    unfold JsDate.days_from_civil, JsDate.day_of_era, JsDate.day_of_year.
    cbv zeta. replace (year + -1) with (year - 1) by ring. ring.
  - replace ((month - 1) / 12) with 0 by (Z.div_mod_to_equations; lia).
    replace ((month - 1) mod 12 + 1) with month
      by (Z.div_mod_to_equations; lia).
    unfold JsDate.days_from_civil, JsDate.day_of_era, JsDate.day_of_year.
    cbv zeta. replace (year + 0) with year by ring. ring.
Qed.

Lemma cutStr_same_day now :
  0 <= JsDate.getMonth now <= 11 ->
  let '(y, m) := previous_month (JsDate.getFullYear now) (JsDate.getMonth now) in
  1 <= JsDate.getDate now <= JsDate.month_length y m ->
  cutStr now = ymd y m (JsDate.getDate now).
Proof.
  intros Hm.
  destruct (previous_month (JsDate.getFullYear now) (JsDate.getMonth now))
    as [y m] eqn:Hp.
  intros Hd. unfold cutStr, JsDate.setMonth.
  rewrite MakeDay_previous_month by assumption. rewrite Hp. cbn [fst snd].
  rewrite civil_roundtrip; [ | | assumption].
  - cbn. unfold ymd. replace (m - 1 + 1) with m by ring. reflexivity.
  - unfold previous_month in Hp.
    destruct (JsDate.getMonth now =? 0) eqn:E; injection Hp as <- <-;
      [lia | ]. apply Z.eqb_neq in E. lia.
Qed.

(** ** Recent requests *)

(** C9. The recent listing answers 403 to an employee; to a manager, hr
    or admin it answers 200 with exactly the rows whose [dateRequested] is
    not below the cut-off string (there is no upper bound), by descending
    [dateRequested]. When the day of the month of now exists in the
    previous month, the cut-off is that day of the previous month. *)
Theorem recent_requests now s :
  (forall u, User.role u = employee ->
     get_requests_recent now (Verified u) s
     = (json 403 (Error "Forbidden"), s))
  /\ (forall u,
        User.role u = manager \/ User.role u = hr \/ User.role u = admin ->
        exists rows,
          get_requests_recent now (Verified u) s
          = (json 200 (DataRequests rows), s)
          /\ Permutation rows
               (filter (fun r => String.leb (cutStr now) (dateRequested r))
                  (requests s))
          /\ (forall r, In r rows <->
                        In r (requests s)
                        /\ String.leb (cutStr now) (dateRequested r) = true)
          /\ Sorted desc rows)
  /\ (forall y m,
        previous_month (JsDate.getFullYear now) (JsDate.getMonth now) = (y, m) ->
        0 <= JsDate.getMonth now <= 11 ->
        1 <= JsDate.getDate now <= JsDate.month_length y m ->
        cutStr now = ymd y m (JsDate.getDate now)).
Proof.
  split; [ | split].
  - intros u Hu. apply guarded_forbidden. rewrite Hu. reflexivity.
  - intros u Hu. eexists. split; [ | split; [ | split]].
    + unfold get_requests_recent. rewrite guarded_allowed; [reflexivity | ].
      destruct Hu as [-> | [-> | ->]]; reflexivity.
    + symmetry. apply order_by_perm.
    + intros r. rewrite order_by_In. apply filter_In.
    + apply order_by_sorted.
  - intros y m Hp Hm Hd. pose proof (cutStr_same_day now Hm) as H.
    rewrite Hp in H. auto.
Qed.

Lemma reachable_initial : reachable initial.
Proof. apply reachable_seeded. constructor. Qed.

Lemma reachable_run rqs s : reachable s -> reachable (run rqs s).
Proof.
  revert s. induction rqs as [ | rq rqs IH]; intros s Hs; cbn; [assumption | ].
  apply IH. now constructor.
Qed.

(** ** Routes behind the middleware, in general *)

Lemma authRequired_unverified c :
  (forall u, c <> Verified u) ->
  exists res, authRequired c = inl res /\ code res = 401.
Proof.
  intros Hc. destruct c as [ | | | u]; cbn; eauto. now destruct (Hc u).
Qed.

(** What a submission that answers 201 did. *)
Lemma post_requests_created id c b s res s' :
  post_requests id c b s = (res, s') -> code res = 201 ->
  exists u r,
    c = Verified u
    /\ (User.role u = employee \/ User.role u = admin)
    /\ createRequestSchema b = Zod.OK r
    /\ (forall x, In x (requests s) -> requestId x <> id)
    /\ res = json 201 (DataRequest (Some (new_request id r u)))
    /\ s' = set_requests (requests s ++ [new_request id r u]) s.
Proof.
  unfold post_requests. apply guarded_ind.
  - intros r0 Hc [= <- <-] H201. lia.
  - intros u -> Hrole.
    destruct (createRequestSchema b) as [r | r iss | iss] eqn:Hp;
      try (intros [= <- <-] H201; cbn in H201; lia).
    destruct (insert_request (new_request id r u) (requests s)) as [rows | ] eqn:Hi;
      [ | intros [= <- <-] H201; cbn in H201; lia].
    apply select_after_insert in Hi. cbn [requestId new_request] in Hi.
    destruct Hi as (-> & Hfresh & Hsel). rewrite Hsel.
    intros [= <- <-] _. exists u, r.
    repeat split; try reflexivity.
    + destruct (User.role u); cbn in Hrole; auto; discriminate.
    + now apply select_request_none.
Qed.

Lemma accepted_ap {A B} (pf : Zod.parsed (A -> B)) (pa : Zod.parsed A) :
  accepted (pf <*> pa)
  = match accepted pf, accepted pa with
    | Some f, Some a => Some (f a)
    | _, _ => None
    end.
Proof. destruct pf, pa; reflexivity. Qed.

Lemma accepted_OK {A} (p : Zod.parsed A) v :
  p = Zod.OK v -> accepted p = Some v.
Proof. now intros ->. Qed.

Lemma accepted_string check msg key x v :
  accepted (Zod.z_string_check check msg key x) = Some v ->
  x = Zod.JString v /\ check v = true.
Proof.
  unfold Zod.z_string_check. destruct x as [ | w | ]; try discriminate.
  destruct (check w) eqn:E; [ | discriminate]. intros [= <-]. auto.
Qed.

(** A value the schema accepts passes every check of the schema. *)
Lemma createRequestSchema_checks b r :
  createRequestSchema b = Zod.OK r ->
  dateRegex (CreateRequest.dateRequested r) = true
  /\ Zod.min1 (CreateRequest.empId r) = true
  /\ Zod.min1 (CreateRequest.name r) = true
  /\ Zod.min1 (CreateRequest.position r) = true
  /\ dateRegex (CreateRequest.startDate r) = true
  /\ dateRegex (CreateRequest.endDate r) = true
  /\ Zod.min1 (CreateRequest.handoverPerson r) = true
  /\ phoneRegex (CreateRequest.contact r) = true
  /\ signatureRegex (CreateRequest.signatureDataUrl r) = true
  /\ not_before (CreateRequest.endDate r) (CreateRequest.startDate r) = true
  /\ exists o, b = Zod.BodyObject o
               /\ Zod.prop o "signatureDataUrl"
                  = Zod.JString (CreateRequest.signatureDataUrl r).
Proof.
  intros Hp. apply refine_OK in Hp. destruct Hp as [Hobj Hdates].
  destruct b as [o | ]; [ | discriminate].
  apply accepted_OK in Hobj. revert Hobj.
  unfold createRequestObject. rewrite !accepted_ap. cbn [accepted].
  repeat match goal with
         | |- context [accepted ?p] =>
             let E := fresh "E" in
             destruct (accepted p) eqn:E; [ | discriminate]
         end.
  intros [= <-].
  cbn [CreateRequest.dateRequested CreateRequest.empId CreateRequest.name
       CreateRequest.position CreateRequest.startDate CreateRequest.endDate
       CreateRequest.handoverPerson CreateRequest.contact
       CreateRequest.signatureDataUrl] in Hdates |- *.
  repeat match goal with
         | H : accepted (Zod.z_string_check _ _ _ _) = Some _ |- _ =>
             apply accepted_string in H; destruct H
         end.
  repeat (split; [assumption | ]). eauto.
Qed.

Lemma schema_valid_new_request id r u b :
  createRequestSchema b = Zod.OK r -> schema_valid (new_request id r u) = true.
Proof.
  intros Hp. apply createRequestSchema_checks in Hp.
  destruct Hp as (H1 & H2 & H3 & H4 & H5 & H6 & H7 & H8 & H9 & H10 & _).
  unfold schema_valid. cbn.
  now rewrite H1, H2, H3, H4, H5, H6, H7, H8, H9, H10.
Qed.

(** ** The requests the API created *)

Lemma update_request_Forall (P : RequestRow -> Prop) f id rows :
  (forall r, P r -> P (f r)) ->
  Forall P rows -> Forall P (update_request f id rows).
Proof.
  intros Hf Hall. unfold update_request. apply Forall_map.
  eapply Forall_impl; [ | exact Hall]. intros r Hr.
  destruct (has_id id r); auto.
Qed.

Lemma serve_created_valid rq s :
  Forall created_valid (requests s) ->
  Forall created_valid (requests (snd (serve rq s))).
Proof.
  intros Hall. destruct rq; cbn [serve].
  - unfold get_requests. now apply authed_ind.
  - unfold get_requests_mine. now apply authed_ind.
  - unfold post_requests. apply guarded_ind; [easy | ]. intros u _ _.
    destruct (createRequestSchema b) as [r | r i | i] eqn:Hp; try assumption.
    unfold insert_request.
    destruct (existsb _ (requests s)); cbn; [assumption | ].
    apply Forall_app. split; [assumption | ].
    constructor; [ | constructor]. intros _.
    eapply schema_valid_new_request; eassumption.
  - unfold put_requests_status. apply guarded_ind; [easy | ]. intros u _ _.
    destruct (updateStatusSchema b) as [st | st i | i]; try assumption.
    destruct (select_request id (requests s)) as [found | ]; cbn;
      [ | assumption].
    apply update_request_Forall; [ | assumption]. intros r Hr. exact Hr.
  - unfold get_requests_recent. now apply guarded_ind.
  - unfold post_requests_approve. apply guarded_ind; [easy | ]. intros u _ _.
    destruct (approveWithSignatureSchema b) as [sig | sig i | i];
      try assumption.
    destruct (select_request id (requests s)) as [found | ]; [ | assumption].
    destruct (RequestStatus_eqb (status found) Approved); cbn; [assumption | ].
    apply update_request_Forall; [ | assumption]. intros r Hr. exact Hr.
  - pose proof (serve_rows_step (PostWorklogs id createdAt now_ms c m) s) as H.
    cbn [serve] in H. revert H.
    unfold post_worklogs. apply authed_ind; [easy | ]. intros u _.
    pose proof (upload_single_requests now_ms m s) as [Hr _].
    destruct (upload_single now_ms m s) as [[res | [f | ]] s1];
      cbn in Hr |- *; intros _; try (rewrite Hr; assumption).
    destruct (negb _); cbn; [rewrite Hr; assumption | ].
    destruct (insert_worklog _ _); cbn; rewrite Hr; assumption.
  - unfold put_worklogs_status. apply guarded_ind; [easy | ]. intros u _ _.
    destruct b as [o | ]; cbn; try assumption.
    destruct (Zod.prop o "status") as [ | w | ]; try assumption.
    destruct (WorklogStatusEnum w); try assumption.
    destruct (find _ (worklogs s)); cbn; assumption.
Qed.

(** X1. In every state the server reaches, a request that carries a
    [requesterId] (one the API created, not a seed row) satisfies the
    constraints of the creation schema: the three dates have the shape
    YYYY-MM-DD, [empId], [name], [position] and the hand-over person are not
    empty, the contact matches the phone pattern, the signature is a PNG or
    JPEG data URL, and both dates parse with the end not before the start.
    Status updates and approvals keep this. *)
Theorem stored_requests_valid s :
  reachable s -> Forall created_valid (requests s).
Proof.
  induction 1 as [rows Hseed | rq s Hreach IH].
  - cbn. induction Hseed; [constructor | ].
    apply Forall_app. split; [assumption | ].
    constructor; [ | constructor]. intros Hid. now destruct Hid.
  - now apply serve_created_valid.
Qed.

(** ** Submission and the listings *)

(** X2. A request that was submitted with success is listed at once: "my
    requests" of the submitter holds the stored record, and so does the
    listing of all requests, whoever asks for it. *)
Theorem submit_then_listed id c b s res s' :
  post_requests id c b s = (res, s') -> code res = 201 ->
  exists rec mine,
    body res = DataRequest (Some rec)
    /\ get_requests_mine c s' = (json 200 (DataRequests mine), s')
    /\ In rec mine
    /\ forall v, exists all,
         get_requests (Verified v) s' = (json 200 (DataRequests all), s')
         /\ In rec all.
Proof.
  intros Hrun H201.
  destruct (post_requests_created _ _ _ _ _ _ Hrun H201)
    as (u & r & -> & _ & _ & _ & -> & ->).
  eexists _, _. split; [reflexivity | ]. split; [reflexivity | ].
  assert (Hin : In (new_request id r u)
                  (requests s ++ [new_request id r u]))
    by (apply in_or_app; right; now left).
  split.
  - apply order_by_In, filter_In. split; [exact Hin | ].
    cbn. apply String.eqb_refl.
  - intros v. eexists. split; [reflexivity | ]. now apply order_by_In.
Qed.

(** X6. The listing of all requests is not scoped: to every authenticated
    caller, whatever the role, it answers 200 with all the rows of the
    table, each once, by descending [dateRequested], and changes nothing. *)
Theorem list_all_unscoped u s :
  exists rows,
    get_requests (Verified u) s = (json 200 (DataRequests rows), s)
    /\ Permutation rows (requests s)
    /\ Sorted desc rows.
Proof.
  eexists. split; [reflexivity | ]. split.
  - symmetry. apply order_by_perm.
  - apply order_by_sorted.
Qed.

(** ** The signature route *)

Lemma min1_nonempty v : Zod.min1 v = true -> String.eqb v "" = false.
Proof. unfold Zod.min1. now destruct (String.eqb v ""). Qed.

Lemma signatureRegex_nonempty v : signatureRegex v = true -> String.eqb v "" = false.
Proof. destruct v; [discriminate | reflexivity]. Qed.

(** X3. The signature of a submitted request can be read back: after a
    submission that answers 201, the signature route answers, to any
    authenticated caller, the [signatureDataUrl] of the body. For any state,
    it answers a data URL exactly when the first row of that id has a
    signature that is not empty, and 'No signature' otherwise (no such row,
    a NULL signature as in a seed row, or the empty string). *)
Theorem signature_round_trip s :
  (forall id c b res s',
     post_requests id c b s = (res, s') -> code res = 201 ->
     exists o sig,
       b = Zod.BodyObject o
       /\ Zod.prop o "signatureDataUrl" = Zod.JString sig
       /\ forall v, get_requests_signature (Verified v) id s'
                    = inr (SignatureUrl sig))
  /\ (forall id v sig,
        get_requests_signature (Verified v) id s = inr (SignatureUrl sig)
        <-> exists r, select_request id (requests s) = Some r
                      /\ signature r = Some sig /\ sig <> "").
Proof.
  split.
  - intros id c b res s' Hrun H201.
    destruct (post_requests_created _ _ _ _ _ _ Hrun H201)
      as (u & r & -> & _ & Hp & Hfresh & -> & ->).
    apply createRequestSchema_checks in Hp.
    destruct Hp as (_ & _ & _ & _ & _ & _ & _ & _ & Hsig & _ & o & -> & Ho).
    exists o, (CreateRequest.signatureDataUrl r).
    split; [reflexivity | ]. split; [assumption | ]. intros v.
    unfold get_requests_signature. cbn [authRequired requests set_requests].
    assert (Hsel : select_request id (requests s ++ [new_request id r u])
                   = Some (new_request id r u)).
    { apply (select_after_insert (new_request id r u) (requests s)).
      unfold insert_request. cbn [requestId new_request].
      replace (existsb (has_id id) (requests s)) with false; [reflexivity | ].
      symmetry. apply not_true_is_false. intros Hex.
      apply existsb_exists in Hex. destruct Hex as (x & Hin & Hid).
      apply has_id_true in Hid. now apply (Hfresh x). }
    rewrite Hsel. cbn [signature new_request].
    now rewrite (signatureRegex_nonempty _ Hsig).
  - intros id v sig. unfold get_requests_signature. cbn [authRequired].
    destruct (select_request id (requests s)) as [r | ] eqn:Hsel.
    + destruct (signature r) as [sg | ] eqn:Hsg.
      * destruct (String.eqb_spec sg "") as [Hempty | Hne].
        -- split; [discriminate | ].
           intros (r' & Hr & Hs & Hne). congruence.
        -- split.
           ++ intros [= <-]. exists r. auto.
           ++ intros (r' & Hr & Hs & _). congruence.
      * split; [discriminate | ]. intros (r' & Hr & Hs & _). congruence.
    + split; [discriminate | ]. intros (r' & Hs & _). discriminate.
Qed.

(** ** What no request undoes *)

Lemma update_request_same_but_approval f id rows :
  (forall r, same_but_approval r (f r)) ->
  Forall2 same_but_approval rows (update_request f id rows).
Proof.
  intros Hf. unfold update_request.
  induction rows as [ | x rows IH]; cbn; constructor; [ | assumption].
  destruct (has_id id x); [apply Hf | ]. unfold same_but_approval. repeat split.
Qed.

Lemma same_but_approval_refl rows : Forall2 same_but_approval rows rows.
Proof.
  induction rows; constructor; [ | assumption].
  unfold same_but_approval. repeat split.
Qed.

(** X4. No request deletes a leave request or rewrites what was submitted:
    after any request, the rows that were in the table are still there, in
    the same order, each with the same [requestId], [requesterId] and
    submitted columns (only the status and the three approval columns may
    differ), followed by at most one new row. *)
Theorem requests_persist rq s :
  exists kept added,
    requests (snd (serve rq s)) = kept ++ added
    /\ Forall2 same_but_approval (requests s) kept
    /\ (List.length added <= 1)%nat.
Proof.
  destruct (serve_rows_step rq s) as [ | id v user _ | st id | sig signer ts id].
  - exists (requests s), []. rewrite app_nil_r.
    split; [reflexivity | ]. split; [apply same_but_approval_refl | cbn; lia].
  - eexists _, _. split; [reflexivity | ].
    split; [apply same_but_approval_refl | cbn; lia].
  - eexists _, []. rewrite app_nil_r. split; [reflexivity | ].
    split; [ | cbn; lia]. apply update_request_same_but_approval.
    intros r. unfold same_but_approval. cbn. repeat split.
  - eexists _, []. rewrite app_nil_r. split; [reflexivity | ].
    split; [ | cbn; lia]. apply update_request_same_but_approval.
    intros r. unfold same_but_approval. cbn. repeat split.
Qed.

(** ** Requests without a verified token *)

(** X5. Without a verified token (no bearer token, a token that does not
    verify, a subject that is no user) every route answers 401 and leaves
    the state as it is: nothing is validated, stored or uploaded before the
    authentication. The signature route answers 401 as well. *)
Theorem unauthenticated_refused c s :
  (forall u, c <> Verified u) ->
  (forall rq, credentials_of rq = c ->
     code (fst (serve rq s)) = 401 /\ snd (serve rq s) = s)
  /\ (forall id, exists res,
        get_requests_signature c id s = inl res /\ code res = 401).
Proof.
  intros Hc. destruct (authRequired_unverified c Hc) as (res & Ha & H401).
  split.
  - intros rq <-.
    destruct rq; cbn [serve credentials_of] in *;
      unfold get_requests, get_requests_mine, post_requests,
        put_requests_status, get_requests_recent, post_requests_approve,
        post_worklogs, put_worklogs_status, guarded, authed;
      rewrite Ha; auto.
  - intros id. exists res. unfold get_requests_signature. now rewrite Ha.
Qed.

(** ** What each role can do to the requests *)

Lemma same_but_approval_with_status st r :
  same_but_approval r (with_status st r).
Proof. unfold same_but_approval. cbn. repeat split. Qed.

Lemma same_but_approval_with_approval sig signer ts r :
  same_but_approval r (with_approval sig signer ts r).
Proof. unfold same_but_approval. cbn. repeat split. Qed.

(** The change of the table, with the caller that made it. *)
Lemma serve_rows_by_role rq s :
  requests (snd (serve rq s)) = requests s
  \/ (exists u id r,
        credentials_of rq = Verified u
        /\ existsb (Role_eqb (User.role u)) [employee; admin] = true
        /\ requests (snd (serve rq s)) = requests s ++ [new_request id r u])
  \/ (exists u f id,
        credentials_of rq = Verified u
        /\ existsb (Role_eqb (User.role u)) [manager; admin] = true
        /\ (forall r, same_but_approval r (f r))
        /\ requests (snd (serve rq s)) = update_request f id (requests s)).
Proof.
  destruct rq; cbn [serve credentials_of].
  - unfold get_requests. apply authed_ind; auto.
  - unfold get_requests_mine. apply authed_ind; auto.
  - unfold post_requests. apply guarded_ind; [auto | ]. intros u -> Hrole.
    destruct (createRequestSchema b) as [r | r i | i]; auto.
    unfold insert_request. destruct (existsb _ (requests s)); cbn; [auto | ].
    right; left. exists u, id, r. repeat split; auto.
  - unfold put_requests_status. apply guarded_ind; [auto | ]. intros u -> Hrole.
    destruct (updateStatusSchema b) as [st | st i | i]; auto.
    destruct (select_request id (requests s)) as [found | ]; cbn; auto.
    right; right. exists u, (with_status st), id.
    repeat split; auto using same_but_approval_with_status.
  - unfold get_requests_recent. apply guarded_ind; auto.
  - unfold post_requests_approve. apply guarded_ind; [auto | ].
    intros u -> Hrole.
    destruct (approveWithSignatureSchema b) as [sig | sig i | i]; auto.
    destruct (select_request id (requests s)) as [found | ]; auto.
    destruct (RequestStatus_eqb (status found) Approved); cbn; auto.
    right; right.
    exists u, (with_approval sig (User.id u) (approval_ts now)), id.
    repeat split; auto using same_but_approval_with_approval.
  - left. unfold post_worklogs. apply authed_ind; [auto | ]. intros u _.
    pose proof (upload_single_requests now_ms m s) as [Hr _].
    destruct (upload_single now_ms m s) as [[res | [f | ]] s1];
      cbn in Hr |- *; auto.
    destruct (negb _); cbn; auto.
    destruct (insert_worklog _ _); cbn; auto.
  - left. unfold put_worklogs_status. apply guarded_ind; [auto | ].
    intros u _ _. destruct b as [o | ]; cbn; auto.
    destruct (Zod.prop o "status") as [ | w | ]; auto.
    destruct (WorklogStatusEnum w); auto.
    destruct (find _ (worklogs s)); cbn; auto.
Qed.

(** X7. What a caller can do to the table of requests depends on the role.
    An hr caller changes nothing in it. An employee changes no existing row:
    at most one row is appended, owned by the caller, with the approval
    columns unset. A manager creates and deletes nothing: the rows stay in
    place and keep all columns but the status and the approval columns. *)
Theorem role_effects rq s u :
  credentials_of rq = Verified u ->
  (User.role u = hr -> requests (snd (serve rq s)) = requests s)
  /\ (User.role u = employee ->
      requests (snd (serve rq s)) = requests s
      \/ exists r, requests (snd (serve rq s)) = requests s ++ [r]
                   /\ requesterId r = Some (User.id u) /\ approval_unset r)
  /\ (User.role u = manager ->
      Forall2 same_but_approval (requests s) (requests (snd (serve rq s)))).
Proof.
  intros Hc.
  destruct (serve_rows_by_role rq s)
    as [Hsame | [(v & id & r & Hv & Hrole & Hrows)
                | (v & f & id & Hv & Hrole & Hf & Hrows)]].
  - rewrite Hsame. repeat split; auto using same_but_approval_refl.
  - rewrite Hc in Hv. injection Hv as <-. rewrite Hrows. repeat split.
    + intros Hr. rewrite Hr in Hrole. discriminate.
    + intros _. right. exists (new_request id r u). repeat split.
    + intros Hr. rewrite Hr in Hrole. discriminate.
  - rewrite Hc in Hv. injection Hv as <-. rewrite Hrows. repeat split.
    + intros Hr. rewrite Hr in Hrole. discriminate.
    + intros Hr. rewrite Hr in Hrole. discriminate.
    + intros _. now apply update_request_same_but_approval.
Qed.

(** ** Status updates and approvals, one after the other *)

Lemma put_requests_status_ok u id b st s found :
  manager_or_admin u -> status_body b st ->
  select_request id (requests s) = Some found ->
  put_requests_status (Verified u) id b s
  = (json 200 (DataRequest (Some (with_status st found))),
     set_requests (update_request (with_status st) id (requests s)) s)
  /\ select_request id (update_request (with_status st) id (requests s))
     = Some (with_status st found).
Proof.
  intros Hu Hb Hsel.
  assert (Hrec : select_request id
                   (update_request (with_status st) id (requests s))
                 = Some (with_status st found))
    by (apply select_update_request; [reflexivity | assumption]).
  split; [ | assumption]. unfold put_requests_status.
  rewrite (manager_or_admin_allowed _ _ _ Hu), (status_schema_ok _ _ Hb).
  rewrite Hsel. cbv zeta. now rewrite Hrec.
Qed.

Lemma update_request_twice f g id rows :
  (forall r, requestId (f r) = requestId r) ->
  update_request g id (update_request f id rows)
  = update_request (fun r => g (f r)) id rows.
Proof.
  intros Hf. unfold update_request. rewrite map_map. apply map_ext.
  intros r. destruct (has_id id r) eqn:E; [ | now rewrite E].
  unfold has_id in *. now rewrite Hf, E.
Qed.

(** X8. Approved is not final on the status route: when a manager or admin
    sets an Approved request to another status, a new approval with a
    signature goes through (it had answered 409 before) and replaces the
    signature, the signer and the time stamp of the first approval. *)
Theorem reapprove_after_reset now u u2 id b_st st b_sig sig s found :
  manager_or_admin u -> manager_or_admin u2 ->
  status_body b_st st -> st <> Approved -> signature_body b_sig sig ->
  select_request id (requests s) = Some found -> status found = Approved ->
  post_requests_approve now (Verified u2) id b_sig s
  = (json 409 (Error "Already approved"), s)
  /\ exists rec s2,
       post_requests_approve now (Verified u2) id b_sig
         (snd (put_requests_status (Verified u) id b_st s))
       = (json 200 (DataRequest (Some rec)), s2)
       /\ select_request id (requests s2) = Some rec
       /\ status rec = Approved
       /\ managerSignature rec = Some sig
       /\ managerSignerId rec = Some (User.id u2)
       /\ managerSignedAt rec = Some (approval_ts now).
Proof.
  intros Hu Hu2 Hst Hne Hsig Hsel Happr. split.
  - now apply (approve_conflict now u2 id b_sig sig s found).
  - destruct (put_requests_status_ok u id b_st st s found Hu Hst Hsel)
      as [Hput Hrec].
    rewrite Hput. cbn [snd].
    destruct (approve_success now u2 id b_sig sig
                (set_requests (update_request (with_status st) id (requests s)) s)
                (with_status st found) Hu2 Hsig Hrec Hne) as [Hrun Hsel2].
    eexists _, _. split; [exact Hrun | ]. split; [exact Hsel2 | ].
    repeat split.
Qed.

(** X9. On the status route the last write wins: two status updates of an
    existing request, one after the other, leave the same state and the same
    answer as the second alone; a repeated update changes nothing more. *)
Theorem status_last_write_wins u id b1 st1 b2 st2 s found :
  manager_or_admin u -> status_body b1 st1 -> status_body b2 st2 ->
  select_request id (requests s) = Some found ->
  put_requests_status (Verified u) id b2
    (snd (put_requests_status (Verified u) id b1 s))
  = put_requests_status (Verified u) id b2 s.
Proof.
  intros Hu Hb1 Hb2 Hsel.
  destruct (put_requests_status_ok u id b1 st1 s found Hu Hb1 Hsel)
    as [Hput1 Hrec1].
  rewrite Hput1. cbn [snd].
  destruct (put_requests_status_ok u id b2 st2 s found Hu Hb2 Hsel)
    as [Hput2 _].
  destruct (put_requests_status_ok u id b2 st2
              (set_requests (update_request (with_status st1) id (requests s)) s)
              (with_status st1 found) Hu Hb2 Hrec1) as [Hput12 _].
  rewrite Hput12, Hput2. cbn [requests set_requests].
  rewrite update_request_twice by reflexivity.
  reflexivity.
Qed.

(** ** Work logs *)

Lemma insert_worklog_fresh w rows :
  (forall x, In x rows -> Worklog.id x <> Worklog.id w) ->
  insert_worklog w rows = Some (rows ++ [w]).
Proof.
  intros Hfresh. unfold insert_worklog.
  destruct (existsb (has_worklog_id (Worklog.id w)) rows) eqn:E; [ | reflexivity].
  apply existsb_exists in E. destruct E as (x & Hin & Hid).
  apply String.eqb_eq in Hid. now destruct (Hfresh x Hin).
Qed.

(** X10. An upload whose body holds one part named [file] with a file
    name, below the size limit, among parts the middleware passes over,
    with a PNG or JPEG data URL as signature and an id no work log has yet,
    answers 201 with the id and the path [worklogs/<name>], where the name
    is the time stamp, an underscore and the cleaned original name. It
    appends one work log with status Pending, the caller as uploader, the
    original name, the signature and that path, and the file is written to
    the folder under that name with the bytes sent; the requests and the
    other work logs are untouched. *)
Theorem upload_stores id createdAt now_ms u m s before name bytes after sig :
  Multer.parts m
  = before ++ Multer.File "file" (Some name) bytes false :: after ->
  forallb passed_over before = true -> forallb passed_over after = true ->
  name <> ""%string ->
  Multer.signatureDataUrl m = Some sig -> signatureRegex sig = true ->
  (forall w, In w (worklogs s) -> Worklog.id w <> id) ->
  let stored := stored_name now_ms name in
  exists row s',
    post_worklogs id createdAt now_ms (Verified u) m s
    = (json 201 (DataUpload id ("worklogs/" ++ stored)%string), s')
    /\ worklogs s' = worklogs s ++ [row]
    /\ Worklog.id row = id
    /\ Worklog.status row = WlPending
    /\ Worklog.uploaderId row = User.id u
    /\ Worklog.fileName row = name
    /\ Worklog.signature row = sig
    /\ Worklog.filePath row = ("worklogs/" ++ stored)%string
    /\ Worklog.createdAt row = createdAt
    /\ worklogDir s' = Multer.write stored bytes (worklogDir s)
    /\ requests s' = requests s.
Proof.
  intros Hparts Hbefore Hafter Hne Hs Hsig Hfresh stored.
  unfold post_worklogs, authed. cbn [authRequired].
  rewrite (upload_single_file now_ms m s before name bytes after)
    by assumption.
  rewrite Hs, Hsig.
  cbn [negb Multer.filename Multer.stored_originalname worklogs
       set_worklogDir].
  rewrite insert_worklog_fresh by (intros w Hin; now apply Hfresh).
  apply String.eqb_neq in Hne. rewrite Hne.
  eexists _, _. split; [reflexivity | ].
  cbn. repeat split.
Qed.

Lemma update_worklog_frame st id rows :
  Forall2 (fun w w' =>
             (Worklog.id w <> id -> w' = w)
             /\ (Worklog.id w = id ->
                 Worklog.status w' = st /\ same_but_worklog_status w w'))
    rows (update_worklog (with_worklog_status st) id rows).
Proof.
  unfold update_worklog.
  induction rows as [ | x rows IH]; cbn; constructor; [ | assumption].
  unfold has_worklog_id.
  destruct (String.eqb_spec (Worklog.id x) id) as [E | E].
  - split; [congruence | ]. intros _. split; [reflexivity | ].
    unfold same_but_worklog_status. cbn. repeat split.
  - split; [reflexivity | congruence].
Qed.

Lemma find_update_worklog st id rows w :
  find (has_worklog_id id) rows = Some w ->
  find (has_worklog_id id) (update_worklog (with_worklog_status st) id rows)
  = Some (with_worklog_status st w).
Proof.
  unfold update_worklog.
  induction rows as [ | x rows IH]; cbn; [discriminate | ].
  destruct (has_worklog_id id x) eqn:E.
  - intros [= ->]. cbn. unfold has_worklog_id in *. cbn. now rewrite E.
  - intros H. cbn. rewrite E. now apply IH.
Qed.

(** X11. The status route of the work logs, for a manager or admin: a body
    whose [status] is not one of Pending, Approved, Rejected (absent, not a
    string, or another string such as Canceled) is answered 400; a valid
    status for an id no work log has is answered 404; both leave the state
    alone. A valid status for an existing id is answered 200 with the work
    log, its status replaced; the other columns, the other work logs, the
    files and the requests stay as they are. *)
Theorem worklog_status_route u id b s :
  manager_or_admin u ->
  ((forall o v, b = Zod.BodyObject o -> Zod.prop o "status" = Zod.JString v ->
      WorklogStatusEnum v = None) ->
   put_worklogs_status (Verified u) id b s
   = (json 400 (Error "Validation error"), s))
  /\ (forall o v st,
        b = Zod.BodyObject o -> Zod.prop o "status" = Zod.JString v ->
        WorklogStatusEnum v = Some st ->
        match find (has_worklog_id id) (worklogs s) with
        | None =>
            put_worklogs_status (Verified u) id b s
            = (json 404 (Error "Not found"), s)
        | Some w =>
            exists s',
              put_worklogs_status (Verified u) id b s
              = (json 200 (DataWorklog (Some (with_worklog_status st w))), s')
              /\ requests s' = requests s /\ worklogDir s' = worklogDir s
              /\ Forall2 (fun w w' =>
                            (Worklog.id w <> id -> w' = w)
                            /\ (Worklog.id w = id ->
                                Worklog.status w' = st
                                /\ same_but_worklog_status w w'))
                   (worklogs s) (worklogs s')
        end).
Proof.
  intros Hu. unfold put_worklogs_status.
  rewrite (manager_or_admin_allowed _ _ _ Hu). split.
  - intros Hbad. destruct b as [o | ]; [ | reflexivity].
    destruct (Zod.prop o "status") as [ | v | ] eqn:Hp; try reflexivity.
    now rewrite (Hbad o v eq_refl Hp).
  - intros o v st -> Hp Hv. rewrite Hp, Hv.
    destruct (find (has_worklog_id id) (worklogs s)) as [w | ] eqn:Hfind;
      [ | reflexivity].
    eexists. cbv zeta. rewrite (find_update_worklog st id _ w Hfind).
    split; [reflexivity | ]. cbn. repeat split.
    apply update_worklog_frame.
Qed.

Lemma serve_worklogs_step rq s :
  worklogs_step (worklogs s) (worklogs (snd (serve rq s))).
Proof.
  destruct rq; cbn [serve].
  - unfold get_requests. apply authed_ind; intros; apply wl_same.
  - unfold get_requests_mine. apply authed_ind; intros; apply wl_same.
  - unfold post_requests. apply guarded_ind; intros; try apply wl_same.
    destruct (createRequestSchema b); try apply wl_same.
    destruct (insert_request _ _); apply wl_same.
  - unfold put_requests_status.
    apply guarded_ind; intros; try apply wl_same.
    destruct (updateStatusSchema b); try apply wl_same.
    destruct (select_request id (requests s)); apply wl_same.
  - unfold get_requests_recent. apply guarded_ind; intros; apply wl_same.
  - unfold post_requests_approve.
    apply guarded_ind; intros; try apply wl_same.
    destruct (approveWithSignatureSchema b); try apply wl_same.
    destruct (select_request id (requests s)) as [found | ];
      try apply wl_same.
    destruct (RequestStatus_eqb (status found) Approved); apply wl_same.
  - unfold post_worklogs. apply authed_ind; [intros; apply wl_same | ].
    intros u _.
    destruct (upload_single_cases now_ms m s)
      as [H | [(name & bytes & Hin & Hne & H) | (dir' & H & Hincl)]];
      rewrite H; try apply wl_same.
    cbn [Multer.filename Multer.stored_originalname].
    destruct (negb _) eqn:Hsig; [apply wl_same | ].
    apply negb_false_iff in Hsig.
    match goal with
    | |- context [insert_worklog ?row ?rows] =>
        destruct (insert_worklog row rows) as [rows' | ] eqn:Hi;
        [ | apply wl_same]
    end.
    unfold insert_worklog in Hi. cbn [Worklog.id worklogs set_worklogDir] in Hi.
    destruct (existsb (has_worklog_id id) (worklogs s)) eqn:Hfresh;
      [discriminate | ].
    injection Hi as <-. cbn [snd worklogs set_worklogs set_worklogDir].
    apply wl_upload; [exact Hfresh | ].
    apply String.eqb_neq in Hne. unfold worklog_ok.
    cbn [Worklog.fileName Worklog.filePath Worklog.signature].
    rewrite Hne. repeat split; [now exists now_ms | exact Hsig | ].
    now apply String.eqb_neq.
  - unfold put_worklogs_status.
    apply guarded_ind; intros; try apply wl_same.
    destruct b as [o | ]; cbn; try apply wl_same.
    destruct (Zod.prop o "status") as [ | w | ]; try apply wl_same.
    destruct (WorklogStatusEnum w); try apply wl_same.
    destruct (find _ (worklogs s)); [ | apply wl_same].
    apply wl_status.
Qed.

Lemma update_worklog_ids st id rows :
  map Worklog.id (update_worklog (with_worklog_status st) id rows)
  = map Worklog.id rows.
Proof.
  unfold update_worklog. rewrite map_map. apply map_ext.
  intros w. now destruct (has_worklog_id id w).
Qed.

Lemma write_keeps name content dir x :
  In x dir -> fst x <> name -> In x (Multer.write name content dir).
Proof.
  intros Hin Hne. unfold Multer.write. apply in_or_app. left.
  apply filter_In. split; [assumption | ].
  apply negb_true_iff. now apply String.eqb_neq.
Qed.

Lemma unlink_keeps name dir x :
  In x dir -> fst x <> name -> In x (Multer.unlink name dir).
Proof.
  intros Hin Hne. apply filter_In. split; [assumption | ].
  apply negb_true_iff. now apply String.eqb_neq.
Qed.

(** The middleware touches the files of its own names only. *)
Lemma handle_keeps filename x ps :
  (forall o, fst x <> filename o) ->
  forall n file dir,
    In x dir ->
    (forall f, file = Some f -> exists o, Multer.filename f = filename o) ->
    match Multer.handle filename ps n file dir with
    | Multer.Refused dir' => In x dir'
    | Multer.Passed _ dir' => In x dir'
    end.
Proof.
  intros Hx.
  assert (Hremove : forall file dir,
            In x dir ->
            (forall f, file = Some f ->
               exists o, Multer.filename f = filename o) ->
            In x (Multer.removeUploaded file dir)).
  { intros [f | ] dir Hin Hfile; cbn [Multer.removeUploaded];
      [ | assumption].
    destruct (Hfile f eq_refl) as (o & ->). now apply unlink_keeps. }
  induction ps as [ | p ps IH]; intros n file dir Hin Hfile;
    cbn [Multer.handle]; [assumption | ].
  destruct p as [nt vt | fieldname [name | ] bytes limit | ].
  - destruct (nt || vt); [now apply Hremove | now apply IH].
  - destruct (String.eqb name ""); [now apply IH | ].
    destruct (String.eqb fieldname "file" && (0 <? n)%nat);
      [ | now apply Hremove].
    destruct limit.
    + apply Hremove; [ | assumption].
      apply unlink_keeps; [ | apply Hx]. apply write_keeps; [assumption | apply Hx].
    + apply IH; [apply write_keeps; [assumption | apply Hx] | ].
      intros f [= <-]. now exists name.
  - now apply IH.
  - now apply Hremove.
Qed.

Lemma upload_single_keeps now_ms m s x :
  In x (worklogDir s) ->
  (forall o, fst x <> stored_name now_ms o) ->
  In x (worklogDir (snd (upload_single now_ms m s))).
Proof.
  intros Hin Hx. unfold upload_single.
  pose proof (handle_keeps
                (fun name => (JsString.of_Z now_ms ++ "_"
                              ++ Multer.safe name)%string)
                x (Multer.parts m) Hx 1%nat None (worklogDir s) Hin) as H.
  destruct (Multer.handle _ _ _ _ _); cbn [snd worklogDir]; apply H;
    discriminate.
Qed.

Lemma serve_folder rq s x :
  In x (worklogDir s) -> untouched rq (fst x) ->
  In x (worklogDir (snd (serve rq s))).
Proof.
  intros Hin Hx. destruct rq; cbn [serve].
  - unfold get_requests. apply authed_ind; intros; assumption.
  - unfold get_requests_mine. apply authed_ind; intros; assumption.
  - unfold post_requests. apply guarded_ind; intros; try assumption.
    destruct (createRequestSchema b); try assumption.
    destruct (insert_request _ _); assumption.
  - unfold put_requests_status.
    apply guarded_ind; intros; try assumption.
    destruct (updateStatusSchema b); try assumption.
    destruct (select_request id (requests s)); assumption.
  - unfold get_requests_recent. apply guarded_ind; intros; assumption.
  - unfold post_requests_approve.
    apply guarded_ind; intros; try assumption.
    destruct (approveWithSignatureSchema b); try assumption.
    destruct (select_request id (requests s)) as [found | ];
      try assumption.
    destruct (RequestStatus_eqb (status found) Approved); assumption.
  - unfold post_worklogs. apply authed_ind; [intros; assumption | ].
    intros u _. cbn [untouched] in Hx.
    pose proof (upload_single_keeps now_ms m s x Hin Hx) as Hkeep.
    destruct (upload_single now_ms m s) as [[res | [f | ]] s1];
      cbn [snd] in Hkeep |- *; try assumption.
    destruct (negb _); [assumption | ].
    destruct (insert_worklog _ _); assumption.
  - unfold put_worklogs_status.
    apply guarded_ind; intros; try assumption.
    destruct b as [o | ]; cbn; try assumption.
    destruct (Zod.prop o "status") as [ | w | ]; try assumption.
    destruct (WorklogStatusEnum w); try assumption.
    destruct (find _ (worklogs s)); assumption.
Qed.

(** X12. In every state the server reaches, the ids of the work logs are
    distinct, and every work log has a PNG or JPEG data URL as signature, a
    file name that is not empty, and the path [worklogs/] followed by the
    stored name of that file name at some time stamp; a status update
    keeps all of this. A request leaves every file of the folder in place,
    with its content, unless it is an upload and the file has a stored name
    of the time stamp of that upload: the file of a work log is kept by
    every request but an upload that draws its name again. *)
Theorem worklogs_filed :
  (forall s, reachable s ->
     NoDup (map Worklog.id (worklogs s)) /\ Forall worklog_ok (worklogs s))
  /\ (forall rq s x,
        In x (worklogDir s) -> untouched rq (fst x) ->
        In x (worklogDir (snd (serve rq s)))).
Proof.
  split; [ | exact serve_folder].
  induction 1 as [rows Hseed | rq s Hreach [IHid IHok]].
  - cbn. split; constructor.
  - destruct (serve_worklogs_step rq s) as [ | row Hfresh Hrow | st id].
    + now split.
    + split.
      * rewrite map_app. cbn.
        apply NoDup_app; [assumption | repeat constructor; intros [] | ].
        intros x Hin [<- | []]. apply in_map_iff in Hin.
        destruct Hin as (w & Hid & Hin).
        assert (existsb (has_worklog_id (Worklog.id row)) (worklogs s) = true)
          by (apply existsb_exists; exists w; split;
              [assumption | now apply String.eqb_eq]).
        congruence.
      * apply Forall_app. split; [assumption | ].
        constructor; [assumption | constructor].
    + split; [now rewrite update_worklog_ids | ].
      unfold update_worklog. apply Forall_map.
      eapply Forall_impl; [ | exact IHok].
      intros w Hok. destruct (has_worklog_id id w); exact Hok.
Qed.

(** ** The name of an uploaded file *)

Lemma decode_ascii a rest :
  (N_of_ascii a < 128)%N ->
  JsString.utf8_decode_aux 0 0 (String a rest)
  = N_of_ascii a :: JsString.utf8_decode_aux 0 0 rest.
Proof.
  intros Ha. cbn [JsString.utf8_decode_aux].
  apply N.ltb_lt in Ha. now rewrite Ha.
Qed.

Lemma land_low_bits k hi x :
  (x < 2 ^ k)%N -> (N.land (hi * 2 ^ k + x) (N.ones k) = x)%N.
Proof.
  intros Hx. rewrite N.land_ones, N.add_comm, N.Div0.mod_add.
  now apply N.mod_small.
Qed.

Lemma three_bytes_value u :
  ((u / 4096 * 64 + (u / 64) mod 64) * 64 + u mod 64 = u)%N.
Proof.
  pose proof (N.div_mod u 64 ltac:(discriminate)) as H1.
  pose proof (N.div_mod (u / 64) 64 ltac:(discriminate)) as H2.
  rewrite N.Div0.div_div in H2. change (64 * 64)%N with 4096%N in H2.
  lia.
Qed.

Lemma kept_cases u :
  Multer.kept u = true -> (u < 128)%N \/ (44032 <= u <= 55203)%N.
Proof.
  unfold Multer.kept, JsString.is_word, JsString.between.
  rewrite !orb_true_iff, !andb_true_iff, !N.leb_le, !N.eqb_eq. lia.
Qed.

Lemma decode_encoded u rest :
  Multer.kept u = true ->
  JsString.utf8_decode_aux 0 0 (JsString.utf8_encode_unit u ++ rest)%string
  = u :: JsString.utf8_decode_aux 0 0 rest.
Proof.
  intros Hk. apply kept_cases in Hk. unfold JsString.utf8_encode_unit.
  destruct Hk as [Hlow | Hhangul].
  - pose proof Hlow as Hlt. apply N.ltb_lt in Hlt. rewrite Hlt.
    cbn [String.append]. rewrite decode_ascii;
      rewrite N_ascii_embedding; (reflexivity || lia).
  - replace (u <? 128)%N with false by (symmetry; apply N.ltb_ge; lia).
    replace (u <? 2048)%N with false by (symmetry; apply N.ltb_ge; lia).
    cbn [String.append JsString.utf8_decode_aux].
    assert (H1 : (u / 4096 < 2 ^ 4)%N)
      by (apply N.Div0.div_lt_upper_bound; cbn; lia).
    assert (H2 : ((u / 64) mod 64 < 2 ^ 6)%N) by (apply N.mod_lt; discriminate).
    assert (H3 : (u mod 64 < 2 ^ 6)%N) by (apply N.mod_lt; discriminate).
    assert (Hlead : (10 <= u / 4096)%N)
      by (apply N.div_le_lower_bound; [discriminate | lia]).
    rewrite !N_ascii_embedding by (cbn in H1, H2, H3; lia).
    replace (224 + u / 4096 <? 128)%N with false
      by (symmetry; apply N.ltb_ge; lia).
    replace (224 + u / 4096 <? 224)%N with false
      by (symmetry; apply N.ltb_ge; lia).
    replace (224 + u / 4096 <? 240)%N with true
      by (symmetry; apply N.ltb_lt; cbn in H1; lia).
    change 15%N with (N.ones 4). change 63%N with (N.ones 6).
    change 224%N with (14 * 2 ^ 4)%N. change 128%N with (2 * 2 ^ 6)%N.
    rewrite !land_low_bits by assumption.
    f_equal. apply three_bytes_value.
Qed.

Lemma concat_cons x xs :
  String.concat "" (x :: xs) = (x ++ String.concat "" xs)%string.
Proof.
  destruct xs as [ | y ys]; cbn [String.concat].
  - induction x as [ | a x IH]; cbn; [reflexivity | now rewrite <- IH].
  - reflexivity.
Qed.

Lemma decode_chunks units :
  JsString.utf8_decode_aux 0 0 (String.concat "" (map safe_chunk units))
  = map cleaned units.
Proof.
  induction units as [ | u units IH]; [reflexivity | ].
  cbn [map]. rewrite concat_cons. unfold safe_chunk at 1, cleaned at 1.
  destruct (Multer.kept u) eqn:Hk.
  - now rewrite decode_encoded, IH.
  - cbn [String.append]. rewrite decode_ascii by (cbn; lia).
    now rewrite IH.
Qed.

Lemma kept_cleaned u : Multer.kept (cleaned u) = true.
Proof. unfold cleaned. destruct (Multer.kept u) eqn:E; [exact E | reflexivity]. Qed.

Lemma kept_BMP u : Multer.kept u = true -> JsString.utf16_units_of u = [u].
Proof.
  intros Hk. apply kept_cases in Hk. unfold JsString.utf16_units_of.
  replace (u <? 65536)%N with true; [reflexivity | ].
  symmetry. apply N.ltb_lt. lia.
Qed.

Lemma units_of_kept units :
  Forall (fun u => Multer.kept u = true) units ->
  flat_map JsString.utf16_units_of units = units.
Proof.
  induction 1 as [ | u units Hk _ IH]; cbn; [reflexivity | ].
  now rewrite (kept_BMP u Hk), IH.
Qed.

Lemma code_units_safe name :
  JsString.code_units (Multer.safe name)
  = map cleaned (JsString.code_units name).
Proof.
  unfold Multer.safe, JsString.code_units at 1, JsString.utf8_decode.
  fold safe_chunk. rewrite decode_chunks. apply units_of_kept.
  apply Forall_map, Forall_forall. intros u _. apply kept_cleaned.
Qed.

Lemma all_plain_uint d : all_plain (NilEmpty.string_of_uint d).
Proof.
  induction d; cbn [NilEmpty.string_of_uint all_plain];
    repeat split; (assumption || reflexivity).
Qed.

Lemma all_plain_of_Z n : all_plain (JsString.of_Z n).
Proof.
  unfold JsString.of_Z, NilZero.string_of_int, NilZero.string_of_uint.
  destruct (Z.to_int n) as [d | d].
  - destruct d; try apply all_plain_uint. repeat split.
  - cbn [all_plain]. split; [split; reflexivity | ].
    destruct d; try apply all_plain_uint. repeat split.
Qed.

Lemma decode_plain_app a b :
  all_plain a ->
  exists units,
    Forall (fun u => Multer.kept u = true) units
    /\ JsString.utf8_decode_aux 0 0 (a ++ b)%string
       = units ++ JsString.utf8_decode_aux 0 0 b.
Proof.
  induction a as [ | c a IH]; intros Ha.
  - exists []. split; [constructor | reflexivity].
  - destruct Ha as [[Hlow Hk] Ha]. destruct (IH Ha) as (units & Hall & Heq).
    exists (N_of_ascii c :: units). split; [now constructor | ].
    cbn [String.append]. rewrite decode_ascii by assumption.
    now rewrite Heq.
Qed.

(** X13. The name under which an upload is stored,
    [`${Date.now()}_${safe}`], consists of code units of the class
    [A-Za-z0-9_.-] and Hangul syllables only, so it holds no slash and no
    backslash. The cleaned original name has as many code units as the
    original, each either kept or replaced by an underscore, and cleaning a
    cleaned name changes nothing. *)
Theorem stored_name_clean now_ms originalname :
  Forall (fun u => Multer.kept u = true)
    (JsString.code_units (stored_name now_ms originalname))
  /\ ~ In 47%N (JsString.code_units (stored_name now_ms originalname))
  /\ ~ In 92%N (JsString.code_units (stored_name now_ms originalname))
  /\ JsString.code_units (Multer.safe originalname)
     = map cleaned (JsString.code_units originalname)
  /\ Multer.safe (Multer.safe originalname) = Multer.safe originalname.
Proof.
  assert (Hall : Forall (fun u => Multer.kept u = true)
                   (JsString.code_units (stored_name now_ms originalname))).
  { unfold stored_name, JsString.code_units at 1, JsString.utf8_decode.
    destruct (decode_plain_app (JsString.of_Z now_ms)
                ("_" ++ Multer.safe originalname)%string
                (all_plain_of_Z now_ms)) as (units & Hunits & ->).
    cbn [String.append]. rewrite decode_ascii by (cbn; lia).
    assert (Htail : Forall (fun u => Multer.kept u = true)
                      (JsString.utf8_decode_aux 0 0 (Multer.safe originalname))).
    { unfold Multer.safe. fold safe_chunk. rewrite decode_chunks.
      apply Forall_map, Forall_forall. intros u _. apply kept_cleaned. }
    rewrite units_of_kept.
    - apply Forall_app. split; [assumption | ]. now constructor.
    - apply Forall_app. split; [assumption | ]. now constructor. }
  split; [exact Hall | ].
  rewrite Forall_forall in Hall.
  split; [intros Hin; now apply Hall in Hin | ].
  split; [intros Hin; now apply Hall in Hin | ].
  split; [apply code_units_safe | ].
  unfold Multer.safe at 1. rewrite code_units_safe, map_map.
  unfold Multer.safe. f_equal. apply map_ext. intros u.
  unfold cleaned. destruct (Multer.kept u) eqn:Hk; [now rewrite Hk | reflexivity].
Qed.

(** ** The cut-off of the recent listing past the end of a month *)

Lemma days_from_civil_day y m d :
  JsDate.days_from_civil y m d = JsDate.days_from_civil y m 1 + d - 1.
Proof.
  unfold JsDate.days_from_civil, JsDate.day_of_era, JsDate.day_of_year.
  cbv zeta. ring.
Qed.

Lemma days_from_civil_closed y m d :
  JsDate.days_from_civil y m d
  = year_start (if m <=? 2 then y - 1 else y)
    + JsDate.day_of_year ((m + 9) mod 12) d - 719468.
Proof.
  unfold JsDate.days_from_civil, JsDate.day_of_era, year_start. cbv zeta.
  generalize (if m <=? 2 then y - 1 else y). intros y'.
  generalize (JsDate.day_of_year ((m + 9) mod 12) d). intros doy.
  Z.div_mod_to_equations. lia.
Qed.

Lemma year_start_succ y :
  year_start y - year_start (y - 1)
  = 365 + (if JsDate.is_leap y then 1 else 0).
Proof.
  unfold year_start, JsDate.is_leap.
  destruct (y mod 4 =? 0) eqn:E4; destruct (y mod 100 =? 0) eqn:E100;
    destruct (y mod 400 =? 0) eqn:E400; cbn [andb orb negb];
    rewrite ?Z.eqb_eq, ?Z.eqb_neq in *; Z.div_mod_to_equations; lia.
Qed.

(** A month ends where the next one starts. *)
Lemma next_month_start y m :
  1 <= m <= 12 ->
  JsDate.days_from_civil (fst (next_month y m)) (snd (next_month y m)) 1
  = JsDate.days_from_civil y m 1 + JsDate.month_length y m.
Proof.
  intros Hm. rewrite !days_from_civil_closed.
  pose proof (year_start_succ y) as Hy.
  unfold next_month, JsDate.month_length.
  assert (Hc : m = 1 \/ m = 2 \/ m = 3 \/ m = 4 \/ m = 5 \/ m = 6 \/ m = 7
               \/ m = 8 \/ m = 9 \/ m = 10 \/ m = 11 \/ m = 12) by lia.
  repeat (destruct Hc as [Hc | Hc]); subst m; cbn -[year_start JsDate.is_leap];
    try (replace (y + 1 - 1) with y by ring);
    try destruct (JsDate.is_leap y); lia.
Qed.

Lemma month_length_bounds y m : 28 <= JsDate.month_length y m <= 31.
Proof.
  unfold JsDate.month_length.
  destruct (m =? 2); [destruct (JsDate.is_leap y); lia | ].
  destruct ((m =? 4) || (m =? 6) || (m =? 9) || (m =? 11)); lia.
Qed.

Lemma next_previous_month year month :
  0 <= month <= 11 ->
  next_month (fst (previous_month year month)) (snd (previous_month year month))
  = (year, month + 1).
Proof.
  intros Hm. unfold previous_month, next_month.
  destruct (Z.eqb_spec month 0) as [-> | Hne]; cbn [fst snd].
  - cbn. f_equal. lia.
  - destruct (Z.eqb_spec month 12); [lia | reflexivity].
Qed.

(** X14. The cut-off of the recent listing when the day of now does not
    exist in the previous month (the 29th to the 31st after a shorter
    month): [setMonth] runs over, and the cut-off is a day of the current
    month, as many days into it as now is past the end of the previous
    month; the listing then reaches back less than a month. *)
Theorem cutoff_runs_over now y m :
  0 <= JsDate.getMonth now <= 11 ->
  previous_month (JsDate.getFullYear now) (JsDate.getMonth now) = (y, m) ->
  JsDate.month_length y m < JsDate.getDate now <= 31 ->
  cutStr now
  = ymd (JsDate.getFullYear now) (JsDate.getMonth now + 1)
      (JsDate.getDate now - JsDate.month_length y m).
Proof.
  intros Hm Hp Hd.
  pose proof (month_length_bounds y m) as Hlen.
  pose proof (next_previous_month (JsDate.getFullYear now) _ Hm) as Hnext.
  rewrite Hp in Hnext.
  cbn [fst snd] in Hnext.
  assert (Hm1 : 1 <= m <= 12).
  { unfold previous_month in Hp.
    destruct (JsDate.getMonth now =? 0) eqn:E; injection Hp as <- <-;
      [lia | ]. apply Z.eqb_neq in E. lia. }
  pose proof (next_month_start y m Hm1) as Hstart. rewrite Hnext in Hstart.
  cbn [fst snd] in Hstart.
  unfold cutStr, JsDate.setMonth.
  rewrite MakeDay_previous_month by assumption. rewrite Hp. cbn [fst snd].
  replace (JsDate.days_from_civil y m (JsDate.getDate now))
    with (JsDate.days_from_civil (JsDate.getFullYear now)
            (JsDate.getMonth now + 1)
            (JsDate.getDate now - JsDate.month_length y m))
    by (rewrite (days_from_civil_day y m), days_from_civil_day; lia).
  rewrite civil_roundtrip.
  - cbn. unfold ymd.
    replace (JsDate.getMonth now + 1 - 1 + 1) with (JsDate.getMonth now + 1)
      by ring.
    reflexivity.
  - lia.
  - pose proof (month_length_bounds (JsDate.getFullYear now)
                  (JsDate.getMonth now + 1)). lia.
Qed.

(** ** Dates as strings *)

Lemma below_checked (P : Z -> Prop) (check : Z -> bool) lo len :
  (forall n, check n = true -> P n) ->
  forallb (fun k => check (Z.of_nat k)) (seq lo len) = true ->
  forall n, Z.of_nat lo <= n < Z.of_nat (lo + len) -> P n.
Proof.
  intros Hcheck Hall n Hn. apply Hcheck.
  rewrite forallb_forall in Hall.
  rewrite <- (Z2Nat.id n) by lia. apply Hall. apply in_seq. lia.
Qed.

Lemma pad2_digits n : 0 <= n <= 99 -> pad2 n = digits2 n.
Proof.
  intros Hn.
  apply (below_checked (fun n => pad2 n = digits2 n)
           (fun n => String.eqb (pad2 n) (digits2 n)) 0 100).
  - intros k. apply String.eqb_eq.
  - vm_compute. reflexivity.
  - lia.
Qed.

Lemma of_Z_digits n : 1000 <= n <= 9999 -> JsString.of_Z n = digits4 n.
Proof.
  intros Hn.
  apply (below_checked (fun n => JsString.of_Z n = digits4 n)
           (fun n => String.eqb (JsString.of_Z n) (digits4 n))
           (Z.to_nat 1000) (Z.to_nat 9000)).
  - intros k. apply String.eqb_eq.
  - vm_compute. reflexivity.
  - lia.
Qed.

(** The ten bytes of a date. *)
Lemma ymd_digits y m d :
  1000 <= y <= 9999 -> 0 <= m <= 99 -> 0 <= d <= 99 ->
  exists y3 y2 y1 y0 m1 m0 d1 d0,
    (0 <= y3 <= 9 /\ 0 <= y2 <= 9 /\ 0 <= y1 <= 9 /\ 0 <= y0 <= 9)
    /\ (0 <= m1 <= 9 /\ 0 <= m0 <= 9 /\ 0 <= d1 <= 9 /\ 0 <= d0 <= 9)
    /\ y = y3 * 1000 + y2 * 100 + y1 * 10 + y0
    /\ m = m1 * 10 + m0 /\ d = d1 * 10 + d0
    /\ ymd y m d
       = String (digit_char y3) (String (digit_char y2)
           (String (digit_char y1) (String (digit_char y0)
              (String "-" (String (digit_char m1) (String (digit_char m0)
                 (String "-" (String (digit_char d1)
                    (String (digit_char d0) ""))))))))).
Proof.
  intros Hy Hm Hd.
  exists (y / 1000), (y / 100 mod 10), (y mod 100 / 10), (y mod 100 mod 10),
    (m / 10), (m mod 10), (d / 10), (d mod 10).
  split; [Z.div_mod_to_equations; lia | ].
  split; [Z.div_mod_to_equations; lia | ].
  split; [Z.div_mod_to_equations; lia | ].
  split; [Z.div_mod_to_equations; lia | ].
  split; [Z.div_mod_to_equations; lia | ].
  unfold ymd. rewrite (of_Z_digits y Hy), (pad2_digits m Hm), (pad2_digits d Hd).
  reflexivity.
Qed.

Lemma N_of_digit_char a : 0 <= a <= 9 -> N_of_ascii (digit_char a) = (48 + Z.to_N a)%N.
Proof. intros Ha. unfold digit_char. apply N_ascii_embedding. lia. Qed.

Lemma compare_digit_char a b :
  0 <= a <= 9 -> 0 <= b <= 9 ->
  Ascii.compare (digit_char a) (digit_char b) = (a ?= b).
Proof.
  intros Ha Hb. unfold Ascii.compare.
  rewrite !N_of_digit_char by assumption.
  destruct (Z.compare_spec a b) as [-> | Hlt | Hgt].
  - apply N.compare_refl.
  - apply N.compare_lt_iff. lia.
  - apply N.compare_gt_iff. lia.
Qed.

Lemma ymd_compare y m d y' m' d' :
  1000 <= y <= 9999 -> 0 <= m <= 99 -> 0 <= d <= 99 ->
  1000 <= y' <= 9999 -> 0 <= m' <= 99 -> 0 <= d' <= 99 ->
  String.compare (ymd y m d) (ymd y' m' d')
  = (date_key y m d ?= date_key y' m' d').
Proof.
  intros Hy Hm Hd Hy' Hm' Hd'.
  destruct (ymd_digits y m d Hy Hm Hd)
    as (a3 & a2 & a1 & a0 & b1 & b0 & c1 & c0 & Ha & Hb & -> & -> & -> & ->).
  destruct (ymd_digits y' m' d' Hy' Hm' Hd')
    as (a3' & a2' & a1' & a0' & b1' & b0' & c1' & c0' & Ha' & Hb'
        & -> & -> & -> & ->).
  unfold date_key. cbn [String.compare].
  change (Ascii.compare "-" "-") with Eq. cbv iota.
  rewrite !compare_digit_char by lia.
  symmetry.
  repeat match goal with
         | |- _ = match (?a ?= ?b) with _ => _ end =>
             destruct (Z.compare_spec a b);
             [subst | apply Z.compare_lt_iff; lia | apply Z.compare_gt_iff; lia]
         end.
  apply Z.compare_refl.
Qed.

Lemma ymd_leb y m d y' m' d' :
  1000 <= y <= 9999 -> 0 <= m <= 99 -> 0 <= d <= 99 ->
  1000 <= y' <= 9999 -> 0 <= m' <= 99 -> 0 <= d' <= 99 ->
  String.leb (ymd y m d) (ymd y' m' d')
  = (date_key y m d <=? date_key y' m' d').
Proof.
  intros. unfold String.leb, Z.leb. now rewrite ymd_compare.
Qed.

Lemma code_units_date a3 a2 a1 a0 b1 b0 c1 c0 :
  (0 <= a3 <= 9 /\ 0 <= a2 <= 9 /\ 0 <= a1 <= 9 /\ 0 <= a0 <= 9) ->
  (0 <= b1 <= 9 /\ 0 <= b0 <= 9 /\ 0 <= c1 <= 9 /\ 0 <= c0 <= 9) ->
  JsString.code_units
    (String (digit_char a3) (String (digit_char a2)
       (String (digit_char a1) (String (digit_char a0)
          (String "-" (String (digit_char b1) (String (digit_char b0)
             (String "-" (String (digit_char c1)
                (String (digit_char c0) ""))))))))))
  = [(48 + Z.to_N a3)%N; (48 + Z.to_N a2)%N; (48 + Z.to_N a1)%N;
     (48 + Z.to_N a0)%N; 45%N; (48 + Z.to_N b1)%N; (48 + Z.to_N b0)%N; 45%N;
     (48 + Z.to_N c1)%N; (48 + Z.to_N c0)%N].
Proof.
  intros Ha Hb. unfold JsString.code_units, JsString.utf8_decode.
  repeat (rewrite decode_ascii;
          [ | first [rewrite N_of_digit_char by lia; lia | reflexivity]]).
  rewrite !N_of_digit_char by lia.
  cbn [flat_map JsString.utf8_decode_aux]. unfold JsString.utf16_units_of.
  repeat match goal with
         | |- context [(?u <? 65536)%N] =>
             replace (u <? 65536)%N with true
               by (symmetry; apply N.ltb_lt; lia)
         end.
  reflexivity.
Qed.

Lemma is_digit_char a : 0 <= a <= 9 -> JsString.is_digit (48 + Z.to_N a) = true.
Proof.
  intros Ha. unfold JsString.is_digit, JsString.between.
  apply andb_true_intro. split; apply N.leb_le; lia.
Qed.

Lemma digit_value a : 0 <= a <= 9 -> JsDate.digit (48 + Z.to_N a) = a.
Proof. intros Ha. unfold JsDate.digit. lia. Qed.

(** A date written by the server has the shape the schema asks for, and
    the engine reads the same date back. *)
Lemma ymd_parse y m d :
  1000 <= y <= 9999 -> 0 <= m <= 99 -> 0 <= d <= 99 ->
  dateRegex (ymd y m d) = true
  /\ JsDate.parse_iso_date (ymd y m d)
     = if (1 <=? m) && (m <=? 12) && (1 <=? d) && (d <=? 31)
       then Some (JsDate.MakeDay y (m - 1) d * JsDate.msPerDay)
       else None.
Proof.
  intros Hy Hm Hd.
  destruct (ymd_digits y m d Hy Hm Hd)
    as (a3 & a2 & a1 & a0 & b1 & b0 & c1 & c0 & Ha & Hb & Ey & Em & Ed & ->).
  unfold dateRegex, JsDate.parse_iso_date.
  rewrite (code_units_date _ _ _ _ _ _ _ _ Ha Hb).
  rewrite !is_digit_char, !digit_value by lia.
  rewrite <- Ey, <- Em, <- Ed. split; reflexivity.
Qed.

(** ** The order of days and the order of dates *)

Lemma year_start_mono y y' : y <= y' -> year_start y <= year_start y'.
Proof.
  intros Hy. unfold year_start.
  destruct (Z.eq_dec y y') as [-> | Hne]; [lia | ].
  Z.div_mod_to_equations. lia.
Qed.

Lemma twelve_months m :
  1 <= m <= 12 ->
  m = 1 \/ m = 2 \/ m = 3 \/ m = 4 \/ m = 5 \/ m = 6 \/ m = 7
  \/ m = 8 \/ m = 9 \/ m = 10 \/ m = 11 \/ m = 12.
Proof. lia. Qed.

(** The days of a year lie between its first of January and the next. *)
Lemma days_in_year y m d :
  1 <= m <= 12 -> 1 <= d <= JsDate.month_length y m ->
  year_start (y - 1) - 719162 <= JsDate.days_from_civil y m d
  < year_start y - 719162.
Proof.
  intros Hm. rewrite days_from_civil_day, days_from_civil_closed.
  pose proof (year_start_succ y) as Hy.
  unfold JsDate.month_length.
  destruct (twelve_months m Hm) as [Hc | Hc];
    repeat (destruct Hc as [Hc | Hc]); subst m;
    cbn -[year_start JsDate.is_leap];
    destruct (JsDate.is_leap y); lia.
Qed.

(** The first days of the months of a year, counted from the start of the
    year before in March. *)
Lemma month_start_order y m m' :
  1 <= m -> m < m' -> m' <= 12 ->
  JsDate.days_from_civil y m 1 + JsDate.month_length y m
  <= JsDate.days_from_civil y m' 1.
Proof.
  intros H1 Hlt H12. rewrite !days_from_civil_closed.
  pose proof (year_start_succ y) as Hy.
  unfold JsDate.month_length.
  destruct (twelve_months m ltac:(lia)) as [Hc | Hc];
    repeat (destruct Hc as [Hc | Hc]); subst m;
    (destruct (twelve_months m' ltac:(lia)) as [Hc | Hc];
     repeat (destruct Hc as [Hc | Hc]); subst m'; try lia;
     cbn -[year_start JsDate.is_leap];
     destruct (JsDate.is_leap y); lia).
Qed.

Lemma date_key_lt y m d y' m' d' :
  1 <= m <= 12 -> 1 <= d <= 31 -> 1 <= m' <= 12 -> 1 <= d' <= 31 ->
  date_key y m d < date_key y' m' d' ->
  y < y' \/ (y = y' /\ m < m') \/ (y = y' /\ m = m' /\ d < d').
Proof. unfold date_key. lia. Qed.

(** Earlier dates of the calendar are earlier days. *)
Lemma days_from_civil_lt y m d y' m' d' :
  1 <= m <= 12 -> 1 <= d <= JsDate.month_length y m ->
  1 <= m' <= 12 -> 1 <= d' <= JsDate.month_length y' m' ->
  date_key y m d < date_key y' m' d' ->
  JsDate.days_from_civil y m d < JsDate.days_from_civil y' m' d'.
Proof.
  intros Hm Hd Hm' Hd' Hlt.
  pose proof (month_length_bounds y m). pose proof (month_length_bounds y' m').
  apply date_key_lt in Hlt; [ | lia ..].
  destruct Hlt as [Hy | [[<- Hmm] | (<- & <- & Hdd)]].
  - pose proof (days_in_year y m d Hm Hd).
    pose proof (days_in_year y' m' d' Hm' Hd').
    pose proof (year_start_mono y (y' - 1)). lia.
  - pose proof (month_start_order y m m').
    rewrite (days_from_civil_day y m d), (days_from_civil_day y m' d'). lia.
  - rewrite (days_from_civil_day y m d), (days_from_civil_day y m d'). lia.
Qed.

Lemma days_from_civil_leb y m d y' m' d' :
  1 <= m <= 12 -> 1 <= d <= JsDate.month_length y m ->
  1 <= m' <= 12 -> 1 <= d' <= JsDate.month_length y' m' ->
  (JsDate.days_from_civil y m d <=? JsDate.days_from_civil y' m' d')
  = (date_key y m d <=? date_key y' m' d').
Proof.
  intros Hm Hd Hm' Hd'.
  pose proof (month_length_bounds y m). pose proof (month_length_bounds y' m').
  destruct (Z.leb_spec (date_key y m d) (date_key y' m' d')) as [Hle | Hgt].
  - apply Z.leb_le.
    destruct (Z.eq_dec (date_key y m d) (date_key y' m' d')) as [He | Hne].
    + assert (y = y' /\ m = m' /\ d = d') as (-> & -> & ->)
        by (unfold date_key in He; lia).
      lia.
    + apply Z.lt_le_incl. apply days_from_civil_lt; try assumption. lia.
  - apply Z.leb_gt. now apply days_from_civil_lt.
Qed.

Lemma MakeDay_month y m d :
  1 <= m <= 12 -> JsDate.MakeDay y (m - 1) d = JsDate.days_from_civil y m d.
Proof.
  intros Hm. unfold JsDate.MakeDay.
  replace ((m - 1) / 12) with 0 by (Z.div_mod_to_equations; lia).
  replace ((m - 1) mod 12 + 1) with m by (Z.div_mod_to_equations; lia).
  rewrite (days_from_civil_day y m d). replace (y + 0) with y by ring. ring.
Qed.

Lemma getTime_calendar y m d :
  calendar_date y m d ->
  getTime (ymd y m d)
  = Some (JsDate.days_from_civil y m d * JsDate.msPerDay).
Proof.
  intros (Hy & Hm & Hd). pose proof (month_length_bounds y m) as Hlen.
  destruct (ymd_parse y m d) as [Hshape Hparse]; [lia .. | ].
  unfold getTime. rewrite Hshape, Hparse.
  replace ((1 <=? m) && (m <=? 12) && (1 <=? d) && (d <=? 31)) with true.
  - now rewrite MakeDay_month.
  - symmetry. repeat (apply andb_true_intro; split); apply Z.leb_le; lia.
Qed.

Lemma not_before_calendar ys ms ds ye me de :
  calendar_date ys ms ds -> calendar_date ye me de ->
  not_before (ymd ye me de) (ymd ys ms ds)
  = (date_key ys ms ds <=? date_key ye me de).
Proof.
  intros Hs He. unfold not_before.
  rewrite (getTime_calendar _ _ _ Hs), (getTime_calendar _ _ _ He).
  destruct Hs as (_ & Hms & Hds), He as (_ & Hme & Hde).
  rewrite <- (days_from_civil_leb ys ms ds ye me de) by assumption.
  unfold JsDate.msPerDay.
  destruct (Z.leb_spec (JsDate.days_from_civil ys ms ds)
              (JsDate.days_from_civil ye me de));
    [apply Z.leb_le | apply Z.leb_gt]; lia.
Qed.

Lemma calendar_date_ranges y m d :
  calendar_date y m d -> 1000 <= y <= 9999 /\ 0 <= m <= 99 /\ 0 <= d <= 99.
Proof.
  intros (Hy & Hm & Hd). pose proof (month_length_bounds y m). lia.
Qed.

(** X15. For days of the calendar in years of four digits, the rule of
    Submit on the two dates, which compares the times the engine reads from
    them, is the comparison of the dates themselves, and also the order of
    the two strings: the end is accepted exactly when it is not an earlier
    date than the start. *)
Theorem date_rule_is_date_order ys ms ds ye me de :
  calendar_date ys ms ds -> calendar_date ye me de ->
  not_before (ymd ye me de) (ymd ys ms ds)
  = (date_key ys ms ds <=? date_key ye me de)
  /\ not_before (ymd ye me de) (ymd ys ms ds)
     = String.leb (ymd ys ms ds) (ymd ye me de).
Proof.
  intros Hs He.
  pose proof (calendar_date_ranges _ _ _ Hs) as (? & ? & ?).
  pose proof (calendar_date_ranges _ _ _ He) as (? & ? & ?).
  rewrite ymd_leb by assumption.
  split; now apply not_before_calendar.
Qed.

(** X16. The recent listing by dates: when the day of the month of now
    exists in the previous month, a stored request whose [dateRequested]
    is a date [YYYY-MM-DD] is listed exactly when that date is not before
    the same day of the previous month. The comparison of strings the
    query makes is then the comparison of the dates. *)
Theorem recent_listing_by_date now c s rows py pm :
  get_requests_recent now c s = (json 200 (DataRequests rows), s) ->
  0 <= JsDate.getMonth now <= 11 ->
  previous_month (JsDate.getFullYear now) (JsDate.getMonth now) = (py, pm) ->
  1000 <= py <= 9999 ->
  1 <= JsDate.getDate now <= JsDate.month_length py pm ->
  forall r y m d,
    dateRequested r = ymd y m d ->
    1000 <= y <= 9999 -> 0 <= m <= 99 -> 0 <= d <= 99 ->
    (In r rows <->
     In r (requests s)
     /\ date_key py pm (JsDate.getDate now) <= date_key y m d).
Proof.
  intros Hres Hm Hp Hpy Hd r y m d Hr Hy Hmm Hdd.
  pose proof (cutStr_same_day now Hm) as Hcut. rewrite Hp in Hcut.
  specialize (Hcut Hd).
  pose proof (month_length_bounds py pm) as Hlen.
  assert (Hpm : 1 <= pm <= 12).
  { unfold previous_month in Hp.
    destruct (JsDate.getMonth now =? 0) eqn:E; injection Hp as <- <-;
      [lia | ]. apply Z.eqb_neq in E. lia. }
  revert Hres. unfold get_requests_recent. apply guarded_ind.
  - intros res Hcode [= ->]. destruct Hcode; discriminate.
  - intros u _ _ [= <-].
    rewrite order_by_In, filter_In, Hcut, Hr, ymd_leb by lia.
    now rewrite Z.leb_le.
Qed.

(** X17. The date [todayStr] writes passes the checks of Submit on dates:
    it has the shape [YYYY-MM-DD], the engine reads it as the day of now,
    and as start and end of a leave it satisfies the rule on the two
    dates. *)
Theorem today_passes_date_checks now :
  1000 <= JsDate.getFullYear now <= 9999 ->
  0 <= JsDate.getMonth now <= 11 ->
  1 <= JsDate.getDate now <= 31 ->
  dateRegex (todayStr now) = true
  /\ getTime (todayStr now)
     = Some (JsDate.MakeDay (JsDate.getFullYear now) (JsDate.getMonth now)
               (JsDate.getDate now) * JsDate.msPerDay)
  /\ not_before (todayStr now) (todayStr now) = true.
Proof.
  intros Hy Hm Hd.
  change (todayStr now)
    with (ymd (JsDate.getFullYear now) (JsDate.getMonth now + 1)
            (JsDate.getDate now)).
  destruct (ymd_parse (JsDate.getFullYear now) (JsDate.getMonth now + 1)
              (JsDate.getDate now)) as [Hshape Hparse]; [lia .. | ].
  assert (Htime : getTime (ymd (JsDate.getFullYear now)
                             (JsDate.getMonth now + 1) (JsDate.getDate now))
                  = Some (JsDate.MakeDay (JsDate.getFullYear now)
                            (JsDate.getMonth now) (JsDate.getDate now)
                          * JsDate.msPerDay)).
  { unfold getTime. rewrite Hshape, Hparse.
    replace ((1 <=? JsDate.getMonth now + 1) && (JsDate.getMonth now + 1 <=? 12)
             && (1 <=? JsDate.getDate now) && (JsDate.getDate now <=? 31))
      with true
      by (symmetry; repeat (apply andb_true_intro; split); apply Z.leb_le; lia).
    now replace (JsDate.getMonth now + 1 - 1) with (JsDate.getMonth now)
      by ring. }
  split; [exact Hshape | split; [exact Htime | ]].
  unfold not_before. rewrite Htime. apply Z.leb_refl.
Qed.

(** ** Accounts *)

Lemma find_snoc {A} (f : A -> bool) l x :
  find f l = None -> f x = true -> find f (l ++ [x]) = Some x.
Proof.
  intros Hl Hx. induction l as [ | y l IH]; cbn in *.
  - now rewrite Hx.
  - destruct (f y); [discriminate | auto].
Qed.

Lemma NoDup_snoc {A} (l : list A) x : NoDup l -> ~ In x l -> NoDup (l ++ [x]).
Proof.
  induction 1 as [ | y l Hy Hl IH]; cbn; intros Hx.
  - constructor; [intros [] | constructor].
  - constructor; [ | apply IH; intros H; apply Hx; now right].
    rewrite in_app_iff. cbn. intros [H | [H | []]]; [contradiction | ].
    apply Hx. now left.
Qed.

Lemma find_reseeded u n r h users a :
  find (same_username u) users = Some a ->
  find (same_username u)
    (map (fun a => if same_username u a then reseeded n r h a else a) users)
  = Some (reseeded n r h a).
Proof.
  induction users as [ | x users IH]; cbn [find map]; [discriminate | ].
  destruct (same_username u x) eqn:E.
  - intros [= ->].
    change (same_username u (reseeded n r h a)) with (same_username u a).
    now rewrite E.
  - rewrite E. exact IH.
Qed.

Lemma map_reseeded {B} (f : Account.t -> B) u n r h users :
  (forall a, f (reseeded n r h a) = f a) ->
  map f (map (fun a => if same_username u a then reseeded n r h a else a)
           users)
  = map f users.
Proof.
  intros Hf. rewrite map_map. apply map_ext. intros a.
  destruct (same_username u a); [apply Hf | reflexivity].
Qed.

(** After [seedUser] there is an account of that name whose hash the
    password matches. *)
Lemma seedUser_account (K : Crypto) id salt u n r p users users' :
  (forall salt p, compareSync K p (hashSync K salt p) = true) ->
  seedUser K id salt u n r p users = Some users' ->
  exists a, find (same_username u) users' = Some a
            /\ compareSync K p (Account.passwordHash a) = true.
Proof.
  intros Hbcrypt. unfold seedUser.
  destruct (find (same_username u) users) as [rec | ] eqn:Hfind.
  - destruct (compareSync K p (Account.passwordHash rec)) eqn:Hcmp;
      cbn [negb]; intros [= <-].
    + eauto.
    + erewrite find_reseeded by eassumption.
      eexists. split; [reflexivity | apply Hbcrypt].
  - destruct (existsb (same_id id) users); [discriminate | ].
    intros [= <-]. eexists. split.
    + apply find_snoc; [assumption | ]. apply String.eqb_refl.
    + apply Hbcrypt.
Qed.

Lemma loginSchema_body u p :
  u <> ""%string -> p <> ""%string ->
  loginSchema (login_body u p) = Zod.OK (u, p).
Proof.
  intros Hu Hp. apply String.eqb_neq in Hu, Hp.
  unfold loginSchema, login_body. cbn [Zod.prop String.eqb Ascii.eqb Bool.eqb].
  unfold Zod.z_string_check, Zod.min1. now rewrite Hu, Hp.
Qed.

Lemma post_login_ok (K : Crypto) b users token user :
  post_login K b users = LoginOk token user ->
  exists found,
    In found users
    /\ token = signToken K {| Claims.sub := Account.id found;
                              Claims.role := Account.role found |}
    /\ user = user_of found.
Proof.
  unfold post_login.
  destruct (loginSchema b) as [[u p] | | ]; try discriminate.
  destruct (find (same_username u) users) as [found | ] eqn:Hfind;
    [ | discriminate].
  destruct (compareSync K p (Account.passwordHash found)); [ | discriminate].
  intros [= <- <-]. apply find_some in Hfind. exists found.
  destruct Hfind. now repeat split.
Qed.

Lemma find_same_id users a :
  NoDup (map Account.id users) -> In a users ->
  find (same_id (Account.id a)) users = Some a.
Proof.
  induction users as [ | x users IH]; cbn [map find In]; [intros _ [] | ].
  intros Hnd Hin. inversion Hnd as [ | ? ? Hx Hrest]; subst.
  unfold same_id at 1. destruct (String.eqb_spec (Account.id x) (Account.id a))
    as [Heq | Hne].
  - destruct Hin as [-> | Hin]; [reflexivity | ].
    exfalso. apply Hx. rewrite Heq. now apply in_map.
  - destruct Hin as [-> | Hin]; [congruence | auto].
Qed.

(** X18. After [seedUser] the account can log in: whether the account was
    inserted, updated or left as it was, a login with the seeded user name
    and password answers 200, with a token for the account's id and role
    and with the account's user. ([seedUser] fails only when the fresh id
    is taken.) *)
Theorem seed_then_login (K : Crypto) id salt u n r p users :
  (forall salt p, compareSync K p (hashSync K salt p) = true) ->
  u <> ""%string -> p <> ""%string ->
  (existsb (same_id id) users = false ->
   seedUser K id salt u n r p users <> None)
  /\ forall users',
       seedUser K id salt u n r p users = Some users' ->
       exists a,
         In a users' /\ Account.username a = u
         /\ post_login K (login_body u p) users'
            = LoginOk (signToken K {| Claims.sub := Account.id a;
                                      Claims.role := Account.role a |})
                (user_of a).
Proof.
  intros Hbcrypt Hu Hp. split.
  - intros Hid. unfold seedUser. rewrite Hid.
    destruct (find (same_username u) users); [ | discriminate].
    destruct (negb _); discriminate.
  - intros users' Hseed.
    destruct (seedUser_account K _ _ _ _ _ _ _ _ Hbcrypt Hseed)
      as (a & Hfind & Hcmp).
    exists a. pose proof (find_some _ _ Hfind) as [Hin Hname].
    split; [exact Hin | split; [now apply String.eqb_eq in Hname | ]].
    unfold post_login. rewrite loginSchema_body by assumption.
    now rewrite Hfind, Hcmp.
Qed.

(** X19. [seedUser] twice is [seedUser] once: a second call with the same
    user name, name, role and password leaves the table as the first call
    left it, whatever id and salt it draws. *)
Theorem seed_idempotent (K : Crypto) id salt id' salt' u n r p users users' :
  (forall salt p, compareSync K p (hashSync K salt p) = true) ->
  seedUser K id salt u n r p users = Some users' ->
  seedUser K id' salt' u n r p users' = Some users'.
Proof.
  intros Hbcrypt Hseed.
  destruct (seedUser_account K _ _ _ _ _ _ _ _ Hbcrypt Hseed)
    as (a & Hfind & Hcmp).
  unfold seedUser. now rewrite Hfind, Hcmp.
Qed.

(** X20. [seedUser] keeps the keys of the table: ids stay unique, user
    names stay unique, and the accounts of other user names are still
    there, unchanged. *)
Theorem seed_keeps_keys (K : Crypto) id salt u n r p users users' :
  NoDup (map Account.id users) ->
  NoDup (map Account.username users) ->
  seedUser K id salt u n r p users = Some users' ->
  NoDup (map Account.id users')
  /\ NoDup (map Account.username users')
  /\ (forall a, In a users -> Account.username a <> u -> In a users').
Proof.
  intros Hid Hname. unfold seedUser.
  destruct (find (same_username u) users) as [rec | ] eqn:Hfind.
  - destruct (negb (compareSync K p (Account.passwordHash rec)));
      intros [= <-]; [ | now repeat split].
    rewrite !map_reseeded by reflexivity.
    split; [assumption | split; [assumption | ]].
    intros a Hin Hne. apply in_map_iff. exists a. split; [ | assumption].
    unfold same_username. apply String.eqb_neq in Hne. now rewrite Hne.
  - destruct (existsb (same_id id) users) eqn:Hex; [discriminate | ].
    intros [= <-]. rewrite !map_app. cbn [map Account.id Account.username].
    split; [ | split].
    + apply NoDup_snoc; [assumption | ]. intros Hin.
      apply in_map_iff in Hin. destruct Hin as (a & Ha & Hin).
      assert (existsb (same_id id) users = true); [ | congruence].
      apply existsb_exists. exists a. split; [assumption | ].
      unfold same_id. rewrite Ha. apply String.eqb_refl.
    + apply NoDup_snoc; [assumption | ]. intros Hin.
      apply in_map_iff in Hin. destruct Hin as (a & Ha & Hin).
      pose proof (find_none _ _ Hfind a Hin) as Hno.
      unfold same_username in Hno. rewrite Ha, String.eqb_refl in Hno.
      discriminate.
    + intros a Hin _. apply in_or_app. now left.
Qed.

(** X21. The token of a login authenticates its user: when the ids of the
    table are unique and the token verifies to what was signed, a request
    that carries the token of a successful login is taken for the user the
    login answered. *)
Theorem login_then_authenticated (K : Crypto) b users token user :
  NoDup (map Account.id users) ->
  (forall c, verify K (signToken K c) = Some c) ->
  post_login K b users = LoginOk token user ->
  read_credentials K (Some token) users = Verified user.
Proof.
  intros Hid Hjwt Hlogin.
  apply post_login_ok in Hlogin. destruct Hlogin as (found & Hin & -> & ->).
  unfold read_credentials. rewrite Hjwt. cbn [Claims.sub].
  now rewrite find_same_id.
Qed.

(** ** The listing of work logs *)

Lemma filter_same_id users id :
  NoDup (map Account.id users) ->
  filter (same_id id) users
  = match find (same_id id) users with Some a => [a] | None => [] end.
Proof.
  induction users as [ | x users IH]; cbn [map filter find]; [reflexivity | ].
  intros Hnd. inversion Hnd as [ | ? ? Hx Hrest]; subst.
  destruct (same_id id x) eqn:E; [ | auto].
  rewrite IH by assumption.
  destruct (find (same_id id) users) as [a | ] eqn:Hfind; [ | reflexivity].
  exfalso. apply find_some in Hfind. destruct Hfind as [Hin Ha].
  apply Hx. unfold same_id in E, Ha.
  apply String.eqb_eq in E, Ha. rewrite E, <- Ha. now apply in_map.
Qed.

Lemma left_join_one users w :
  NoDup (map Account.id users) ->
  exists row, left_join_users users w = [row]
              /\ Listed.worklog row = w /\ shows_uploader users row.
Proof.
  intros Hnd. unfold left_join_users, shows_uploader.
  rewrite filter_same_id by assumption.
  destruct (find (same_id (Worklog.uploaderId w)) users) as [a | ] eqn:Hfind.
  - exists (joined w a). cbn. rewrite Hfind. now repeat split.
  - exists (unjoined w). cbn. rewrite Hfind. now repeat split.
Qed.

Lemma left_join_all users ws :
  NoDup (map Account.id users) ->
  map Listed.worklog (flat_map (left_join_users users) ws) = ws
  /\ Forall (shows_uploader users) (flat_map (left_join_users users) ws).
Proof.
  intros Hnd. induction ws as [ | w ws [IHm IHf]]; cbn [flat_map].
  - split; [reflexivity | constructor].
  - destruct (left_join_one users w Hnd) as (row & -> & Hw & Hshow).
    cbn [app map]. rewrite Hw, IHm. split; [reflexivity | now constructor].
Qed.

Lemma insert_createdAt_perm r rows :
  Permutation (r :: rows) (insert_createdAt_desc r rows).
Proof.
  induction rows as [ | x rows IH]; cbn; [reflexivity | ].
  destruct (String.leb _ _); [reflexivity | ].
  rewrite perm_swap. now constructor.
Qed.

Lemma order_by_createdAt_perm rows :
  Permutation rows (order_by_createdAt_desc rows).
Proof.
  induction rows as [ | x rows IH]; cbn; [constructor | ].
  rewrite <- insert_createdAt_perm. now constructor.
Qed.

Lemma insert_createdAt_sorted r rows :
  Sorted createdAt_desc rows ->
  Sorted createdAt_desc (insert_createdAt_desc r rows).
Proof.
  induction 1 as [ | x rows Hs IH Hhd]; cbn [insert_createdAt_desc].
  - repeat constructor.
  - destruct (String.leb (Worklog.createdAt (Listed.worklog x))
                (Worklog.createdAt (Listed.worklog r))) eqn:E.
    + constructor; [now constructor | constructor; exact E].
    + constructor; [exact IH | ].
      assert (Hxr : createdAt_desc x r).
      { unfold createdAt_desc.
        destruct (String.leb_total (Worklog.createdAt (Listed.worklog x))
                    (Worklog.createdAt (Listed.worklog r))); congruence. }
      destruct rows as [ | y rows]; cbn [insert_createdAt_desc].
      * now constructor.
      * destruct (String.leb (Worklog.createdAt (Listed.worklog y))
                    (Worklog.createdAt (Listed.worklog r)));
          [now constructor | ].
        inversion Hhd; subst. now constructor.
Qed.

Lemma order_by_createdAt_sorted rows :
  Sorted createdAt_desc (order_by_createdAt_desc rows).
Proof.
  induction rows as [ | x rows IH]; cbn; [constructor | ].
  now apply insert_createdAt_sorted.
Qed.

(** X22. The listing of work logs, for a table of users with unique ids: it
    is answered to a manager or an admin only; it has one row for each work
    log, none lost and none doubled by the join, the latest first; and each
    row shows the user name and the name of the account with the uploader's
    id, or NULL for both when there is no such account. *)
Theorem worklogs_listing users c s rows :
  NoDup (map Account.id users) ->
  get_worklogs users c s = inr rows ->
  (exists u, c = Verified u /\ manager_or_admin u)
  /\ Permutation (map Listed.worklog rows) (worklogs s)
  /\ Sorted createdAt_desc rows
  /\ Forall (shows_uploader users) rows.
Proof.
  intros Hnd. unfold get_worklogs.
  destruct c as [ | | | u]; try discriminate. cbn [authRequired].
  unfold ensureRole, manager_or_admin.
  destruct (User.role u) eqn:Hrole; cbn [existsb Role_eqb orb];
    try discriminate; intros [= <-].
  all: destruct (left_join_all users (worklogs s) Hnd) as [Hmap Hshow].
  all: split; [exists u; split; [reflexivity | auto] | ].
  all: split; [ | split; [apply order_by_createdAt_sorted | ] ].
  all: try (rewrite <- Hmap at 2; apply Permutation_map, Permutation_sym,
            order_by_createdAt_perm).
  all: eapply Permutation_Forall; [apply order_by_createdAt_perm | exact Hshow].
Qed.

(** ** The seed script *)

(** X23. The period of a seeded row satisfies the rule of Submit on the two
    dates: the script draws two days of the calendar and stores the
    smaller string as the start and the other as the end, and for such
    dates the end is then not before the start. *)
Theorem seed_period_ordered y1 m1 d1 y2 m2 d2 :
  calendar_date y1 m1 d1 -> calendar_date y2 m2 d2 ->
  let start := ymd y1 m1 d1 in
  let end_ := ymd y2 m2 d2 in
  not_before (snd (seed_period start end_)) (fst (seed_period start end_))
  = true
  /\ (seed_period start end_ = (start, end_)
      \/ seed_period start end_ = (end_, start)).
Proof.
  intros H1 H2. cbv zeta.
  pose proof (calendar_date_ranges _ _ _ H1) as (Hy1 & Hm1 & Hd1).
  pose proof (calendar_date_ranges _ _ _ H2) as (Hy2 & Hm2 & Hd2).
  unfold seed_period, String.ltb.
  rewrite ymd_compare by assumption.
  destruct (Z.compare_spec (date_key y1 m1 d1) (date_key y2 m2 d2));
    cbn [fst snd]; rewrite not_before_calendar by assumption;
    (split; [apply Z.leb_le; lia | auto]).
Qed.

(** ** The form of the employee page *)

Lemma required_In x v msg :
  In x (required v msg) -> x = msg /\ falsy v = true.
Proof.
  unfold required. destruct (falsy v); cbn; [ | intros []].
  intros [<- | []]. now split.
Qed.

Lemma required_length v msg :
  List.length (required v msg) = if falsy v then 1%nat else 0%nat.
Proof. unfold required. now destruct (falsy v). Qed.

Lemma filter_length_cons {A} (f : A -> bool) x l :
  List.length (filter f (x :: l))
  = ((if f x then 1 else 0) + List.length (filter f l))%nat.
Proof. cbn. now destruct (f x). Qed.

Lemma ymd_not_empty y m d :
  1000 <= y <= 9999 -> 0 <= m <= 99 -> 0 <= d <= 99 ->
  String.eqb (ymd y m d) "" = false.
Proof.
  intros Hy Hm Hd.
  destruct (ymd_digits y m d Hy Hm Hd)
    as (? & ? & ? & ? & ? & ? & ? & ? & _ & _ & _ & _ & _ & ->).
  reflexivity.
Qed.

Lemma ends_early_calendar ys ms ds ye me de :
  calendar_date ys ms ds -> calendar_date ye me de ->
  ends_early (ymd ys ms ds) (ymd ye me de)
  = (date_key ye me de <? date_key ys ms ds).
Proof.
  intros Hs He. unfold ends_early.
  rewrite (getTime_calendar _ _ _ Hs), (getTime_calendar _ _ _ He).
  destruct Hs as (_ & Hms & Hds), He as (_ & Hme & Hde).
  pose proof (days_from_civil_leb ys ms ds ye me de Hms Hds Hme Hde) as Hle.
  unfold JsDate.msPerDay.
  destruct (Z.ltb_spec (date_key ye me de) (date_key ys ms ds)) as [Hlt | Hge].
  - apply Z.ltb_lt. apply Z.leb_gt in Hlt. rewrite <- Hle in Hlt.
    apply Z.leb_gt in Hlt. lia.
  - apply Z.ltb_ge. apply Z.leb_le in Hge. rewrite <- Hle in Hge.
    apply Z.leb_le in Hge. lia.
Qed.

(** X24. What [validateForm] reports: at least one message for every
    field it asks for that is missing or empty; the message on the dates
    when both are days of the calendar and the end is the earlier one; and
    no message on the note when there is a note. *)
Theorem client_check_reports f :
  (List.length (missing_fields f) <= List.length (validateForm f))%nat
  /\ (forall ys ms ds ye me de,
        calendar_date ys ms ds -> calendar_date ye me de ->
        LeaveForm.StartDate f = Some (ymd ys ms ds) ->
        LeaveForm.EndDate f = Some (ymd ye me de) ->
        date_key ye me de < date_key ys ms ds ->
        In end_before_start_message (validateForm f))
  /\ (falsy (LeaveForm.Note f) = false -> ~ In note_message (validateForm f)).
Proof.
  split; [ | split].
  - unfold missing_fields, validateForm.
    rewrite !filter_length_cons, !length_app, !required_length.
    cbn [filter List.length].
    repeat match goal with
           | |- context [if falsy ?v then 1%nat else 0%nat] =>
               generalize (if falsy v then 1%nat else 0%nat); intro
           end.
    lia.
  - intros ys ms ds ye me de Hs He Hstart Hend Hlt.
    pose proof (calendar_date_ranges _ _ _ Hs) as (? & ? & ?).
    pose proof (calendar_date_ranges _ _ _ He) as (? & ? & ?).
    unfold validateForm. rewrite Hstart, Hend.
    rewrite !ymd_not_empty, ends_early_calendar by assumption.
    apply Z.ltb_lt in Hlt. rewrite Hlt. cbn [negb andb].
    rewrite !in_app_iff. do 7 right. left. now left.
  - intros Hnote Hin. unfold validateForm in Hin.
    rewrite !in_app_iff in Hin.
    repeat (destruct Hin as [Hin | Hin];
            [try (apply required_In in Hin; destruct Hin; discriminate) | ]).
    + destruct (LeaveForm.StartDate f); [ | destruct Hin].
      destruct (LeaveForm.EndDate f); [ | destruct Hin].
      destruct (_ && _); [ | destruct Hin].
      destruct Hin as [Hin | []]. discriminate.
    + apply required_In in Hin. destruct Hin. congruence.
Qed.

Lemma required_nil v msg : required v msg = [] -> falsy v = false.
Proof. unfold required. now destruct (falsy v). Qed.

(** X25. A form the page accepts and the rule of the server on the two
    dates: the form has a start and an end, and the server's rule holds
    for them exactly when the engine reads a time from both. The page lets
    pass dates the engine cannot read, the server does not. *)
Theorem client_check_and_date_rule f :
  validateForm f = [] ->
  exists start end_,
    LeaveForm.StartDate f = Some start /\ LeaveForm.EndDate f = Some end_
    /\ (not_before end_ start = true
        <-> getTime start <> None /\ getTime end_ <> None).
Proof.
  unfold validateForm. intros Hnil.
  repeat (apply app_eq_nil in Hnil;
          let H := fresh "Hreq" in destruct Hnil as [H Hnil]).
  apply required_nil in Hreq4, Hreq5.
  destruct (LeaveForm.StartDate f) as [start | ]; [ | discriminate].
  destruct (LeaveForm.EndDate f) as [end_ | ]; [ | discriminate].
  cbn [falsy] in Hreq4, Hreq5. rewrite Hreq4, Hreq5 in Hreq6.
  cbn [negb andb] in Hreq6.
  exists start, end_. split; [reflexivity | split; [reflexivity | ]].
  unfold not_before. unfold ends_early in Hreq6.
  destruct (getTime start) as [ts | ], (getTime end_) as [te | ].
  - destruct (Z.ltb_spec te ts); [discriminate | ].
    split; [split; discriminate | intros _; now apply Z.leb_le].
  - split; [discriminate | intros [_ H]; now contradiction H].
  - split; [discriminate | intros [H _]; now contradiction H].
  - split; [discriminate | intros [H _]; now contradiction H].
Qed.

End Server.

(** ** Concrete runs *)

(** A manager approves the pending request r1, then tries again. *)
Lemma approve_not_idempotent_witness :
  let s := Sample.table [Sample.row "r1" "2025-01-09" "2025-01-10" "2025-01-12" Pending] in
  let b := Sample.signature_of "data:image/png;base64,BBBB" in
  manager_or_admin Sample.manager_user
  /\ signature_body b "data:image/png;base64,BBBB"
  /\ select_request "r1" (requests s)
     = Some (Sample.row "r1" "2025-01-09" "2025-01-10" "2025-01-12" Pending)
  /\ exists rec s',
       post_requests_approve (Sample.at_time 2025 0 13)
         (Verified Sample.manager_user) "r1" b s
       = (json 200 (DataRequest (Some rec)), s')
       /\ status rec = Approved
       /\ managerSignerId rec = Some "u-manager"
       /\ post_requests_approve (Sample.at_time 2025 0 14)
            (Verified Sample.manager_user) "r1" b s'
          = (json 409 (Error "Already approved"), s').
Proof.
  intros s b.
  assert (Hu : manager_or_admin Sample.manager_user) by (left; reflexivity).
  assert (Hb : signature_body b "data:image/png;base64,BBBB")
    by (eexists; repeat split; reflexivity).
  assert (Hs : select_request "r1" (requests s)
               = Some (Sample.row "r1" "2025-01-09" "2025-01-10" "2025-01-12"
                         Pending)) by reflexivity.
  repeat (split; [assumption | ]).
  destruct (approve_not_idempotent (Sample.at_time 2025 0 13) _ _ _ _ _ _
              Hu Hb Hs) as [_ H].
  destruct (H eq_refl) as (rec & s' & Hrun & _ & Hst & _ & Hid & _ & _ & Hagain).
  exists rec, s'. repeat split; try assumption.
  now apply (Hagain _ _ _ _ Hu Hb).
Defined.


(** The request of the form page, submitted by the employee. *)
Lemma submit_stores_request_witness :
  let b := Sample.leave "2025-01-09" "2025-01-10" "2025-01-12" (Some "개발팀") None in
  let rec := Sample.row "r1" "2025-01-09" "2025-01-10" "2025-01-12" Pending in
  post_requests Sample.iso_only "r1" (Verified Sample.employee_user) b initial
  = (json 201 (DataRequest (Some rec)), Sample.table [rec])
  /\ code (json 201 (DataRequest (Some rec))) = 201
  /\ exists u o rec',
       Verified Sample.employee_user = Verified u
       /\ b = Zod.BodyObject o
       /\ requests (Sample.table [rec]) = requests initial ++ [rec']
       /\ requesterId rec' = Some (User.id u)
       /\ requested_status o = Some (status rec').
Proof.
  intros b rec.
  assert (Hrun : post_requests Sample.iso_only "r1"
                   (Verified Sample.employee_user) b initial
                 = (json 201 (DataRequest (Some rec)), Sample.table [rec]))
    by reflexivity.
  split; [assumption | ]. split; [reflexivity | ].
  destruct (submit_stores_request Sample.iso_only _ _ _ _ _ _ Hrun eq_refl)
    as (u & o & rec' & Hc & _ & Hb & _ & Hrows & _ & _ & Hreq & _ & Hst).
  exists u, o, rec'. repeat split; assumption.
Defined.

(** The employee tries to approve the own request through the status route. *)
Lemma employee_hr_forbidden_witness :
  (User.role Sample.employee_user = employee
   \/ User.role Sample.employee_user = hr)
  /\ put_requests_status (Verified Sample.employee_user) "r1"
       (Sample.status_of "Approved")
       (Sample.table [Sample.row "r1" "2025-01-09" "2025-01-10" "2025-01-12"
                        Pending])
     = (json 403 (Error "Forbidden"),
        Sample.table [Sample.row "r1" "2025-01-09" "2025-01-10" "2025-01-12"
                        Pending]).
Proof.
  assert (H : User.role Sample.employee_user = employee
              \/ User.role Sample.employee_user = hr) by (left; reflexivity).
  split; [assumption | ].
  apply (employee_hr_forbidden Sample.employee_user H
           (Sample.at_time 2025 0 13)).
Defined.

(** A complete request whose end is two days before its start. *)
Lemma end_before_start_rejected_witness :
  let o := match Sample.leave "2025-01-09" "2025-01-12" "2025-01-10"
                   (Some "개발팀") None with
           | Zod.BodyObject o => o
           | Zod.BodyOther => []
           end in
  (User.role Sample.employee_user = employee
   \/ User.role Sample.employee_user = admin)
  /\ Zod.prop o "endDate" = Zod.JString "2025-01-10"
  /\ Zod.prop o "startDate" = Zod.JString "2025-01-12"
  /\ getTime Sample.iso_only "2025-01-10" = Some 1736467200000
  /\ getTime Sample.iso_only "2025-01-12" = Some 1736640000000
  /\ 1736467200000 < 1736640000000
  /\ well_typed o = true
  /\ exists form field,
       post_requests Sample.iso_only "r1" (Verified Sample.employee_user)
         (Zod.BodyObject o) initial
       = (json 400 (ValidationError form field), initial)
       /\ Zod.mentions "endDate" field = true.
Proof.
  intros o.
  assert (Hu : User.role Sample.employee_user = employee
               \/ User.role Sample.employee_user = admin)
    by (left; reflexivity).
  assert (Hlt : 1736467200000 < 1736640000000) by reflexivity.
  repeat (split; [assumption || reflexivity | ]).
  destruct (end_before_start_rejected Sample.iso_only "r1"
              Sample.employee_user o "2025-01-10" "2025-01-12"
              1736467200000 1736640000000 initial
              Hu eq_refl eq_refl eq_refl eq_refl Hlt)
    as (form & field & Hrun & Hm).
  exists form, field. split; [assumption | ]. now apply Hm.
Defined.

(** A manager addresses r2 while the table holds r1 only. *)
Lemma missing_id_not_found_witness :
  let s := Sample.table [Sample.row "r1" "2025-01-09" "2025-01-10" "2025-01-12"
                           Pending] in
  (forall r, In r (requests s) -> requestId r <> "r2")
  /\ manager_or_admin Sample.manager_user
  /\ status_body (Sample.status_of "Rejected") Rejected
  /\ signature_body (Sample.signature_of "data:image/png;base64,BBBB")
       "data:image/png;base64,BBBB"
  /\ put_requests_status (Verified Sample.manager_user) "r2"
       (Sample.status_of "Rejected") s
     = (json 404 (Error "Not found"), s)
  /\ post_requests_approve (Sample.at_time 2025 0 13)
       (Verified Sample.manager_user) "r2"
       (Sample.signature_of "data:image/png;base64,BBBB") s
     = (json 404 (Error "Not found"), s).
Proof.
  intros s.
  assert (Habs : forall r, In r (requests s) -> requestId r <> "r2")
    by (intros r [<- | []]; discriminate).
  assert (Hu : manager_or_admin Sample.manager_user) by (left; reflexivity).
  assert (Hst : status_body (Sample.status_of "Rejected") Rejected)
    by (eexists _, _; repeat split; reflexivity).
  assert (Hsig : signature_body
                   (Sample.signature_of "data:image/png;base64,BBBB")
                   "data:image/png;base64,BBBB")
    by (eexists; repeat split; reflexivity).
  repeat (split; [assumption | ]).
  destruct (missing_id_not_found "r2" s Habs) as (Hput & Hpost & _).
  split; [now apply (Hput _ _ Rejected) | ].
  now apply (Hpost _ _ _ "data:image/png;base64,BBBB").
Defined.

(** A manager rejects r1; r2 stays as it is. *)
Lemma update_status_frame_witness :
  let found := Sample.row "r1" "2025-01-09" "2025-01-10" "2025-01-12" Pending in
  let other := Sample.row "r2" "2025-02-03" "2025-02-10" "2025-02-10" Approved in
  let s := Sample.table [found; other] in
  manager_or_admin Sample.manager_user
  /\ status_body (Sample.status_of "Rejected") Rejected
  /\ select_request "r1" (requests s) = Some found
  /\ exists rec s',
       put_requests_status (Verified Sample.manager_user) "r1"
         (Sample.status_of "Rejected") s
       = (json 200 (DataRequest (Some rec)), s')
       /\ status rec = Rejected /\ same_but_status found rec
       /\ Forall2 (fun r r' =>
                     (requestId r <> "r1" -> r' = r)
                     /\ (requestId r = "r1" ->
                         status r' = Rejected /\ same_but_status r r'))
            (requests s) (requests s').
Proof.
  intros found other s.
  assert (Hu : manager_or_admin Sample.manager_user) by (left; reflexivity).
  assert (Hst : status_body (Sample.status_of "Rejected") Rejected)
    by (eexists _, _; repeat split; reflexivity).
  assert (Hsel : select_request "r1" (requests s) = Some found) by reflexivity.
  repeat (split; [assumption | ]).
  destruct (update_status_frame Sample.manager_user "r1" _ Rejected s found
              Hu Hst Hsel) as (rec & s' & Hrun & H1 & H2 & H3 & _).
  exists rec, s'. exact (conj Hrun (conj H1 (conj H2 H3))).
Defined.

(** An upload of a file without a signature; and the same upload with a
    second file, under another field name. *)
Lemma upload_signature_required_witness :
  let m := Sample.upload None in
  let refused :=
    {| Multer.parts :=
         [Multer.File "file" (Some "report 1.pdf") "%PDF-1.4" false;
          Multer.File "photo" (Some "desk.png") "PNG" false];
       Multer.signatureDataUrl := None |} in
  signatureRegex (match Multer.signatureDataUrl m with
                  | Some v => v
                  | None => ""
                  end) = false
  /\ post_worklogs "w1" "2025-01-13T00:05:00.000Z" 1736726700000
       (Verified Sample.employee_user) m initial
     = (json 400 (Error "서명 데이터가 필요합니다"),
        set_worklogDir [("1736726700000_report_1.pdf", "%PDF-1.4")] initial)
  /\ post_worklogs "w1" "2025-01-13T00:05:00.000Z" 1736726700000
       (Verified Sample.employee_user) refused initial
     = (json 500 Uncaught, initial).
Proof.
  intros m refused.
  assert (Hsig : signatureRegex (match Multer.signatureDataUrl m with
                                 | Some v => v
                                 | None => ""
                                 end) = false) by reflexivity.
  split; [assumption | ]. split.
  - exact (proj1 (proj2 (proj2
             (upload_signature_required "w1" "2025-01-13T00:05:00.000Z"
                1736726700000 Sample.employee_user m initial Hsig)))
             [] "report 1.pdf" "%PDF-1.4" [] eq_refl eq_refl eq_refl
             ltac:(discriminate)).
  - exact (proj2 (proj2 (proj2 (proj2
             (upload_signature_required "w1" "2025-01-13T00:05:00.000Z"
                1736726700000 Sample.employee_user refused initial Hsig))))
             [] "report 1.pdf" "%PDF-1.4" []
             (Multer.File "photo" (Some "desk.png") "PNG" false) []
             eq_refl eq_refl eq_refl ltac:(discriminate) eq_refl).
Defined.

(** The listing of 2025-06-15 over three requests: the cut-off is 2025-05-15. *)
Lemma recent_requests_witness :
  let now := Sample.at_time 2025 5 15 in
  let s := Sample.table
             [Sample.row "r1" "2025-05-20" "2025-05-26" "2025-05-27" Pending;
              Sample.row "r2" "2025-04-01" "2025-04-07" "2025-04-07" Approved;
              Sample.row "r3" "2025-06-01" "2025-06-09" "2025-06-10" Pending] in
  User.role Sample.employee_user = employee
  /\ (User.role Sample.hr_user = manager \/ User.role Sample.hr_user = hr
      \/ User.role Sample.hr_user = admin)
  /\ previous_month (JsDate.getFullYear now) (JsDate.getMonth now) = (2025, 5)
  /\ 0 <= JsDate.getMonth now <= 11
  /\ 1 <= JsDate.getDate now <= JsDate.month_length 2025 5
  /\ get_requests_recent now (Verified Sample.employee_user) s
     = (json 403 (Error "Forbidden"), s)
  /\ cutStr now = "2025-05-15"
  /\ exists rows,
       get_requests_recent now (Verified Sample.hr_user) s
       = (json 200 (DataRequests rows), s)
       /\ map requestId rows = ["r3"; "r1"]
       /\ Sorted desc rows.
Proof.
  intros now s.
  assert (He : User.role Sample.employee_user = employee) by reflexivity.
  assert (Hh : User.role Sample.hr_user = manager
               \/ User.role Sample.hr_user = hr
               \/ User.role Sample.hr_user = admin)
    by (right; left; reflexivity).
  assert (Hp : previous_month (JsDate.getFullYear now) (JsDate.getMonth now)
               = (2025, 5)) by reflexivity.
  assert (Hm : 0 <= JsDate.getMonth now <= 11) by (cbn; lia).
  assert (Hd : 1 <= JsDate.getDate now <= JsDate.month_length 2025 5)
    by (change (JsDate.month_length 2025 5) with 31; cbn; lia).
  repeat (split; [assumption | ]).
  destruct (recent_requests now s) as (Hforbidden & Hlist & Hcut).
  split; [now apply Hforbidden | ].
  split; [exact (Hcut 2025 5 Hp Hm Hd) | ].
  destruct (Hlist Sample.hr_user Hh) as (rows & Hrun & _ & _ & Hsorted).
  exists rows. split; [assumption | ]. split; [ | assumption].
  vm_compute in Hrun. injection Hrun as <-. reflexivity.
Defined.

(** ** Where the code parts from the description *)


(** Against C3 as stated: a body that carries [status: "Approved"] is
    accepted and stored with status Approved. *)
Lemma submit_status_counterexample :
  post_requests Sample.iso_only "r1" (Verified Sample.employee_user)
    (Sample.leave "2025-01-09" "2025-01-10" "2025-01-12" (Some "개발팀")
       (Some "Approved"))
    initial
  = (json 201
       (DataRequest
          (Some (Sample.row "r1" "2025-01-09" "2025-01-10" "2025-01-12"
                   Approved))),
     Sample.table [Sample.row "r1" "2025-01-09" "2025-01-10" "2025-01-12"
                     Approved])
  /\ status (Sample.row "r1" "2025-01-09" "2025-01-10" "2025-01-12" Approved)
     <> Pending.
Proof. split; [reflexivity | discriminate]. Qed.

(** Against C6 as stated: with the end before the start and no [dept],
    the answer is 400 but its field detail names [dept] only. *)
Lemma end_before_start_counterexample :
  getTime Sample.iso_only "2025-01-10" = Some 1736467200000
  /\ getTime Sample.iso_only "2025-01-12" = Some 1736640000000
  /\ post_requests Sample.iso_only "r1" (Verified Sample.employee_user)
       (Sample.leave "2025-01-09" "2025-01-12" "2025-01-10" None None)
       initial
     = (json 400
          (ValidationError []
             [{| Zod.path := ["dept"]; Zod.message := None |}]),
        initial)
  /\ Zod.mentions "endDate"
       [{| Zod.path := ["dept"]; Zod.message := None |}] = false.
Proof. repeat split; reflexivity. Qed.

(** Against C8 as stated: an upload with a file and no signature answers
    400 and adds no row, but the file is in the work-log folder. *)
Lemma upload_orphan_counterexample :
  post_worklogs "w1" "2025-01-13T00:05:00.000Z" 1736726700000
    (Verified Sample.employee_user) (Sample.upload None) initial
  = (json 400 (Error "서명 데이터가 필요합니다"),
     {| requests := []; worklogs := [];
        worklogDir := [("1736726700000_report_1.pdf", "%PDF-1.4")] |}).
Proof. reflexivity. Qed.

(** Against C9 as stated. On 2025-06-15 the listing returns a request
    dated 2099-01-01, which is not within the last month; and on 2025-03-31
    the cut-off is 2025-03-03, so that a request dated 2025-03-01 is left
    out. *)
Lemma recent_window_counterexample :
  let future := Sample.row "r1" "2099-01-01" "2099-01-04" "2099-01-05" Pending in
  let march := Sample.row "r2" "2025-03-01" "2025-03-10" "2025-03-11" Pending in
  run Sample.iso_only
    [PostRequests "r1" (Verified Sample.employee_user)
       (Sample.leave "2099-01-01" "2099-01-04" "2099-01-05" (Some "개발팀") None)]
    initial
  = Sample.table [future]
  /\ get_requests_recent (Sample.at_time 2025 5 15)
       (Verified Sample.manager_user) (Sample.table [future])
     = (json 200 (DataRequests [future]), Sample.table [future])
  /\ cutStr (Sample.at_time 2025 2 31) = "2025-03-03"
  /\ get_requests_recent (Sample.at_time 2025 2 31)
       (Verified Sample.manager_user) (Sample.table [march])
     = (json 200 (DataRequests []), Sample.table [march]).
Proof. repeat split; reflexivity. Qed.


(** ** Concrete runs of the further properties *)

(** The employee submits the request of the form page. *)
Lemma stored_requests_valid_witness :
  let s := run Sample.iso_only
             [PostRequests "r1" (Verified Sample.employee_user)
                (Sample.leave "2025-01-09" "2025-01-10" "2025-01-12"
                   (Some "개발팀") None)]
             initial in
  reachable Sample.iso_only s
  /\ Forall (created_valid Sample.iso_only) (requests s)
  /\ map requesterId (requests s) = [Some "u-employee"].
Proof.
  intros s.
  assert (Hr : reachable Sample.iso_only s)
    by apply reachable_run, reachable_initial.
  split; [assumption | ]. split; [ | reflexivity].
  now apply (stored_requests_valid Sample.iso_only).
Defined.

(** The submitted request is in the list of the employee. *)
Lemma submit_then_listed_witness :
  let b := Sample.leave "2025-01-09" "2025-01-10" "2025-01-12" (Some "개발팀") None in
  let rec := Sample.row "r1" "2025-01-09" "2025-01-10" "2025-01-12" Pending in
  post_requests Sample.iso_only "r1" (Verified Sample.employee_user) b initial
  = (json 201 (DataRequest (Some rec)), Sample.table [rec])
  /\ code (json 201 (DataRequest (Some rec))) = 201
  /\ exists mine,
       get_requests_mine (Verified Sample.employee_user) (Sample.table [rec])
       = (json 200 (DataRequests mine), Sample.table [rec])
       /\ In rec mine.
Proof.
  intros b rec.
  assert (Hrun : post_requests Sample.iso_only "r1"
                   (Verified Sample.employee_user) b initial
                 = (json 201 (DataRequest (Some rec)), Sample.table [rec]))
    by reflexivity.
  split; [assumption | ]. split; [reflexivity | ].
  destruct (submit_then_listed Sample.iso_only _ _ _ _ _ _ Hrun eq_refl)
    as (rec' & mine & Hbody & Hmine & Hin & _).
  exists mine. split; [assumption | ].
  cbn in Hbody. injection Hbody as <-. assumption.
Defined.

(** The signature of the submitted request, read by the manager. *)
Lemma signature_round_trip_witness :
  let b := Sample.leave "2025-01-09" "2025-01-10" "2025-01-12" (Some "개발팀") None in
  let rec := Sample.row "r1" "2025-01-09" "2025-01-10" "2025-01-12" Pending in
  post_requests Sample.iso_only "r1" (Verified Sample.employee_user) b initial
  = (json 201 (DataRequest (Some rec)), Sample.table [rec])
  /\ get_requests_signature (Verified Sample.manager_user) "r1"
       (Sample.table [rec])
     = inr (SignatureUrl "data:image/png;base64,AAAA").
Proof.
  intros b rec.
  assert (Hrun : post_requests Sample.iso_only "r1"
                   (Verified Sample.employee_user) b initial
                 = (json 201 (DataRequest (Some rec)), Sample.table [rec]))
    by reflexivity.
  split; [assumption | ].
  destruct (proj1 (signature_round_trip Sample.iso_only initial)
              _ _ _ _ _ Hrun eq_refl) as (o & sig & Hb & Hprop & Hget).
  injection Hb as <-. cbn in Hprop. injection Hprop as <-. apply Hget.
Defined.

(** A listing asked for with a token that does not verify. *)
Lemma unauthenticated_refused_witness :
  (forall u, BadToken <> Verified u)
  /\ code (fst (serve Sample.iso_only (GetRequests BadToken) initial)) = 401
  /\ snd (serve Sample.iso_only (GetRequests BadToken) initial) = initial.
Proof.
  assert (H : forall u, BadToken <> Verified u) by (intros u; discriminate).
  split; [assumption | ].
  exact (proj1 (unauthenticated_refused Sample.iso_only BadToken initial H)
           (GetRequests BadToken) eq_refl).
Defined.

(** An hr caller tries to approve r1 through the status route. *)
Lemma role_effects_witness :
  let s := Sample.table [Sample.row "r1" "2025-01-09" "2025-01-10" "2025-01-12"
                           Pending] in
  let rq := PutRequestsStatus (Verified Sample.hr_user) "r1"
              (Sample.status_of "Approved") in
  credentials_of rq = Verified Sample.hr_user
  /\ User.role Sample.hr_user = hr
  /\ requests (snd (serve Sample.iso_only rq s)) = requests s.
Proof.
  intros s rq. split; [reflexivity | ]. split; [reflexivity | ].
  exact (proj1 (role_effects Sample.iso_only rq s Sample.hr_user eq_refl)
           eq_refl).
Defined.

(** The approved request r1 is set back to Pending and approved again. *)
Lemma reapprove_after_reset_witness :
  let found := Sample.row "r1" "2025-01-09" "2025-01-10" "2025-01-12" Approved in
  let s := Sample.table [found] in
  let b_st := Sample.status_of "Pending" in
  let b_sig := Sample.signature_of "data:image/png;base64,BBBB" in
  manager_or_admin Sample.manager_user
  /\ status_body b_st Pending
  /\ Pending <> Approved
  /\ signature_body b_sig "data:image/png;base64,BBBB"
  /\ select_request "r1" (requests s) = Some found
  /\ status found = Approved
  /\ post_requests_approve (Sample.at_time 2025 0 14)
       (Verified Sample.manager_user) "r1" b_sig s
     = (json 409 (Error "Already approved"), s)
  /\ exists rec s2,
       post_requests_approve (Sample.at_time 2025 0 14)
         (Verified Sample.manager_user) "r1" b_sig
         (snd (put_requests_status (Verified Sample.manager_user) "r1" b_st s))
       = (json 200 (DataRequest (Some rec)), s2)
       /\ managerSignature rec = Some "data:image/png;base64,BBBB".
Proof.
  intros found s b_st b_sig.
  assert (Hu : manager_or_admin Sample.manager_user) by (left; reflexivity).
  assert (Hst : status_body b_st Pending)
    by (eexists _, _; repeat split; reflexivity).
  assert (Hne : Pending <> Approved) by discriminate.
  assert (Hsig : signature_body b_sig "data:image/png;base64,BBBB")
    by (eexists; repeat split; reflexivity).
  assert (Hsel : select_request "r1" (requests s) = Some found) by reflexivity.
  assert (Hap : status found = Approved) by reflexivity.
  repeat (split; [assumption | ]).
  destruct (reapprove_after_reset (Sample.at_time 2025 0 14) _ _ _ _ _ _ _ _ _
              Hu Hu Hst Hne Hsig Hsel Hap)
    as (Hconflict & rec & s2 & Hrun & _ & _ & Hsigned & _).
  split; [assumption | ]. exists rec, s2. split; assumption.
Defined.

(** The manager rejects r1 and approves it right after. *)
Lemma status_last_write_wins_witness :
  let found := Sample.row "r1" "2025-01-09" "2025-01-10" "2025-01-12" Pending in
  let s := Sample.table [found] in
  manager_or_admin Sample.manager_user
  /\ status_body (Sample.status_of "Rejected") Rejected
  /\ status_body (Sample.status_of "Approved") Approved
  /\ select_request "r1" (requests s) = Some found
  /\ put_requests_status (Verified Sample.manager_user) "r1"
       (Sample.status_of "Approved")
       (snd (put_requests_status (Verified Sample.manager_user) "r1"
               (Sample.status_of "Rejected") s))
     = put_requests_status (Verified Sample.manager_user) "r1"
         (Sample.status_of "Approved") s.
Proof.
  intros found s.
  assert (Hu : manager_or_admin Sample.manager_user) by (left; reflexivity).
  assert (H1 : status_body (Sample.status_of "Rejected") Rejected)
    by (eexists _, _; repeat split; reflexivity).
  assert (H2 : status_body (Sample.status_of "Approved") Approved)
    by (eexists _, _; repeat split; reflexivity).
  assert (Hsel : select_request "r1" (requests s) = Some found) by reflexivity.
  repeat (split; [assumption | ]).
  exact (status_last_write_wins _ _ _ _ _ _ _ _ Hu H1 H2 Hsel).
Defined.

(** The employee uploads a report with a signature. *)
Lemma upload_stores_witness :
  let m := Sample.upload (Some "data:image/png;base64,AAAA") in
  Multer.parts m
  = [] ++ Multer.File "file" (Some "report 1.pdf") "%PDF-1.4" false
          :: [Multer.Field false false]
  /\ forallb passed_over [Multer.Field false false] = true
  /\ "report 1.pdf"%string <> ""%string
  /\ Multer.signatureDataUrl m = Some "data:image/png;base64,AAAA"
  /\ signatureRegex "data:image/png;base64,AAAA" = true
  /\ (forall w, In w (worklogs initial) -> Worklog.id w <> "w1")
  /\ exists row s',
       post_worklogs "w1" "2025-01-13T00:05:00.000Z" 1736726700000
         (Verified Sample.employee_user) m initial
       = (json 201 (DataUpload "w1" "worklogs/1736726700000_report_1.pdf"), s')
       /\ worklogs s' = [row]
       /\ Worklog.status row = WlPending
       /\ worklogDir s' = [("1736726700000_report_1.pdf", "%PDF-1.4")].
Proof.
  intros m.
  assert (Hparts : Multer.parts m
                   = [] ++ Multer.File "file" (Some "report 1.pdf") "%PDF-1.4"
                             false :: [Multer.Field false false])
    by reflexivity.
  assert (Hafter : forallb passed_over [Multer.Field false false] = true)
    by reflexivity.
  assert (Hne : "report 1.pdf"%string <> ""%string) by discriminate.
  assert (Hs : Multer.signatureDataUrl m = Some "data:image/png;base64,AAAA")
    by reflexivity.
  assert (Hre : signatureRegex "data:image/png;base64,AAAA" = true)
    by reflexivity.
  assert (Hnew : forall w, In w (worklogs initial) -> Worklog.id w <> "w1")
    by (intros w []).
  repeat (split; [assumption | ]).
  destruct (upload_stores "w1" "2025-01-13T00:05:00.000Z" 1736726700000
              Sample.employee_user m initial [] "report 1.pdf" "%PDF-1.4"
              [Multer.Field false false] _ Hparts eq_refl Hafter Hne Hs Hre
              Hnew)
    as (row & s' & Hrun & Hw & _ & Hst & _ & _ & _ & _ & _ & Hdir & _).
  exists row, s'. split; [exact Hrun | ]. split; [assumption | ].
  split; [assumption | exact Hdir].
Defined.

(** The manager sets a work log to Canceled, which is no status of a work
    log. *)
Lemma worklog_status_route_witness :
  manager_or_admin Sample.manager_user
  /\ put_worklogs_status (Verified Sample.manager_user) "w1"
       (Sample.status_of "Canceled") initial
     = (json 400 (Error "Validation error"), initial).
Proof.
  assert (Hu : manager_or_admin Sample.manager_user) by (left; reflexivity).
  split; [assumption | ].
  apply (proj1 (worklog_status_route Sample.manager_user "w1"
                  (Sample.status_of "Canceled") initial Hu)).
  intros o v [= <-]. cbn. intros [= <-]. reflexivity.
Defined.

(** The state after one upload. *)
Lemma worklogs_filed_witness :
  let s := run Sample.iso_only
             [PostWorklogs "w1" "2025-01-13T00:05:00.000Z" 1736726700000
                (Verified Sample.employee_user)
                (Sample.upload (Some "data:image/png;base64,AAAA"))]
             initial in
  reachable Sample.iso_only s
  /\ map Worklog.id (worklogs s) = ["w1"]
  /\ Forall worklog_ok (worklogs s).
Proof.
  intros s.
  assert (Hr : reachable Sample.iso_only s)
    by apply reachable_run, reachable_initial.
  split; [assumption | ]. split; [reflexivity | ].
  exact (proj2 (proj1 (worklogs_filed Sample.iso_only) s Hr)).
Defined.

(** The listing of 2025-03-31: February has no 31st, the cut-off is the
    third of March. *)
Lemma cutoff_runs_over_witness :
  let now := Sample.at_time 2025 2 31 in
  0 <= JsDate.getMonth now <= 11
  /\ previous_month (JsDate.getFullYear now) (JsDate.getMonth now) = (2025, 2)
  /\ JsDate.month_length 2025 2 < JsDate.getDate now <= 31
  /\ cutStr now = "2025-03-03".
Proof.
  intros now.
  assert (Hm : 0 <= JsDate.getMonth now <= 11) by (cbn; lia).
  assert (Hp : previous_month (JsDate.getFullYear now) (JsDate.getMonth now)
               = (2025, 2)) by reflexivity.
  assert (Hd : JsDate.month_length 2025 2 < JsDate.getDate now <= 31)
    by (cbn; lia).
  repeat (split; [assumption | ]).
  exact (cutoff_runs_over now 2025 2 Hm Hp Hd).
Defined.

(** A leave from the tenth to the twelfth of January 2025. *)
Lemma date_rule_is_date_order_witness :
  calendar_date 2025 1 10 /\ calendar_date 2025 1 12
  /\ not_before Sample.iso_only "2025-01-12" "2025-01-10"
     = String.leb "2025-01-10" "2025-01-12".
Proof.
  assert (H1 : calendar_date 2025 1 10) by (unfold calendar_date; cbn; lia).
  assert (H2 : calendar_date 2025 1 12) by (unfold calendar_date; cbn; lia).
  repeat (split; [assumption | ]).
  exact (proj2 (date_rule_is_date_order Sample.iso_only 2025 1 10 2025 1 12
                  H1 H2)).
Defined.

(** The listing of 2025-06-15 holds the request of 2025-05-20. *)
Lemma recent_listing_by_date_witness :
  let now := Sample.at_time 2025 5 15 in
  let r1 := Sample.row "r1" "2025-05-20" "2025-05-26" "2025-05-27" Pending in
  let r2 := Sample.row "r2" "2025-04-01" "2025-04-07" "2025-04-07" Approved in
  let s := Sample.table [r1; r2] in
  get_requests_recent now (Verified Sample.hr_user) s
  = (json 200 (DataRequests [r1]), s)
  /\ 0 <= JsDate.getMonth now <= 11
  /\ previous_month (JsDate.getFullYear now) (JsDate.getMonth now) = (2025, 5)
  /\ 1 <= JsDate.getDate now <= JsDate.month_length 2025 5
  /\ dateRequested r1 = ymd 2025 5 20
  /\ (In r1 [r1]
      <-> In r1 (requests s)
          /\ date_key 2025 5 (JsDate.getDate now) <= date_key 2025 5 20).
Proof.
  intros now r1 r2 s.
  assert (Hrun : get_requests_recent now (Verified Sample.hr_user) s
                 = (json 200 (DataRequests [r1]), s)) by reflexivity.
  assert (Hm : 0 <= JsDate.getMonth now <= 11) by (cbn; lia).
  assert (Hp : previous_month (JsDate.getFullYear now) (JsDate.getMonth now)
               = (2025, 5)) by reflexivity.
  assert (Hd : 1 <= JsDate.getDate now <= JsDate.month_length 2025 5)
    by (cbn; lia).
  assert (Hr : dateRequested r1 = ymd 2025 5 20) by reflexivity.
  repeat (split; [assumption | ]).
  apply (recent_listing_by_date now _ s [r1] 2025 5 Hrun Hm Hp
           ltac:(lia) Hd r1 2025 5 20 Hr); lia.
Defined.

(** The form of 2025-01-13. *)
Lemma today_passes_date_checks_witness :
  let now := Sample.at_time 2025 0 13 in
  1000 <= JsDate.getFullYear now <= 9999
  /\ 0 <= JsDate.getMonth now <= 11
  /\ 1 <= JsDate.getDate now <= 31
  /\ todayStr now = "2025-01-13"
  /\ not_before Sample.iso_only (todayStr now) (todayStr now) = true.
Proof.
  intros now.
  assert (Hy : 1000 <= JsDate.getFullYear now <= 9999) by (cbn; lia).
  assert (Hm : 0 <= JsDate.getMonth now <= 11) by (cbn; lia).
  assert (Hd : 1 <= JsDate.getDate now <= 31) by (cbn; lia).
  repeat (split; [assumption | ]). split; [reflexivity | ].
  exact (proj2 (proj2 (today_passes_date_checks Sample.iso_only now Hy Hm Hd))).
Defined.

(** The seed of the hr account into the table of two accounts. *)
Lemma seed_then_login_witness :
  (forall salt p,
     compareSync Sample.crypto p (hashSync Sample.crypto salt p) = true)
  /\ "hr"%string <> ""%string /\ "hr123!"%string <> ""%string
  /\ existsb (same_id "u-hr") Sample.accounts = false
  /\ seedUser Sample.crypto "u-hr" "salt" "hr" "김인사" hr "hr123!"
       Sample.accounts <> None.
Proof.
  assert (Hb : forall salt p,
            compareSync Sample.crypto p (hashSync Sample.crypto salt p) = true)
    by (intros salt p; apply String.eqb_refl).
  assert (Hu : "hr"%string <> ""%string) by discriminate.
  assert (Hp : "hr123!"%string <> ""%string) by discriminate.
  repeat (split; [assumption | ]). split; [reflexivity | ].
  exact (proj1 (seed_then_login Sample.crypto "u-hr" "salt" "hr" "김인사" hr
                  "hr123!" Sample.accounts Hb Hu Hp) eq_refl).
Defined.

(** The seed of the manager, twice. *)
Lemma seed_idempotent_witness :
  (forall salt p,
     compareSync Sample.crypto p (hashSync Sample.crypto salt p) = true)
  /\ seedUser Sample.crypto "u-manager" "salt" "manager" "홍팀장" manager
       "manager123!"
       [{| Account.id := "u-employee"; Account.username := "employee";
           Account.name := "이사원"; Account.role := employee;
           Account.passwordHash := "emp123!" |}]
     = Some [{| Account.id := "u-employee"; Account.username := "employee";
                Account.name := "이사원"; Account.role := employee;
                Account.passwordHash := "emp123!" |};
             {| Account.id := "u-manager"; Account.username := "manager";
                Account.name := "홍팀장"; Account.role := manager;
                Account.passwordHash := "manager123!" |}]
  /\ seedUser Sample.crypto "u-other" "pepper" "manager" "홍팀장" manager
       "manager123!"
       [{| Account.id := "u-employee"; Account.username := "employee";
           Account.name := "이사원"; Account.role := employee;
           Account.passwordHash := "emp123!" |};
        {| Account.id := "u-manager"; Account.username := "manager";
           Account.name := "홍팀장"; Account.role := manager;
           Account.passwordHash := "manager123!" |}]
     = Some [{| Account.id := "u-employee"; Account.username := "employee";
                Account.name := "이사원"; Account.role := employee;
                Account.passwordHash := "emp123!" |};
             {| Account.id := "u-manager"; Account.username := "manager";
                Account.name := "홍팀장"; Account.role := manager;
                Account.passwordHash := "manager123!" |}].
Proof.
  assert (Hb : forall salt p,
            compareSync Sample.crypto p (hashSync Sample.crypto salt p) = true)
    by (intros salt p; apply String.eqb_refl).
  split; [assumption | ].
  match goal with |- ?first /\ _ => assert (Hseed : first) by reflexivity end.
  split; [assumption | ].
  exact (seed_idempotent Sample.crypto "u-manager" "salt" "u-other" "pepper"
           "manager" "홍팀장" manager "manager123!" _ _ Hb Hseed).
Defined.

(** The manager gets a new password; the employee's account stays. *)
Lemma seed_keeps_keys_witness :
  NoDup (map Account.id Sample.accounts)
  /\ NoDup (map Account.username Sample.accounts)
  /\ exists users',
       seedUser Sample.crypto "u-other" "salt" "manager" "홍팀장" manager
         "changed!" Sample.accounts = Some users'
       /\ NoDup (map Account.id users')
       /\ NoDup (map Account.username users').
Proof.
  assert (Hid : NoDup (map Account.id Sample.accounts)).
  { repeat constructor; cbn; intros H;
      repeat (destruct H as [H | H]; [discriminate | ]); exact H. }
  assert (Hname : NoDup (map Account.username Sample.accounts)).
  { repeat constructor; cbn; intros H;
      repeat (destruct H as [H | H]; [discriminate | ]); exact H. }
  split; [assumption | ]. split; [assumption | ].
  eexists. split; [reflexivity | ].
  destruct (seed_keeps_keys Sample.crypto "u-other" "salt" "manager" "홍팀장"
              manager "changed!" Sample.accounts _ Hid Hname eq_refl)
    as (H1 & H2 & _).
  split; assumption.
Defined.

(** The manager logs in and sends the token. *)
Lemma login_then_authenticated_witness :
  NoDup (map Account.id Sample.accounts)
  /\ (forall c, verify Sample.crypto (signToken Sample.crypto c) = Some c)
  /\ post_login Sample.crypto (login_body "manager" "manager123!")
       Sample.accounts
     = LoginOk "mu-manager" Sample.manager_user
  /\ read_credentials Sample.crypto (Some "mu-manager") Sample.accounts
     = Verified Sample.manager_user.
Proof.
  assert (Hid : NoDup (map Account.id Sample.accounts)).
  { repeat constructor; cbn; intros H;
      repeat (destruct H as [H | H]; [discriminate | ]); exact H. }
  assert (Hjwt : forall c,
            verify Sample.crypto (signToken Sample.crypto c) = Some c)
    by (intros [sub []]; reflexivity).
  assert (Hlogin : post_login Sample.crypto
                     (login_body "manager" "manager123!") Sample.accounts
                   = LoginOk "mu-manager" Sample.manager_user) by reflexivity.
  repeat (split; [assumption | ]).
  exact (login_then_authenticated Sample.crypto _ _ _ _ Hid Hjwt Hlogin).
Defined.

(** The manager lists the one work log of the employee. *)
Lemma worklogs_listing_witness :
  let w := Sample.worklog "w1" "2025-01-13T00:05:00.000Z" in
  let s := {| requests := []; worklogs := [w]; worklogDir := [] |} in
  let rows := [{| Listed.worklog := w;
                  Listed.uploaderUsername := Some "employee";
                  Listed.uploaderName := Some "이사원" |}] in
  NoDup (map Account.id Sample.accounts)
  /\ get_worklogs Sample.accounts (Verified Sample.manager_user) s = inr rows
  /\ Permutation (map Listed.worklog rows) (worklogs s)
  /\ Forall (shows_uploader Sample.accounts) rows.
Proof.
  intros w s rows.
  assert (Hid : NoDup (map Account.id Sample.accounts)).
  { repeat constructor; cbn; intros H;
      repeat (destruct H as [H | H]; [discriminate | ]); exact H. }
  assert (Hrun : get_worklogs Sample.accounts (Verified Sample.manager_user) s
                 = inr rows) by reflexivity.
  repeat (split; [assumption | ]).
  destruct (worklogs_listing Sample.accounts _ s rows Hid Hrun)
    as (_ & Hperm & _ & Hshow).
  split; assumption.
Defined.

(** The script draws the ninth of March and then the first of February. *)
Lemma seed_period_ordered_witness :
  calendar_date 2025 3 9 /\ calendar_date 2025 2 1
  /\ seed_period "2025-03-09" "2025-02-01" = ("2025-02-01", "2025-03-09")%string
  /\ not_before Sample.iso_only (snd (seed_period "2025-03-09" "2025-02-01"))
       (fst (seed_period "2025-03-09" "2025-02-01")) = true.
Proof.
  assert (H1 : calendar_date 2025 3 9) by (unfold calendar_date; cbn; lia).
  assert (H2 : calendar_date 2025 2 1) by (unfold calendar_date; cbn; lia).
  repeat (split; [assumption | ]). split; [reflexivity | ].
  pose proof (seed_period_ordered Sample.iso_only 2025 3 9 2025 2 1 H1 H2)
    as H.
  cbv zeta in H. exact (proj1 H).
Defined.

(** A form whose end is two days before its start. *)
Lemma client_check_reports_witness :
  let f := Sample.form "2025-01-12" "2025-01-10" in
  calendar_date 2025 1 12 /\ calendar_date 2025 1 10
  /\ date_key 2025 1 10 < date_key 2025 1 12
  /\ In end_before_start_message (validateForm Sample.iso_only f).
Proof.
  intros f.
  assert (H1 : calendar_date 2025 1 12) by (unfold calendar_date; cbn; lia).
  assert (H2 : calendar_date 2025 1 10) by (unfold calendar_date; cbn; lia).
  assert (Hlt : date_key 2025 1 10 < date_key 2025 1 12) by reflexivity.
  repeat (split; [assumption | ]).
  exact (proj1 (proj2 (client_check_reports Sample.iso_only f))
           2025 1 12 2025 1 10 H1 H2 eq_refl eq_refl Hlt).
Defined.

(** The form of the page with a leave of three days. *)
Lemma client_check_and_date_rule_witness :
  let f := Sample.form "2025-01-10" "2025-01-12" in
  validateForm Sample.iso_only f = []
  /\ exists start end_,
       LeaveForm.StartDate f = Some start /\ LeaveForm.EndDate f = Some end_
       /\ (not_before Sample.iso_only end_ start = true
           <-> getTime Sample.iso_only start <> None
               /\ getTime Sample.iso_only end_ <> None).
Proof.
  intros f.
  assert (Hok : validateForm Sample.iso_only f = []) by reflexivity.
  split; [assumption | ].
  exact (client_check_and_date_rule Sample.iso_only f Hok).
Defined.
